(** * TravelDayCalc: the gap annotator and the travel logic

    A shallow embedding of the two logic functions of
    [travel_day_calc_v1_1.py], [calculate_gaps] and [apply_user_logic],
    of the loader [load_and_process_schedule] and of the cost sheet of
    [export_to_excel], together with the properties of the stay-period
    computation, of a loaded schedule and of an exported sheet.

    The ordinals stand for the dates that a [Timestamp] holds with a day
    to spare on either side: there the arithmetic and the [strftime] of
    the model are those of pandas, while beyond them the source raises
    where the model computes on.

    A pandas [DataFrame] is a list of row records in index order.  A
    [pd.Timestamp] without a time of day is the proleptic Gregorian
    ordinal of its date (Python's [date.toordinal()]: day 1 is
    01.01.0001, a Monday), so [timedelta(days=k)] is the addition of [k]
    and [(a - b).days] is a subtraction.  [NaT] and [None] are [None]. *)

From Stdlib Require Import ZArith String Ascii List Bool Lia.
From Stdlib Require OrderedTypeEx.
From stdpp Require Import base option list gmap strings sorting pretty.

Local Open Scope string_scope.
Local Open Scope Z_scope.

(** ** Dates *)

Module Date.

(** [Timestamp.weekday()]: Monday is 0, Sunday is 6. *)
Definition weekday (d : Z) : Z := (d + 6) mod 7.

(** [pd.date_range(start=s, end=e)]: every day from [s] to [e], both
    included; empty when [e] is before [s]. *)
Definition date_range (s e : Z) : list Z := seqZ s (e - s + 1).

(** The civil date (year, month, day) of an ordinal. *)
Definition civil (d : Z) : Z * Z * Z :=
  let z := d + 305 in
  let era := z / 146097 in
  let doe := z - era * 146097 in
  let yoe := (doe - doe / 1460 + doe / 36524 - doe / 146096) / 365 in
  let doy := doe - (365 * yoe + yoe / 4 - yoe / 100) in
  let mp := (5 * doy + 2) / 153 in
  let day := doy - (153 * mp + 2) / 5 + 1 in
  let m := if mp <? 10 then mp + 3 else mp - 9 in
  let y := yoe + era * 400 + (if m <=? 2 then 1 else 0) in
  (y, m, day).

Definition digit (n : Z) : string :=
  String (ascii_of_nat (48 + Z.to_nat (n mod 10))) EmptyString.

Definition two_digits (n : Z) : string := digit (n / 10) +:+ digit n.

Definition four_digits (n : Z) : string :=
  digit (n / 1000) +:+ digit (n / 100) +:+ digit (n / 10) +:+ digit n.

(** [ts.strftime('%d.%m.%Y')]. *)
Definition strftime (d : Z) : string :=
  let '(y, m, day) := civil d in
  two_digits day +:+ "." +:+ two_digits m +:+ "." +:+ four_digits y.

End Date.

(** ** Data frames *)

Module Frame.

(** [df.sort_values(...)] under the order [leb], as an insertion sort
    that keeps rows with equal keys in their order.  The order pandas
    gives to rows with equal keys cannot be seen here: such rows agree on
    every column the two functions read. *)
Fixpoint insert_sorted {A} (leb : A -> A -> bool) (x : A) (l : list A) : list A :=
  match l with
  | [] => [x]
  | y :: l' => if leb x y then x :: l else y :: insert_sorted leb x l'
  end.

Definition sort_values {A} (leb : A -> A -> bool) (l : list A) : list A :=
  foldr (insert_sorted leb) [] l.

(** [df.groupby(...)] with pandas' defaults [sort=True] and
    [dropna=True]: a row whose key has a null component ([key] gives
    [None]) belongs to no group; the groups come in ascending order of
    their keys, the rows of a group in the order of the frame. *)
Definition groupby {A K} `{EqDecision K} (leb : K -> K -> bool)
    (key : A -> option K) (df : list A) : list (K * list A) :=
  let keys := sort_values leb (remove_dups (omap key df)) in
  map (fun k => (k, filter (fun r => key r = Some k) df)) keys.

(** [Series.min()] and [Series.max()] of a column of dates.  The column
    of a group is never empty; pandas gives [NaT] on an empty column, for
    which 0 stands here. *)
Definition col_min (l : list Z) : Z :=
  match l with [] => 0 | d :: ds => foldr Z.min d ds end.

Definition col_max (l : list Z) : Z :=
  match l with [] => 0 | d :: ds => foldr Z.max d ds end.

(** [Series.diff().dt.days - 1] followed by [fillna(0).astype(int)]:
    the first row has no predecessor and gets 0. *)
Fixpoint diff_gap (prev : option Z) (dates : list Z) : list Z :=
  match dates with
  | [] => []
  | d :: ds =>
      match prev with None => 0 | Some p => d - p - 1 end :: diff_gap (Some d) ds
  end.

(** [Series.cumsum()] of a boolean column, [acc] being the sum so far. *)
Fixpoint cumsum (acc : Z) (bs : list bool) : list Z :=
  match bs with
  | [] => []
  | b :: bs' =>
      let acc' := acc + (if b then 1 else 0) in
      acc' :: cumsum acc' bs'
  end.

End Frame.

(** ** Errors

    The two exceptions [apply_user_logic] can raise on well-typed input. *)

Inductive PyError := ValueError | UnboundLocalError.

Inductive PyResult (A : Type) :=
| Ok (a : A)
| Raise (e : PyError).

Arguments Ok {A} a.
Arguments Raise {A} e.

#[global] Instance PyResult_ret : MRet PyResult := fun A a => Ok a.

#[global] Instance PyResult_bind : MBind PyResult := fun A B f m =>
  match m with
  | Ok a => f a
  | Raise e => Raise e
  end.

(** A [for] loop over [l] whose body can raise. *)
Fixpoint for_each {A S} (body : A -> S -> PyResult S) (l : list A) (s : S)
    : PyResult S :=
  match l with
  | [] => Ok s
  | x :: l' => s' ← body x s; for_each body l' s'
  end.

(** Reading a local variable: [None] is a name that is not bound yet. *)
Definition read_local {A} (v : option A) : PyResult A :=
  match v with
  | Some a => Ok a
  | None => Raise UnboundLocalError
  end.

(** ** The gap annotator: [calculate_gaps] *)

(** A row of [df_cast_dates] as [load_and_process_schedule] returns it. *)
Record CastDate := {
  Cast_Member : string;
  Shooting_Date : Z
}.

(** A row of the frame [calculate_gaps] returns. *)
Record GapRow := {
  cast_date : CastDate;
  Previous_Shooting_Date : option Z;
  Gap : Z;
  Weekends_in_Gap : Z
}.

(** [df.groupby('Cast Member')['Shooting Date'].shift(1)]: for every row,
    the date of the previous row of the same cast member in the frame.
    [last] maps a cast member to the date of their latest row so far. *)
Fixpoint shift_by_member (last : gmap string Z) (df : list CastDate)
    : list (option Z) :=
  match df with
  | [] => []
  | r :: df' =>
      last !! Cast_Member r
        :: shift_by_member (<[Cast_Member r := Shooting_Date r]> last) df'
  end.

Definition weekends_in_gap (row : GapRow) : Z :=
  match Previous_Shooting_Date row with
  | None => 0
  | Some previous =>
      if Gap row <=? 0 then 0
      else
        let gap_range :=
          Date.date_range (previous + 1) (Shooting_Date (cast_date row) - 1) in
        Z.of_nat (length (filter (fun d => 5 <= Date.weekday d) gap_range))
  end.

(** A row with its new columns, given the shifted date: ['Gap'] is the
    difference in days less one, and 0 where the shifted date is null
    ([fillna(0)]).  [weekends_in_gap] is applied to the row that has the
    first two new columns. *)
Definition gap_row (r : CastDate) (previous : option Z) : GapRow :=
  let gap :=
    match previous with
    | Some p => Shooting_Date r - p - 1
    | None => 0
    end in
  let row := {| cast_date := r; Previous_Shooting_Date := previous;
                Gap := gap; Weekends_in_Gap := 0 |} in
  {| cast_date := r; Previous_Shooting_Date := previous;
     Gap := gap; Weekends_in_Gap := weekends_in_gap row |}.

Definition calculate_gaps (df_cast_dates : list CastDate) : list GapRow :=
  zip_with gap_row df_cast_dates (shift_by_member ∅ df_cast_dates).

(** ** The period resolver and the travel logic: [apply_user_logic] *)

(** The value under ['Start Date'] or ['End Date'] of a shooting period:
    a timestamp ([NaT] when [None]) or a string still to be parsed. *)
Inductive DateField :=
| Ts (t : option Z)
| DateStr (s : string).

(** An entry of [shooting_periods]. *)
Record ShootingPeriod := {
  Name : string;
  Location : string;
  Start_Date : DateField;
  End_Date : DateField
}.

(** A value of [cast_member_settings]. *)
Record CastSetting := {
  include : bool;
  home_location : string
}.

#[global] Instance CastSetting_inhabited : Inhabited CastSetting :=
  populate {| include := false; home_location := "" |}.

(** What [pd.to_datetime] does with a string: a timestamp, [NaT]
    ([Parses None]) or an exception. *)
Inductive Parsed :=
| Parses (t : option Z)
| ParseError.

(** A row of [df_summary] (an entry of [results]). *)
Record SummaryRow := {
  s_Cast_Member : string;
  s_Home_Location : string;
  s_Travel_Days : Z;
  s_Accommodation_Nights : Z;
  s_Requires_Travel : bool
}.

(** An entry of [export_data]. *)
Record ExportRecord := {
  e_Cast_Member : string;
  e_Home_Location : string;
  e_Period_Name : string;
  e_Period_Number : Z;
  e_Period_Dates : string;
  e_Period_Start_Date : Z;
  e_Period_End_Date : Z;
  e_Period_Travel_Days : Z;
  e_Period_Accommodation_Nights : Z;
  e_Number_of_Shooting_Days : Z;
  e_Number_of_Gap_Days : Z;
  e_Number_of_Travel_Days : Z;
  e_Shooting_Dates : list Z;
  e_X : Z;
  e_4X : Z;
  e_Requires_Travel : bool
}.

(** An entry of [calendar_data]. *)
Record CalendarEvent := {
  c_Cast_Member : string;
  c_Title : string;
  c_Start : string;
  c_End : string;
  c_Description : string;
  c_Location : string;
  c_AllDay : string
}.

(** The names of [apply_user_logic] that live across the iterations of
    its loops.  [arrival_date] and [departure_date] are assigned only in
    some branches, so they may be unbound ([None]) or hold the value of
    an earlier iteration.  The list [summary] is only logged and is left
    out. *)
Record State := {
  arrival_date : option Z;
  departure_date : option Z;
  total_accommodation : Z;
  total_travel : Z;
  results : list SummaryRow;
  export_data : list ExportRecord;
  calendar_data : list CalendarEvent
}.

Definition init_state : State :=
  {| arrival_date := None; departure_date := None;
     total_accommodation := 0; total_travel := 0;
     results := []; export_data := []; calendar_data := [] |}.

(** The key of the outer [groupby]. *)
Definition GroupKey : Type := string * string * string * bool.

Definition member_date_leb (a b : CastDate) : bool :=
  match String.compare (Cast_Member a) (Cast_Member b) with
  | Lt => true
  | Eq => Shooting_Date a <=? Shooting_Date b
  | Gt => false
  end.

Definition bool_leb (a b : bool) : bool := implb a b.

(** Tuples of keys compare lexicographically. *)
Definition group_key_leb (a b : GroupKey) : bool :=
  let '(n1, h1, p1, t1) := a in
  let '(n2, h2, p2, t2) := b in
  match String.compare n1 n2 with
  | Lt => true
  | Gt => false
  | Eq =>
      match String.compare h1 h2 with
      | Lt => true
      | Gt => false
      | Eq =>
          match String.compare p1 p2 with
          | Lt => true
          | Gt => false
          | Eq => bool_leb t1 t2
          end
      end
  end.

(** A comparison of timestamps; any comparison with [NaT] is false. *)
Definition ts_le (a b : option Z) : bool :=
  match a, b with
  | Some x, Some y => x <=? y
  | _, _ => false
  end.

Definition shooting_event (name period_name : string) (shooting_date : Z)
    : CalendarEvent :=
  {| c_Cast_Member := name;
     c_Title := "Shooting in " +:+ period_name;
     c_Start := Date.strftime shooting_date;
     c_End := Date.strftime shooting_date;
     c_Description := "Shooting day in " +:+ period_name;
     c_Location := period_name;
     c_AllDay := "TRUE" |}.

Definition gap_event (name period_name : string) (gap_date : Z)
    : CalendarEvent :=
  {| c_Cast_Member := name;
     c_Title := "Gap Day in " +:+ period_name;
     c_Start := Date.strftime gap_date;
     c_End := Date.strftime gap_date;
     c_Description := "Gap day in " +:+ period_name;
     c_Location := period_name;
     c_AllDay := "TRUE" |}.

Definition travel_to_event (name home_location period_name : string)
    (arrival_date : Z) : CalendarEvent :=
  {| c_Cast_Member := name;
     c_Title := "Travel to " +:+ period_name;
     c_Start := Date.strftime arrival_date;
     c_End := Date.strftime arrival_date;
     c_Description :=
       "Travel from " +:+ home_location +:+ " to " +:+ period_name;
     c_Location := period_name;
     c_AllDay := "TRUE" |}.

Definition travel_back_event (name home_location period_name : string)
    (departure_date : Z) : CalendarEvent :=
  {| c_Cast_Member := name;
     c_Title := "Travel back to " +:+ home_location;
     c_Start := Date.strftime departure_date;
     c_End := Date.strftime departure_date;
     c_Description :=
       "Travel from " +:+ period_name +:+ " to " +:+ home_location;
     c_Location := home_location;
     c_AllDay := "TRUE" |}.

(** The rows of [df_filtered] before ['Requires Travel'] is added. *)
Record FilteredRow := {
  cast : CastDate;
  Period_Name : option string;
  Shooting_Location : option string;
  Home_Location : string;
  Include : bool
}.

(** The rows of [df_filtered] the outer [groupby] sees. *)
Record TravelRow := {
  row : FilteredRow;
  Requires_Travel : bool
}.

(** The rows of [group], with the two columns the loop body adds. *)
Record GroupRow := {
  group_row : TravelRow;
  group_Gap : Z;
  New_Period : Z
}.

Definition row_date (r : TravelRow) : Z := Shooting_Date (cast (row r)).

Definition date_leb (a b : TravelRow) : bool := row_date a <=? row_date b.

(** The grouping columns of a row; a null ['Period Name'] is a null key. *)
Definition grouping_columns (r : TravelRow) : option GroupKey :=
  match Period_Name (row r) with
  | Some p =>
      Some (Cast_Member (cast (row r)), Home_Location (row r), p,
            Requires_Travel r)
  | None => None
  end.

(** What one iteration of the loop of [get_period_info] does after
    looking at a date field: it goes to the next period ([Continue]) or
    goes on with the timestamp now stored in the field. *)
Inductive Step :=
| Continue
| GoOn (t : option Z).

Section Logic.

(** [str.lower] and [pd.to_datetime] are taken as they are. *)
Variable lower : string -> string.
Variable to_datetime : string -> Parsed.

(** The [isinstance(..., str)] block of one date field: the value the
    field holds afterwards, and how the iteration proceeds. *)
Definition ensure_timestamp (v : DateField) : DateField * Step :=
  match v with
  | Ts t => (v, GoOn t)
  | DateStr s =>
      match to_datetime s with
      | ParseError => (v, Continue)
      | Parses None => (Ts None, Continue)
      | Parses (Some d) => (Ts (Some d), GoOn (Some d))
      end
  end.

(** One iteration of [for period in shooting_periods]: the period as the
    iteration leaves it (the parsed dates are stored back into it), and
    whether the iteration returns the period's name and location. *)
Definition check_period (date : Z) (period : ShootingPeriod)
    : ShootingPeriod * bool :=
  let '(start, step) := ensure_timestamp (Start_Date period) in
  let period :=
    {| Name := Name period; Location := Location period;
       Start_Date := start; End_Date := End_Date period |} in
  match step with
  | Continue => (period, false)
  | GoOn a =>
      let '(end_, step) := ensure_timestamp (End_Date period) in
      let period :=
        {| Name := Name period; Location := Location period;
           Start_Date := Start_Date period; End_Date := end_ |} in
      match step with
      | Continue => (period, false)
      | GoOn b => (period, ts_le a (Some date) && ts_le (Some date) b)
      end
  end.

(** [get_period_info(date)]: the pair it returns, and [shooting_periods]
    as the call leaves it. *)
Fixpoint get_period_info (date : Z) (shooting_periods : list ShootingPeriod)
    : (option string * option string) * list ShootingPeriod :=
  match shooting_periods with
  | [] => ((None, None), [])
  | period :: rest =>
      let '(period', found) := check_period date period in
      if found then
        ((Some (Name period'), Some (Location period')), period' :: rest)
      else
        let '(info, rest') := get_period_info date rest in
        (info, period' :: rest')
  end.

(** [df_filtered['Shooting Date'].apply(... get_period_info(date) ...)]:
    one call per row, in the order of the frame, on the same list. *)
Fixpoint period_info_column (dates : list Z)
    (shooting_periods : list ShootingPeriod)
    : list (option string * option string) * list ShootingPeriod :=
  match dates with
  | [] => ([], shooting_periods)
  | date :: dates' =>
      let '(info, shooting_periods) := get_period_info date shooting_periods in
      let '(infos, shooting_periods) :=
        period_info_column dates' shooting_periods in
      (info :: infos, shooting_periods)
  end.

Definition requires_travel (row : FilteredRow) : bool :=
  match Shooting_Location row with
  | None => false
  | Some location =>
      if decide (lower (Home_Location row) = lower location) then false
      else true
  end.

(** The branch [if requires_travel:] of the loop over the periods, where
    [requires_travel] is true.  The string [description] is built and
    never used, and [debug_info] goes to the log only; both are left
    out. *)
Definition travel_branch (weekend_policy : bool)
    (arrival_option departure_option : string)
    (name home_location period_name : string) (period_number : Z)
    (shooting_dates : list Z) (st : State) : PyResult State :=
  let period_length := Z.of_nat (length shooting_dates) in
  let travel_dates : gset Z := ∅ in
  let '(arrival, travel_dates) :=
    if decide (arrival_option = "Day Before Shooting") then
      let a := Frame.col_min shooting_dates - 1 in
      (Some a, {[a]} ∪ travel_dates)
    else if decide (arrival_option = "Same Day as Shooting") then
      let a := Frame.col_min shooting_dates in
      (Some a, {[a]} ∪ travel_dates)
    else (arrival_date st, travel_dates) in
  '(departure, travel_dates) ←
    (if decide (departure_option = "Day After Shooting") then
       let d := Frame.col_max shooting_dates + 1 in
       Ok (Some d, {[d]} ∪ travel_dates)
     else if decide (departure_option = "Same Day as Shooting") then
       let d := Frame.col_max shooting_dates in
       a ← read_local arrival;
       Ok (Some d, if decide (d ≠ a) then {[d]} ∪ travel_dates
                   else travel_dates)
     else Ok (departure_date st, travel_dates));
  let period_travel := Z.of_nat (size travel_dates) in
  d ← read_local departure;
  a ← read_local arrival;
  let period_accommodation := d - a in
  let shooting_dates_set : gset Z := list_to_set shooting_dates in
  let full_date_range := Date.date_range (a + 1) (d - 1) in
  let gap_dates := filter (fun x => x ∉ shooting_dates_set) full_date_range in
  let gap_days := Z.of_nat (length gap_dates) in
  let _ := if weekend_policy then tt else tt in
  let total_accommodation := total_accommodation st + period_accommodation in
  let total_travel := total_travel st + period_travel in
  let period_dates := Date.strftime a +:+ "–" +:+ Date.strftime d in
  let export :=
    {| e_Cast_Member := name;
       e_Home_Location := home_location;
       e_Period_Name :=
         if decide (period_name = "") then "Local" else period_name;
       e_Period_Number := period_number;
       e_Period_Dates := period_dates;
       e_Period_Start_Date := a;
       e_Period_End_Date := d;
       e_Period_Travel_Days := period_travel;
       e_Period_Accommodation_Nights := period_accommodation;
       e_Number_of_Shooting_Days := period_length;
       e_Number_of_Gap_Days := gap_days;
       e_Number_of_Travel_Days := period_travel;
       e_Shooting_Dates := shooting_dates;
       e_X := 1;
       e_4X := 1;
       e_Requires_Travel := true |} in
  Ok {| arrival_date := Some a;
        departure_date := Some d;
        total_accommodation := total_accommodation;
        total_travel := total_travel;
        results := results st;
        export_data := export_data st ++ [export];
        calendar_data :=
          calendar_data st
            ++ [travel_to_event name home_location period_name a]
            ++ map (shooting_event name period_name) shooting_dates
            ++ map (gap_event name period_name) gap_dates
            ++ [travel_back_event name home_location period_name d] |}.

(** The branch [else:] of the loop over the periods. *)
Definition home_branch (name period_name : string) (shooting_dates : list Z)
    (st : State) : State :=
  let shooting_dates_set : gset Z := list_to_set shooting_dates in
  let full_date_range :=
    Date.date_range (Frame.col_min shooting_dates)
                    (Frame.col_max shooting_dates) in
  let gap_dates := filter (fun x => x ∉ shooting_dates_set) full_date_range in
  {| arrival_date := arrival_date st;
     departure_date := departure_date st;
     total_accommodation := total_accommodation st;
     total_travel := total_travel st;
     results := results st;
     export_data := export_data st;
     calendar_data :=
       calendar_data st
         ++ map (shooting_event name period_name) shooting_dates
         ++ map (gap_event name period_name) gap_dates |}.

(** The body of [for period_number, period_group in periods]. *)
Definition period_body (weekend_policy : bool)
    (arrival_option departure_option : string)
    (name home_location period_name : string) (requires_travel : bool)
    (period : Z * list GroupRow) (st : State) : PyResult State :=
  let '(period_number, period_group) := period in
  let shooting_dates := map (fun r => row_date (group_row r)) period_group in
  if requires_travel then
    travel_branch weekend_policy arrival_option departure_option
      name home_location period_name period_number shooting_dates st
  else Ok (home_branch name period_name shooting_dates st).

(** The columns ['Gap'] and ['New Period'] of a group sorted by date. *)
Definition with_new_period (max_gap : Z) (group : list TravelRow)
    : list GroupRow :=
  let gaps := Frame.diff_gap None (map row_date group) in
  let new_period := Frame.cumsum 0 (map (fun g => max_gap <=? g) gaps) in
  zip_with (fun r gn => {| group_row := r; group_Gap := gn.1; New_Period := gn.2 |})
    group (zip gaps new_period).

(** [periods]: the group sorted by date, with its two new columns,
    grouped by ['New Period']. *)
Definition stay_periods (max_gap : Z) (group : list TravelRow)
    : list (Z * list GroupRow) :=
  let group := Frame.sort_values date_leb group in
  let group := with_new_period max_gap group in
  Frame.groupby Z.leb (fun r => Some (New_Period r)) group.

(** The body of [for group_keys, group in df_filtered.groupby(...)]. *)
Definition group_body (max_gap : Z) (weekend_policy : bool)
    (arrival_option departure_option : string)
    (g : GroupKey * list TravelRow) (st : State) : PyResult State :=
  let '(name, home_location, period_name, requires_travel, group) := g in
  let periods := stay_periods max_gap group in
  let st :=
    {| arrival_date := arrival_date st;
       departure_date := departure_date st;
       total_accommodation := 0;
       total_travel := 0;
       results := results st;
       export_data := export_data st;
       calendar_data := calendar_data st |} in
  st ← for_each
         (period_body weekend_policy arrival_option departure_option
            name home_location period_name requires_travel)
         periods st;
  Ok {| arrival_date := arrival_date st;
        departure_date := departure_date st;
        total_accommodation := total_accommodation st;
        total_travel := total_travel st;
        results :=
          results st
            ++ [{| s_Cast_Member := name;
                   s_Home_Location := home_location;
                   s_Travel_Days := total_travel st;
                   s_Accommodation_Nights := total_accommodation st;
                   s_Requires_Travel := requires_travel |}];
        export_data := export_data st;
        calendar_data := calendar_data st |}.

(** The frame [df_filtered] as the outer [groupby] receives it.  Setting
    the two columns ['Period Name'] and ['Shooting Location'] from the
    result of [apply] fails on a frame without rows: [apply] then gives
    an empty [Series], not a frame of two columns, and pandas raises
    [ValueError] ("Columns must be same length as key"). *)
Definition filtered_frame (df_cast_dates : list CastDate)
    (cast_member_settings : gmap string CastSetting)
    (shooting_periods : list ShootingPeriod) : PyResult (list TravelRow) :=
  let df_filtered :=
    filter (fun r => is_Some (cast_member_settings !! Cast_Member r))
      df_cast_dates in
  let df_filtered := Frame.sort_values member_date_leb df_filtered in
  infos ←
    match df_filtered with
    | [] => Raise ValueError
    | _ => Ok (period_info_column (map Shooting_Date df_filtered)
                 shooting_periods).1
    end;
  let df_filtered :=
    zip_with
      (fun r info =>
         let setting := cast_member_settings !!! Cast_Member r in
         {| cast := r;
            Period_Name := info.1;
            Shooting_Location := info.2;
            Home_Location := home_location setting;
            Include := include setting |})
      df_filtered infos in
  let df_filtered := filter (fun r => Include r = true) df_filtered in
  Ok (map (fun r => {| row := r; Requires_Travel := requires_travel r |})
        df_filtered).

(** [apply_user_logic].  Of the frame it is given, the function reads the
    columns ['Cast Member'] and ['Shooting Date'] only (the ['Gap'] of
    [calculate_gaps] is computed anew inside every group), so the frame is
    a list of [CastDate]. *)
Definition apply_user_logic (df_cast_dates : list CastDate) (max_gap : Z)
    (weekend_policy : bool) (arrival_option departure_option : string)
    (cast_member_settings : gmap string CastSetting)
    (shooting_periods : list ShootingPeriod)
    : PyResult (list SummaryRow * list ExportRecord * list CalendarEvent) :=
  df_filtered ← filtered_frame df_cast_dates cast_member_settings
                  shooting_periods;
  st ← for_each
         (group_body max_gap weekend_policy arrival_option departure_option)
         (Frame.groupby group_key_leb grouping_columns df_filtered)
         init_state;
  Ok (results st, export_data st, calendar_data st).

End Logic.

(** ** Vocabulary of the statements *)

(** The timestamp a date field stands for once [get_period_info] has
    looked at it; [None] when it is [NaT] or cannot be parsed. *)
Definition timestamp_of (to_datetime : string -> Parsed) (v : DateField)
    : option Z :=
  match v with
  | Ts t => t
  | DateStr s =>
      match to_datetime s with
      | Parses t => t
      | ParseError => None
      end
  end.

(** The inclusive range of a shooting period contains the date. *)
Definition covers (to_datetime : string -> Parsed) (date : Z)
    (period : ShootingPeriod) : bool :=
  match timestamp_of to_datetime (Start_Date period),
        timestamp_of to_datetime (End_Date period) with
  | Some a, Some b => (a <=? date) && (date <=? b)
  | _, _ => false
  end.

(** Two entries of [shooting_periods] that define the same period: the
    same name and location, and date fields that stand for the same
    timestamps. *)
Definition same_definition (to_datetime : string -> Parsed)
    (p p' : ShootingPeriod) : Prop :=
  Name p' = Name p /\ Location p' = Location p
  /\ timestamp_of to_datetime (Start_Date p')
     = timestamp_of to_datetime (Start_Date p)
  /\ timestamp_of to_datetime (End_Date p')
     = timestamp_of to_datetime (End_Date p).

(** The answer of a scan, as a function of the first period found. *)
Definition answer (found : option ShootingPeriod)
    : option string * option string :=
  match found with
  | Some p => (Some (Name p), Some (Location p))
  | None => (None, None)
  end.

(** The latest date of every cast member after the rows [df]. *)
Definition seen (last : gmap string Z) (df : list CastDate) : gmap string Z :=
  foldl (fun m r => <[Cast_Member r := Shooting_Date r]> m) last df.

(** The two values each option can take in the main window. *)
Definition valid_arrival (arrival_option : string) : Prop :=
  arrival_option = "Day Before Shooting"
  \/ arrival_option = "Same Day as Shooting".

Definition valid_departure (departure_option : string) : Prop :=
  departure_option = "Day After Shooting"
  \/ departure_option = "Same Day as Shooting".

(** A calendar event about travel, by its title. *)
Definition travel_title (e : CalendarEvent) : Prop :=
  exists s, c_Title e = "Travel to " +:+ s
            \/ c_Title e = "Travel back to " +:+ s.

(** Two rows of a group lie in the same stay period. *)
Definition same_period (periods : list (Z * list GroupRow))
    (r1 r2 : GroupRow) : Prop :=
  exists p, p ∈ periods /\ r1 ∈ p.2 /\ r2 ∈ p.2.

(** ** A sample project

    Concrete inputs on which the statements below are instantiated.
    [lower] folds the ASCII letters only, and [to_datetime] knows the
    strings of this project only. *)

Module Sample.

Definition lower_ascii (c : ascii) : ascii :=
  let n := nat_of_ascii c in
  if ((65 <=? n) && (n <=? 90))%nat then ascii_of_nat (n + 32) else c.

Fixpoint lower (s : string) : string :=
  match s with
  | EmptyString => EmptyString
  | String c s' => String (lower_ascii c) (lower s')
  end.

Definition to_datetime (s : string) : Parsed :=
  if decide (s = "2024-01-01T00:00:00") then Parses (Some 738886)
  else if decide (s = "2024-01-15T00:00:00") then Parses (Some 738900)
  else if decide (s = "NaT") then Parses None
  else ParseError.

(** 01.01.2024, 02.01.2024, 10.01.2024 and 01.03.2024. *)
Definition jan_1 : Z := 738886.
Definition jan_2 : Z := 738887.
Definition jan_10 : Z := 738895.
Definition mar_1 : Z := 738946.

Definition shoot (name : string) (date : Z) : CastDate :=
  {| Cast_Member := name; Shooting_Date := date |}.

Definition cast_member_settings : gmap string CastSetting :=
  <["Alice" := {| include := true; home_location := "Local" |}]>
    (<["Bob" := {| include := true; home_location := "away" |}]> ∅).

(** Two periods that overlap from 10.01.2024 to 15.01.2024. *)
Definition block_1 : ShootingPeriod :=
  {| Name := "Block 1"; Location := "Away";
     Start_Date := Ts (Some jan_1);
     End_Date := DateStr "2024-01-15T00:00:00" |}.

Definition block_2 : ShootingPeriod :=
  {| Name := "Block 2"; Location := "Local";
     Start_Date := Ts (Some jan_10);
     End_Date := Ts (Some 738917) |}.

Definition shooting_periods : list ShootingPeriod := [block_1; block_2].

Definition df_cast_dates : list CastDate :=
  [shoot "Alice" jan_1; shoot "Alice" jan_2; shoot "Alice" jan_10;
   shoot "Bob" jan_1].

Definition travel_row (name : string) (date : Z) : TravelRow :=
  {| row := {| cast := shoot name date;
               Period_Name := Some "Block 1";
               Shooting_Location := Some "Away";
               Home_Location := "Local";
               Include := true |};
     Requires_Travel := true |}.

Definition group_of (r : TravelRow) : GroupRow :=
  {| group_row := r; group_Gap := 0; New_Period := 0 |}.

End Sample.

(** ** Vocabulary of the run *)

Definition sum_Z (l : list Z) : Z := foldr Z.add 0 l.

(** The shooting dates of a stay period. *)
Definition period_dates (p : Z * list GroupRow) : list Z :=
  map (fun r => row_date (group_row r)) p.2.

(** What the loop body of one group leaves behind: its summary row, its
    export records and its calendar events.  The row carries the cast
    member, the home location and the travel flag of the key and the sums
    over the export records; a group that requires travel has one export
    record per stay period, with the number and the shooting dates of
    the period, and a group that does not has none. *)
Definition group_outcome (max_gap : Z) (g : GroupKey * list TravelRow)
    (out : SummaryRow * list ExportRecord * list CalendarEvent) : Prop :=
  let '(name, home_location, period_name, requires_travel, group) := g in
  let '(summary_row, block, events) := out in
  s_Cast_Member summary_row = name
  /\ s_Home_Location summary_row = home_location
  /\ s_Requires_Travel summary_row = requires_travel
  /\ s_Travel_Days summary_row = sum_Z (map e_Period_Travel_Days block)
  /\ s_Accommodation_Nights summary_row
     = sum_Z (map e_Period_Accommodation_Nights block)
  /\ Forall (fun e => e_Cast_Member e = name
                      /\ e_Home_Location e = home_location) block
  /\ Forall (fun ev => c_Cast_Member ev = name) events
  /\ (if requires_travel
      then Forall2 (fun p e => e_Period_Number e = p.1
                               /\ e_Shooting_Dates e = period_dates p)
             (stay_periods max_gap group) block
      else block = []).

(** A cast member that has settings and is included. *)
Definition included (cast_member_settings : gmap string CastSetting)
    (name : string) : Prop :=
  exists setting,
    cast_member_settings !! name = Some setting /\ include setting = true.

(** The row of [df_filtered] a record gets when the periods are scanned
    as they are given. *)
Definition located_row (to_datetime : string -> Parsed)
    (cast_member_settings : gmap string CastSetting)
    (shooting_periods : list ShootingPeriod) (c : CastDate) : FilteredRow :=
  let info :=
    answer (List.find (covers to_datetime (Shooting_Date c))
              shooting_periods) in
  {| cast := c;
     Period_Name := info.1;
     Shooting_Location := info.2;
     Home_Location := home_location (cast_member_settings !!! Cast_Member c);
     Include := include (cast_member_settings !!! Cast_Member c) |}.

(** The stay periods of the groups that require travel, each with the
    key of its group, in the order of the run. *)
Definition travel_stays (max_gap : Z)
    (groups : list (GroupKey * list TravelRow))
    : list (GroupKey * (Z * list GroupRow)) :=
  flat_map
    (fun g : GroupKey * list TravelRow =>
       if g.1.2 then map (fun p => (g.1, p)) (stay_periods max_gap g.2)
       else [])
    groups.

(** One of the two locals is unbound and its option assigns it nowhere. *)
Definition unbound_local (arrival_option departure_option : string)
    (st : State) : Prop :=
  (~ valid_arrival arrival_option /\ arrival_date st = None)
  \/ (~ valid_departure departure_option /\ departure_date st = None).

(** The number of Saturdays and Sundays among the [n] days from [s] on. *)
Definition weekend_days (s n : Z) : nat :=
  length (filter (fun d => 5 <= Date.weekday d) (seqZ s n)).

(** The export record of a stay period under the options of the window,
    in closed form. *)
Definition travel_export (arrival_option departure_option : string)
    (name home_location period_name : string) (period_number : Z)
    (shooting_dates : list Z) : ExportRecord :=
  let a := if decide (arrival_option = "Day Before Shooting")
           then Frame.col_min shooting_dates - 1
           else Frame.col_min shooting_dates in
  let d := if decide (departure_option = "Day After Shooting")
           then Frame.col_max shooting_dates + 1
           else Frame.col_max shooting_dates in
  let gap_dates :=
    filter (fun x => x ∉ (list_to_set shooting_dates : gset Z))
      (Date.date_range (a + 1) (d - 1)) in
  let period_travel := if decide (d = a) then 1 else 2 in
  {| e_Cast_Member := name;
     e_Home_Location := home_location;
     e_Period_Name :=
       if decide (period_name = "") then "Local" else period_name;
     e_Period_Number := period_number;
     e_Period_Dates := Date.strftime a +:+ "–" +:+ Date.strftime d;
     e_Period_Start_Date := a;
     e_Period_End_Date := d;
     e_Period_Travel_Days := period_travel;
     e_Period_Accommodation_Nights := d - a;
     e_Number_of_Shooting_Days := Z.of_nat (length shooting_dates);
     e_Number_of_Gap_Days := Z.of_nat (length gap_dates);
     e_Number_of_Travel_Days := period_travel;
     e_Shooting_Dates := shooting_dates;
     e_X := 1;
     e_4X := 1;
     e_Requires_Travel := true |}.

(** The export record of a stay with the key of its group. *)
Definition stay_record (arrival_option departure_option : string)
    (stay : GroupKey * (Z * list GroupRow)) : ExportRecord :=
  let '(name, home_location, period_name, _, period) := stay in
  travel_export arrival_option departure_option name home_location
    period_name period.1 (period_dates period).

(** The stay periods of all groups, each with the key of its group, in
    the order of the run. *)
Definition all_stays (max_gap : Z)
    (groups : list (GroupKey * list TravelRow))
    : list (GroupKey * (Z * list GroupRow)) :=
  flat_map
    (fun g : GroupKey * list TravelRow =>
       map (fun p => (g.1, p)) (stay_periods max_gap g.2))
    groups.

(** The calendar events of a stay: the shooting days and the gap days,
    and the two journeys around them where travel is required. *)
Definition stay_events (arrival_option departure_option : string)
    (stay : GroupKey * (Z * list GroupRow)) : list CalendarEvent :=
  let '(name, home_location, period_name, requires_travel, period) := stay in
  let shooting_dates := period_dates period in
  let shooting_dates_set : gset Z := list_to_set shooting_dates in
  if requires_travel then
    let a := if decide (arrival_option = "Day Before Shooting")
             then Frame.col_min shooting_dates - 1
             else Frame.col_min shooting_dates in
    let d := if decide (departure_option = "Day After Shooting")
             then Frame.col_max shooting_dates + 1
             else Frame.col_max shooting_dates in
    ([travel_to_event name home_location period_name a]
       ++ map (shooting_event name period_name) shooting_dates
       ++ map (gap_event name period_name)
            (filter (fun x => x ∉ shooting_dates_set)
               (Date.date_range (a + 1) (d - 1)))
       ++ [travel_back_event name home_location period_name d])%list
  else
    (map (shooting_event name period_name) shooting_dates
       ++ map (gap_event name period_name)
            (filter (fun x => x ∉ shooting_dates_set)
               (Date.date_range (Frame.col_min shooting_dates)
                  (Frame.col_max shooting_dates))))%list.

(** ** The loader: [load_and_process_schedule]

    The sheet is the frame [pd.read_excel] returns, with its columns
    'CAST' and 'SHOOTING DATE'.  An empty cell ([NaN]) is [None].  A cell
    of 'CAST' that is not empty holds text.  A date cell holds text or,
    where the sheet stores a date, a timestamp.  The methods of [str]
    and [re] and the parser of the date format are
    parameters: [str.split(',')], [str.strip()], the two substitutions of
    [clean_cast_member], and [pd.to_datetime(., format='%d.%m.%Y')] on
    one string, which gives a date, [NaT] or a [ValueError]. *)

Record SheetRow : Type := {
  CAST : option string;
  SHOOTING_DATE : option DateField
}.

(** A row of the loaded schedule: 'Cast Member' and 'Shooting Date'. *)
Definition LoadedRow : Type := string * option Z.

(** [Series.explode] on a column of lists: one row for each element, and
    one row with [NaN] for an empty list. *)
Definition explode {A : Type} (l : list A) : list (option A) :=
  match l with
  | [] => [None]
  | _ => map Some l
  end.

(** [DataFrame.drop_duplicates()]: the first of equal rows is kept. *)
Fixpoint drop_duplicates_from {A : Type} `{EqDecision A} (seen l : list A)
    : list A :=
  match l with
  | [] => []
  | x :: l =>
      if decide (x ∈ seen) then drop_duplicates_from seen l
      else x :: drop_duplicates_from (x :: seen) l
  end.

Definition drop_duplicates {A : Type} `{EqDecision A} (l : list A) : list A :=
  drop_duplicates_from [] l.

(** The order of a date column in [sort_values]: [NaT] comes last. *)
Definition nat_last_leb (a b : option Z) : bool :=
  match a, b with
  | Some x, Some y => x <=? y
  | Some _, None => true
  | None, Some _ => false
  | None, None => true
  end.

(** [sort_values(['Cast Member', 'Shooting Date'])]. *)
Definition loaded_leb (a b : LoadedRow) : bool :=
  match String.compare a.1 b.1 with
  | Lt => true
  | Eq => nat_last_leb a.2 b.2
  | Gt => false
  end.

Section Loader.

Variable str_split : string -> list string.
Variable str_strip : string -> string.
Variable sub_leading_number : string -> string.
Variable sub_bracketed_number : string -> string.
Variable to_datetime_format : string -> Parsed.

Definition split_cast (cast_str : option string) : list string :=
  match cast_str with
  | None => []
  | Some cast_str => map str_strip (str_split cast_str)
  end.

(** A name that is no string, as [NaN] is, is [None]. *)
Definition clean_cast_member (name : option string) : string :=
  match name with
  | Some name => str_strip (sub_bracketed_number (sub_leading_number name))
  | None => ""
  end.

(** [pd.to_datetime] on one cell of the date column. *)
Definition to_datetime_cell (cell : option DateField)
    : PyResult (option Z) :=
  match cell with
  | None => Ok None
  | Some (Ts t) => Ok t
  | Some (DateStr s) =>
      match to_datetime_format s with
      | Parses t => Ok t
      | ParseError => Raise ValueError
      end
  end.

Definition load_and_process_schedule (df : list SheetRow)
    : PyResult (list LoadedRow) :=
  let df_exploded :=
    flat_map
      (fun r => map (fun c => (c, SHOOTING_DATE r))
                  (explode (split_cast (CAST r))))
      df in
  df_exploded ←
    mapM (fun r : option string * option DateField =>
            d ← to_datetime_cell r.2; mret (r.1, d))
      df_exploded;
  let df_exploded :=
    filter (fun r : option string * option Z => is_Some r.1) df_exploded in
  let df_exploded :=
    map (fun r : option string * option Z => (clean_cast_member r.1, r.2))
      df_exploded in
  mret (Frame.sort_values loaded_leb (drop_duplicates df_exploded)).

End Loader.


(** The date of a cell when it has one. *)
Definition cell_date (to_datetime_format : string -> Parsed)
    (cell : option DateField) : option Z :=
  match to_datetime_cell to_datetime_format cell with
  | Ok d => d
  | Raise _ => None
  end.

(** The rows of the sheet with the names of their cast, before the
    duplicates are dropped. *)
Definition named_rows (str_split : string -> list string)
    (str_strip sub_leading_number sub_bracketed_number : string -> string)
    (to_datetime_format : string -> Parsed)
    (df : list SheetRow) : list LoadedRow :=
  flat_map
    (fun r =>
       map (fun piece =>
              (clean_cast_member str_strip sub_leading_number
                 sub_bracketed_number (Some piece),
               cell_date to_datetime_format (SHOOTING_DATE r)))
         (split_cast str_split str_strip (CAST r)))
    df.

(** ** A sample sheet

    The methods of [str] and [re] on ASCII text, a parser that knows the
    dates of this sheet only, and a sheet of four rows. *)

Module SampleSheet.

Definition isspace (c : ascii) : bool :=
  let n := nat_of_ascii c in
  ((9 <=? n) && (n <=? 13) || (28 <=? n) && (n <=? 32))%nat.

Definition isdigit (c : ascii) : bool :=
  let n := nat_of_ascii c in ((48 <=? n) && (n <=? 57))%nat.

Fixpoint lstrip (s : string) : string :=
  match s with
  | EmptyString => EmptyString
  | String c s' => if isspace c then lstrip s' else s
  end.

Fixpoint rstrip (s : string) : string :=
  match s with
  | EmptyString => EmptyString
  | String c s' =>
      match rstrip s' with
      | EmptyString => if isspace c then EmptyString else String c EmptyString
      | r => String c r
      end
  end.

Definition str_strip (s : string) : string := rstrip (lstrip s).

Fixpoint str_split (s : string) : list string :=
  match s with
  | EmptyString => [EmptyString]
  | String c s' =>
      if Ascii.eqb c ","%char then EmptyString :: str_split s'
      else match str_split s' with
           | piece :: pieces => String c piece :: pieces
           | [] => [String c EmptyString]
           end
  end.

Fixpoint skip_digits (s : string) : string :=
  match s with
  | EmptyString => EmptyString
  | String c s' => if isdigit c then skip_digits s' else s
  end.

Definition sub_leading_number (s : string) : string :=
  match s with
  | EmptyString => s
  | String c s' =>
      if isdigit c
      then match skip_digits s' with
           | String "."%char rest => rest
           | _ => s
           end
      else s
  end.

(** What follows a match of [\s*\(\d+\)] at the start of [s]. *)
Definition match_bracketed (s : string) : option string :=
  match lstrip s with
  | String "("%char (String c s') =>
      if isdigit c
      then match skip_digits s' with
           | String ")"%char rest => Some rest
           | _ => None
           end
      else None
  | _ => None
  end.

Fixpoint sub_bracketed_from (fuel : nat) (s : string) : string :=
  match fuel with
  | O => s
  | S fuel =>
      match match_bracketed s with
      | Some rest => sub_bracketed_from fuel rest
      | None =>
          match s with
          | EmptyString => EmptyString
          | String c s' => String c (sub_bracketed_from fuel s')
          end
      end
  end.

Definition sub_bracketed_number (s : string) : string :=
  sub_bracketed_from (String.length s) s.

Definition to_datetime_format (s : string) : Parsed :=
  if decide (s = "01.01.2024") then Parses (Some Sample.jan_1)
  else if decide (s = "02.01.2024") then Parses (Some Sample.jan_2)
  else if decide (s = "") then Parses None
  else ParseError.

Definition sheet : list SheetRow :=
  [{| CAST := Some "1.Alice, Bob (2)";
      SHOOTING_DATE := Some (DateStr "02.01.2024") |};
   {| CAST := Some "Bob,1.Alice";
      SHOOTING_DATE := Some (Ts (Some Sample.jan_1)) |};
   {| CAST := None; SHOOTING_DATE := Some (DateStr "01.01.2024") |};
   {| CAST := Some " Alice (1)";
      SHOOTING_DATE := Some (DateStr "02.01.2024") |}].

(** A sheet with a date in another format, in a row without cast. *)
Definition misdated : list SheetRow :=
  [{| CAST := Some "Alice"; SHOOTING_DATE := Some (DateStr "01.01.2024") |};
   {| CAST := None; SHOOTING_DATE := Some (DateStr "2024-01-03") |}].

Definition load (df : list SheetRow) : PyResult (list LoadedRow) :=
  load_and_process_schedule str_split str_strip sub_leading_number
    sub_bracketed_number to_datetime_format df.

Definition loaded : list LoadedRow :=
  [("Alice", Some Sample.jan_1); ("Alice", Some Sample.jan_2);
   ("Bob", Some Sample.jan_1); ("Bob", Some Sample.jan_2)].

End SampleSheet.

(** ** The sheet of costs: [export_to_excel]

    A worksheet is the list of its rows, a row the list of its cells; an
    appended row comes after the last one, an appended empty row has no
    cells.  The widths of the columns are left out.  What the user is
    shown and the file that is written are the outcome.  The order in
    which Python iterates over a set is a parameter, and so is the
    outcome of [wb.save], which lies with the file system: an error it
    raises reaches the handler of the method like any other. *)

Inductive Cell :=
| Text (s : string)
| Number (n : Z).

(** How the method ends: one of the three warnings, the message of the
    handler of exceptions, or the workbook saved under the file name. *)
Inductive Exported :=
| NoDataToExport
| NoTravelData
| ExportCancelled
| ExportFailed
| ExportSuccessful (filename : string) (ws : list (list Cell)).

(** [ws.append(row)]. *)
Definition append (ws : list (list Cell)) (row : list Cell)
    : list (list Cell) :=
  (ws ++ [row])%list.

(** [ws.max_row]: the number of the last row that has cells, and 1 on a
    sheet without cells. *)
Definition max_row (ws : list (list Cell)) : Z :=
  foldr Z.max 1
    (imap (fun i row => match row with
                        | [] => 0
                        | _ => Z.of_nat i + 1
                        end) ws).

(** [get_column_letter] on the columns 1 to 26. *)
Definition get_column_letter (col : Z) : string :=
  String (ascii_of_nat (64 + Z.to_nat col)) EmptyString.

(** [cell.coordinate]. *)
Definition coordinate (row col : Z) : string :=
  get_column_letter col +:+ pretty row.

Definition rate_labels : list string :=
  ["Ticket Rate"; "Accommodation Rate"; "Per Diem Shooting Rate";
   "Per Diem Travel Rate"; "Per Diem Gap Day Rate"; "Hourly Travel Rate"].

Definition headers : list string :=
  ["Description"; "Amt"; "Unit"; "x"; "Currency"; "Unit 2"; "Rate";
   "Unit 3"; "4x"; "Unit 4"; "Subtotal"].

(** The addresses of the rate cells of the row [start_row] of the rate
    table, by label. *)
Definition rate_cells_of_row (start_row : Z) : gmap string string :=
  <["Travel Hours per Route" :=
      coordinate start_row (2 + Z.of_nat (length rate_labels))]>
    (foldl (fun refs '(col_index, rate_label) =>
              <[rate_label := coordinate start_row col_index]> refs)
       ∅ (imap (fun i rate_label => (2 + Z.of_nat i, rate_label))
            rate_labels)).

(** [for location in unique_locations]: a row of the rate table for each
    location, every rate and the travel hours being 0.  The cells of the
    row [start_row] are set one by one; it is the row after the last. *)
Fixpoint rate_table (unique_locations : list string) (start_row : Z)
    (ws : list (list Cell)) (rate_cell_refs : gmap string (gmap string string))
    : list (list Cell) * gmap string (gmap string string) :=
  match unique_locations with
  | [] => (ws, rate_cell_refs)
  | location :: rest =>
      let row :=
        Text (if decide (location = "") then "Local" else location)
        :: (map (fun _ => Number 0) rate_labels ++ [Number 0])%list in
      rate_table rest (start_row + 1) (append ws row)
        (<[location := rate_cells_of_row start_row]> rate_cell_refs)
  end.

Definition subtotal_formula (current_row : Z) : string :=
  "=B" +:+ pretty current_row +:+ "*D" +:+ pretty current_row +:+ "*G"
  +:+ pretty current_row +:+ "*I" +:+ pretty current_row.

(** [ws.cell(row=row, column=column).value = value] on a cell the sheet
    has. *)
Definition set_cell (ws : list (list Cell)) (row column : Z) (value : Cell)
    : list (list Cell) :=
  alter (fun cells => <[Z.to_nat (column - 1) := value]> cells)
    (Z.to_nat (row - 1)) ws.

(** The eleven cells of a data row. *)
Definition data_row (description : string) (amt : Cell) (unit : string)
    (x : Z) (rate_cell_value : string) (four_x : Z) (subtotal : string)
    : list Cell :=
  [Text description; amt; Text unit; Number x; Text ""; Text "";
   Text rate_cell_value; Text ""; Number four_x; Text ""; Text subtotal].

(** The five statements that write a data row: the row is appended with
    an empty subtotal, and the formula is set into its eleventh cell. *)
Definition append_data_row (ws : list (list Cell)) (description : string)
    (amt : Cell) (unit : string) (x four_x : Z) (rate_cell : string)
    : list (list Cell) :=
  let rate_cell_in_formula := "$" +:+ rate_cell in
  let rate_cell_value := "=" +:+ rate_cell_in_formula in
  let ws :=
    append ws (data_row description amt unit x rate_cell_value four_x "") in
  let current_row := max_row ws in
  set_cell ws current_row 11 (Text (subtotal_formula current_row)).

(** The location under which an item looks its rates up. *)
Definition location_of (item : ExportRecord) : string :=
  if decide (e_Period_Name item = "") then "Local" else e_Period_Name item.

(** How the descriptions of the rows of an item begin. *)
Definition item_label (item : ExportRecord) : string :=
  e_Cast_Member item +:+ " (" +:+ e_Home_Location item +:+ ", "
  +:+ location_of item +:+ ") ".

(** The body of [for item in filtered_export_data].  A rate that
    [rate_cells] does not have is a [KeyError], which is [None]. *)
Definition export_item (max_gap : Z)
    (rate_cell_refs : gmap string (gmap string string))
    (ws : list (list Cell)) (item : ExportRecord) : option (list (list Cell)) :=
  let cast_member := e_Cast_Member item in
  let home_location := e_Home_Location item in
  let period_name := e_Period_Name item in
  let period_dates_str := e_Period_Dates item in
  let x := e_X item in
  let four_x := e_4X item in
  let location := if decide (period_name = "") then "Local" else period_name in
  let rate_cells := default ∅ (rate_cell_refs !! location) in
  let who := item_label item in
  rate ← rate_cells !! "Ticket Rate";
  let ws :=
    append_data_row ws (who +:+ "travel tickets " +:+ period_dates_str)
      (Number 1) "return" x four_x rate in
  rate ← rate_cells !! "Accommodation Rate";
  let ws :=
    append_data_row ws (who +:+ "accommodation " +:+ period_dates_str)
      (Number (e_Period_Accommodation_Nights item)) "nights" x four_x rate in
  rate ← rate_cells !! "Per Diem Shooting Rate";
  let ws :=
    append_data_row ws
      (who +:+ "per diems shooting days " +:+ period_dates_str)
      (Number (e_Number_of_Shooting_Days item)) "days" x four_x rate in
  let shooting_dates := e_Shooting_Dates item in
  let arrival_date := e_Period_Start_Date item in
  rate ← rate_cells !! "Per Diem Travel Rate";
  let ws :=
    append_data_row ws
      (who +:+ "per diem travel day arrival " +:+ Date.strftime arrival_date)
      (Number (if decide (arrival_date ∈ shooting_dates) then 0 else 1))
      "day" x four_x rate in
  let departure_date := e_Period_End_Date item in
  rate ← rate_cells !! "Per Diem Travel Rate";
  let ws :=
    append_data_row ws
      (who +:+ "per diem travel day departure "
       +:+ Date.strftime departure_date)
      (Number (if decide (departure_date ∈ shooting_dates) then 0 else 1))
      "day" x four_x rate in
  ws ←
    (if decide (0 < e_Number_of_Gap_Days item
                /\ e_Number_of_Gap_Days item <= max_gap)
     then
       rate ← rate_cells !! "Per Diem Gap Day Rate";
       Some (append_data_row ws
               (who +:+ "per diems gap days " +:+ period_dates_str)
               (Number (e_Number_of_Gap_Days item)) "days" x four_x rate)
     else Some ws);
  hours ← rate_cells !! "Travel Hours per Route";
  rate ← rate_cells !! "Hourly Travel Rate";
  Some (append_data_row ws (who +:+ "travel hours " +:+ period_dates_str)
          (Text ("=$" +:+ hours)) "hours" x four_x rate).

Fixpoint export_items (max_gap : Z)
    (rate_cell_refs : gmap string (gmap string string))
    (ws : list (list Cell)) (items : list ExportRecord)
    : option (list (list Cell)) :=
  match items with
  | [] => Some ws
  | item :: rest =>
      ws ← export_item max_gap rate_cell_refs ws item;
      export_items max_gap rate_cell_refs ws rest
  end.

Definition start_date_leb (a b : ExportRecord) : bool :=
  e_Period_Start_Date a <=? e_Period_Start_Date b.

Section ExportSheet.

(** The order in which the elements of [set(l)] are iterated over. *)
Variable iter_set : list string -> list string.

(** Whether [wb.save(filename)] writes the sheet, or raises. *)
Variable wb_save : string -> list (list Cell) -> bool.

(** [export_data] is [None] when the window has no such attribute;
    [filename] is what the file dialog returns, [max_gap] the value of
    the spin box.  The two assignments to [current_row] before the loop
    are never read: every data row sets it anew from [ws.max_row]. *)
Definition export_to_excel (export_data : option (list ExportRecord))
    (filename : string) (max_gap : Z) : Exported :=
  match export_data with
  | None | Some [] => NoDataToExport
  | Some export_data =>
      let filtered_export_data :=
        filter (fun item => e_Requires_Travel item = true) export_data in
      match filtered_export_data with
      | [] => NoTravelData
      | _ =>
          let filtered_export_data :=
            Frame.sort_values start_date_leb filtered_export_data in
          if decide (filename = "") then ExportCancelled
          else
            let unique_locations :=
              iter_set (map e_Period_Name filtered_export_data) in
            let ws : list (list Cell) :=
              append []
                (Text "Location"
                 :: (map Text rate_labels
                     ++ [Text "Travel Hours per Route"])%list) in
            let '(ws, rate_cell_refs) :=
              rate_table unique_locations (max_row ws + 1) ws ∅ in
            let ws := append ws [] in
            let ws := append ws (map Text headers) in
            match export_items max_gap rate_cell_refs ws
                    filtered_export_data with
            | Some ws =>
                if wb_save filename ws then ExportSuccessful filename ws
                else ExportFailed
            | None => ExportFailed
            end
      end
  end.

End ExportSheet.

(** The row of the rate table of a location. *)
Definition rate_row (location : string) : list Cell :=
  Text (if decide (location = "") then "Local" else location)
  :: (map (fun _ => Number 0) rate_labels ++ [Number 0])%list.

(** The rows of an item: its amounts by unit. *)
Definition amount (row : list Cell) : Z :=
  match row !! 1%nat with
  | Some (Number n) => n
  | _ => 0
  end.

Definition per_diem (row : list Cell) : bool :=
  match row !! 2%nat with
  | Some (Text unit) =>
      bool_decide (unit = "days") || bool_decide (unit = "day")
  | _ => false
  end.

(** The days of an item for which the sheet has a per diem. *)
Definition per_diem_days (rows : list (list Cell)) : Z :=
  sum_Z (map amount (filter (fun row => per_diem row = true) rows)).

(** ** A sample run

    The run of the sample project under the options 'Day Before Shooting'
    and 'Day After Shooting' with a threshold of 2, what it returns, and
    the sheet of its export records. *)

Module SampleRun.

Definition run
    : PyResult (list SummaryRow * list ExportRecord * list CalendarEvent) :=
  apply_user_logic Sample.lower Sample.to_datetime Sample.df_cast_dates 2
    false "Day Before Shooting" "Day After Shooting"
    Sample.cast_member_settings Sample.shooting_periods.

Definition df_filtered : list TravelRow :=
  Eval vm_compute in
    match filtered_frame Sample.lower Sample.to_datetime Sample.df_cast_dates
            Sample.cast_member_settings Sample.shooting_periods with
    | Ok df => df
    | Raise _ => []
    end.

Definition df_summary : list SummaryRow :=
  Eval vm_compute in
    match run with Ok out => out.1.1 | Raise _ => [] end.

Definition export : list ExportRecord :=
  Eval vm_compute in
    match run with Ok out => out.1.2 | Raise _ => [] end.

Definition calendar : list CalendarEvent :=
  Eval vm_compute in
    match run with Ok out => out.2 | Raise _ => [] end.

(** Settings under which nobody is included. *)
Definition nobody : gmap string CastSetting :=
  <["Alice" := {| include := false; home_location := "Local" |}]> ∅.

(** A record as the run gives none: its period has no name. *)
Definition unnamed : ExportRecord :=
  {| e_Cast_Member := "Alice"; e_Home_Location := "Local";
     e_Period_Name := ""; e_Period_Number := 0;
     e_Period_Dates := "01.01.2024–01.01.2024";
     e_Period_Start_Date := Sample.jan_1; e_Period_End_Date := Sample.jan_1;
     e_Period_Travel_Days := 1; e_Period_Accommodation_Nights := 0;
     e_Number_of_Shooting_Days := 1; e_Number_of_Gap_Days := 0;
     e_Number_of_Travel_Days := 1; e_Shooting_Dates := [Sample.jan_1];
     e_X := 1; e_4X := 1; e_Requires_Travel := true |}.

(** A file system on which every workbook is saved. *)
Definition wb_save (filename : string) (ws : list (list Cell)) : bool := true.

(** The sheet of the export records, a set being iterated over in the
    order of the first occurrences. *)
Definition ws : list (list Cell) :=
  Eval vm_compute in
    match export_to_excel remove_dups wb_save (Some export) "costs.xlsx" 2
    with
    | ExportSuccessful _ ws => ws
    | _ => []
    end.

End SampleRun.

(** ** Period and location assignment *)

Section PeriodLookup.

Variable to_datetime : string -> Parsed.

(** An iteration returns exactly when the range of the period, with its
    dates parsed, contains the date. *)
Lemma check_period_covers (date : Z) (p : ShootingPeriod) :
  (check_period to_datetime date p).2 = covers to_datetime date p.
Proof.
  unfold check_period, covers, ensure_timestamp, timestamp_of.
  destruct p as [n l st en]; simpl.
  destruct st as [[a|]|s]; simpl; destruct en as [[b|]|s']; simpl;
    repeat (match goal with
            | |- context [to_datetime ?x] =>
                destruct (to_datetime x) as [[?|]|] eqn:?; simpl
            end);
    rewrite ?andb_false_r; reflexivity.
Qed.

(** Storing the parsed dates back changes neither the name, nor the
    location, nor the dates the fields stand for. *)
Lemma check_period_same_definition (date : Z) (p : ShootingPeriod) :
  same_definition to_datetime p (check_period to_datetime date p).1.
Proof.
  unfold same_definition, check_period, ensure_timestamp.
  destruct p as [n l st en]; simpl.
  destruct st as [[a|]|s]; simpl; destruct en as [[b|]|s']; simpl;
    repeat (match goal with
            | |- context [match to_datetime ?x with _ => _ end] =>
                let E := fresh "E" in
                destruct (to_datetime x) as [[?|]|] eqn:E; simpl; rewrite ?E
            end);
    auto.
Qed.

Lemma same_definition_covers (date : Z) (p p' : ShootingPeriod) :
  same_definition to_datetime p p' ->
  covers to_datetime date p' = covers to_datetime date p.
Proof.
  intros (_ & _ & Hs & He). unfold covers. now rewrite Hs, He.
Qed.

Lemma get_period_info_find (date : Z) (ps : list ShootingPeriod) :
  (get_period_info to_datetime date ps).1
  = answer (List.find (covers to_datetime date) ps).
Proof.
  induction ps as [|p ps IH]; simpl; [reflexivity|].
  pose proof (check_period_covers date p) as Hc.
  pose proof (check_period_same_definition date p) as (Hn & Hl & _).
  destruct (check_period to_datetime date p) as [p' found]; simpl in *.
  rewrite <- Hc. destruct found; simpl.
  - now rewrite Hn, Hl.
  - destruct (get_period_info to_datetime date ps); simpl in *. exact IH.
Qed.

Lemma get_period_info_same_definition (date : Z) (ps : list ShootingPeriod) :
  Forall2 (same_definition to_datetime) ps (get_period_info to_datetime date ps).2.
Proof.
  induction ps as [|p ps IH]; simpl; [constructor|].
  pose proof (check_period_same_definition date p) as Hp.
  destruct (check_period to_datetime date p) as [p' found]; simpl in *.
  destruct found; simpl.
  - constructor; [exact Hp|].
    apply Forall2_same_length_lookup_2; [reflexivity|].
    intros i x y Hx Hy. rewrite Hx in Hy. injection Hy as <-.
    unfold same_definition; auto.
  - destruct (get_period_info to_datetime date ps); simpl in *.
    constructor; assumption.
Qed.

Lemma same_definition_answer (date : Z) (ps ps' : list ShootingPeriod) :
  Forall2 (same_definition to_datetime) ps ps' ->
  answer (List.find (covers to_datetime date) ps')
  = answer (List.find (covers to_datetime date) ps).
Proof.
  induction 1 as [|p p' ps ps' Hp _ IH]; simpl; [reflexivity|].
  rewrite (same_definition_covers date p p' Hp).
  destruct (covers to_datetime date p); [|exact IH].
  destruct Hp as (Hn & Hl & _). simpl. now rewrite Hn, Hl.
Qed.

Lemma same_definition_trans (ps1 ps2 ps3 : list ShootingPeriod) :
  Forall2 (same_definition to_datetime) ps1 ps2 -> Forall2 (same_definition to_datetime) ps2 ps3 ->
  Forall2 (same_definition to_datetime) ps1 ps3.
Proof.
  intros H12. revert ps3.
  induction H12 as [|p1 p2 ps1 ps2 Hp _ IH]; intros ps3 H23.
  - inversion H23. constructor.
  - inversion H23 as [|? p3 ? ps3' Hp' Hps']; subst.
    constructor; [|now apply IH].
    destruct Hp as (? & ? & ? & ?), Hp' as (? & ? & ? & ?).
    unfold same_definition; repeat split; congruence.
Qed.

(** The column of period information does not depend on what earlier
    calls stored into the list: every row gets the answer of a scan of
    the periods as given. *)
Lemma period_info_column_find (dates : list Z) (ps : list ShootingPeriod) :
  (period_info_column to_datetime dates ps).1
  = map (fun date => answer (List.find (covers to_datetime date) ps)) dates.
Proof.
  assert (forall ps', Forall2 (same_definition to_datetime) ps ps' ->
    (period_info_column to_datetime dates ps').1
    = map (fun date => answer (List.find (covers to_datetime date) ps)) dates)
    as Hgen.
  { induction dates as [|d ds IH]; intros ps' Hps'; simpl; [reflexivity|].
    pose proof (get_period_info_find d ps') as Hf.
    pose proof (get_period_info_same_definition d ps') as Hs.
    destruct (get_period_info to_datetime d ps') as [info ps'']; simpl in *.
    specialize (IH ps'' (same_definition_trans _ _ _ Hps' Hs)).
    destruct (period_info_column to_datetime ds ps''); simpl in *.
    rewrite Hf, IH. f_equal. now apply same_definition_answer. }
  apply Hgen.
  apply Forall2_same_length_lookup_2; [reflexivity|].
  intros i x y Hx Hy. rewrite Hx in Hy. injection Hy as <-.
  unfold same_definition; auto.
Qed.

End PeriodLookup.

(** C4. [get_period_info] scans the shooting periods in the order given
    and returns the name and the location of the first one whose
    inclusive range from start to end contains the date, and the pair of
    nulls when none does; so of two overlapping periods that both contain
    the date, the one earlier in the list is returned. *)
Theorem get_period_info_first_match (to_datetime : string -> Parsed)
    (date : Z) (shooting_periods : list ShootingPeriod) :
  (get_period_info to_datetime date shooting_periods).1
  = match List.find (covers to_datetime date) shooting_periods with
    | Some period => (Some (Name period), Some (Location period))
    | None => (None, None)
    end
  /\ (forall (before : list ShootingPeriod) period after,
        shooting_periods = (before ++ period :: after)%list ->
        Forall (fun q => covers to_datetime date q = false) before ->
        covers to_datetime date period = true ->
        (get_period_info to_datetime date shooting_periods).1
        = (Some (Name period), Some (Location period)))
  /\ (Forall (fun q => covers to_datetime date q = false) shooting_periods ->
      (get_period_info to_datetime date shooting_periods).1 = (None, None)).
Proof.
  split; [apply get_period_info_find|]. split.
  - intros before period after -> Hbefore Hcov.
    rewrite get_period_info_find.
    induction Hbefore as [|q before Hq _ IH]; simpl.
    + now rewrite Hcov.
    + now rewrite Hq.
  - intros Hnone. rewrite get_period_info_find.
    induction Hnone as [|q ps Hq _ IH]; simpl; [reflexivity|].
    now rewrite Hq.
Qed.

(** ** Facts about the frame operations *)

Section FrameFacts.

Lemma elem_of_date_range (s e x : Z) :
  x ∈ Date.date_range s e <-> s <= x <= e.
Proof. unfold Date.date_range. rewrite elem_of_seqZ. lia. Qed.

Lemma NoDup_date_range (s e : Z) : NoDup (Date.date_range s e).
Proof. apply NoDup_seqZ. Qed.

Lemma foldr_min_le (d : Z) (ds : list Z) :
  foldr Z.min d ds <= d /\ Forall (fun x => foldr Z.min d ds <= x) ds.
Proof.
  induction ds as [|x ds [IH1 IH2]]; simpl; [split; [lia|constructor]|].
  split; [lia|]. constructor; [lia|].
  eapply Forall_impl; [exact IH2|]. simpl. intros; lia.
Qed.

Lemma foldr_max_ge (d : Z) (ds : list Z) :
  d <= foldr Z.max d ds /\ Forall (fun x => x <= foldr Z.max d ds) ds.
Proof.
  induction ds as [|x ds [IH1 IH2]]; simpl; [split; [lia|constructor]|].
  split; [lia|]. constructor; [lia|].
  eapply Forall_impl; [exact IH2|]. simpl. intros; lia.
Qed.

Lemma foldr_min_elem (d : Z) (ds : list Z) : foldr Z.min d ds ∈ d :: ds.
Proof.
  induction ds as [|x ds IH]; simpl; [left|].
  destruct (Z.min_spec x (foldr Z.min d ds)) as [[_ ->]|[_ ->]].
  - right; left.
  - apply elem_of_cons in IH as [->|IH]; [left|right; right; exact IH].
Qed.

Lemma foldr_max_elem (d : Z) (ds : list Z) : foldr Z.max d ds ∈ d :: ds.
Proof.
  induction ds as [|x ds IH]; simpl; [left|].
  destruct (Z.max_spec x (foldr Z.max d ds)) as [[_ ->]|[_ ->]].
  - apply elem_of_cons in IH as [->|IH]; [left|right; right; exact IH].
  - right; left.
Qed.

(** [col_min] is the least date of a column and [col_max] the greatest. *)
Lemma col_min_le (l : list Z) (x : Z) : x ∈ l -> Frame.col_min l <= x.
Proof.
  destruct l as [|d ds]; [inversion 1|]. simpl.
  destruct (foldr_min_le d ds) as [H1 H2]. rewrite Forall_forall in H2.
  intros [->|Hx]%elem_of_cons; [exact H1|now apply H2].
Qed.

Lemma col_max_ge (l : list Z) (x : Z) : x ∈ l -> x <= Frame.col_max l.
Proof.
  destruct l as [|d ds]; [inversion 1|]. simpl.
  destruct (foldr_max_ge d ds) as [H1 H2]. rewrite Forall_forall in H2.
  intros [->|Hx]%elem_of_cons; [exact H1|now apply H2].
Qed.

Lemma col_min_elem (l : list Z) : l <> [] -> Frame.col_min l ∈ l.
Proof. destruct l as [|d ds]; [congruence|]. intros _. apply foldr_min_elem. Qed.

Lemma col_max_elem (l : list Z) : l <> [] -> Frame.col_max l ∈ l.
Proof. destruct l as [|d ds]; [congruence|]. intros _. apply foldr_max_elem. Qed.

Lemma col_min_le_max (l : list Z) : Frame.col_min l <= Frame.col_max l.
Proof.
  destruct l as [|d ds]; [reflexivity|].
  transitivity d.
  - apply col_min_le. left.
  - apply col_max_ge. left.
Qed.

Context {A : Type}.

Lemma insert_sorted_perm (leb : A -> A -> bool) (x : A) (l : list A) :
  Frame.insert_sorted leb x l ≡ₚ x :: l.
Proof.
  induction l as [|y l IH]; simpl; [reflexivity|].
  destruct (leb x y); [reflexivity|].
  rewrite IH. apply Permutation_swap.
Qed.

Lemma sort_values_perm (leb : A -> A -> bool) (l : list A) :
  Frame.sort_values leb l ≡ₚ l.
Proof.
  induction l as [|x l IH]; simpl; [reflexivity|].
  unfold Frame.sort_values in *. rewrite insert_sorted_perm. now rewrite IH.
Qed.

Lemma insert_sorted_Sorted (leb : A -> A -> bool) (x : A) (l : list A) :
  (forall a b, leb a b = false -> leb b a = true) ->
  Sorted (fun a b => leb a b = true) l ->
  Sorted (fun a b => leb a b = true) (Frame.insert_sorted leb x l).
Proof.
  intros Htotal. induction 1 as [|y l Hl IH Hy]; simpl.
  - repeat constructor.
  - destruct (leb x y) eqn:E.
    + constructor; [constructor; assumption|]. constructor. exact E.
    + constructor; [exact IH|].
      destruct l as [|z l]; simpl.
      * constructor. now apply Htotal.
      * destruct (leb x z); constructor.
        -- now apply Htotal.
        -- now inversion Hy.
Qed.

Lemma sort_values_Sorted (leb : A -> A -> bool) (l : list A) :
  (forall a b, leb a b = false -> leb b a = true) ->
  Sorted (fun a b => leb a b = true) (Frame.sort_values leb l).
Proof.
  intros Htotal. induction l as [|x l IH]; simpl; [constructor|].
  now apply insert_sorted_Sorted.
Qed.

End FrameFacts.

Section GroupbyFacts.

Context {A K : Type} `{EqDecision K}.

(** The groups of [groupby]: one per key that occurs, holding the rows
    with that key. *)
Lemma elem_of_groupby (leb : K -> K -> bool) (key : A -> option K)
    (df : list A) (k : K) (g : list A) :
  (k, g) ∈ Frame.groupby leb key df
  <-> (exists r, r ∈ df /\ key r = Some k)
      /\ g = filter (fun r => key r = Some k) df.
Proof.
  unfold Frame.groupby. rewrite list_elem_of_fmap. split.
  - intros (k' & [= <- ->] & Hk). split; [|reflexivity].
    rewrite sort_values_perm, elem_of_remove_dups, list_elem_of_omap in Hk.
    exact Hk.
  - intros (Hk & ->). exists k. split; [reflexivity|].
    rewrite sort_values_perm, elem_of_remove_dups, list_elem_of_omap.
    exact Hk.
Qed.

(** A row with a null key is in no group ([dropna=True]); a row with a
    key is in the group of its key. *)
Lemma groupby_row (leb : K -> K -> bool) (key : A -> option K)
    (df : list A) (k : K) (g : list A) (r : A) :
  (k, g) ∈ Frame.groupby leb key df ->
  r ∈ g <-> r ∈ df /\ key r = Some k.
Proof.
  intros [_ ->]%elem_of_groupby. rewrite list_elem_of_filter. tauto.
Qed.

Lemma groupby_nonempty (leb : K -> K -> bool) (key : A -> option K)
    (df : list A) (k : K) (g : list A) :
  (k, g) ∈ Frame.groupby leb key df -> g <> [].
Proof.
  intros [(r & Hr & Hk) ->]%elem_of_groupby Hnil.
  assert (r ∈ filter (fun r => key r = Some k) df) as Hin
    by (apply list_elem_of_filter; auto).
  rewrite Hnil in Hin. inversion Hin.
Qed.

Lemma groupby_keys_NoDup (leb : K -> K -> bool) (key : A -> option K)
    (df : list A) :
  NoDup (Frame.groupby leb key df).*1.
Proof.
  unfold Frame.groupby.
  assert (forall l : list K,
    (map (fun k => (k, filter (fun r => key r = Some k) df)) l).*1 = l) as ->.
  { induction l as [|k l IH]; simpl; [reflexivity|]. now f_equal. }
  rewrite sort_values_perm. apply NoDup_remove_dups.
Qed.

End GroupbyFacts.

(** ** Splitting a group into stay periods *)

Section StayPeriods.

Lemma diff_gap_length (prev : option Z) (dates : list Z) :
  length (Frame.diff_gap prev dates) = length dates.
Proof.
  revert prev. induction dates as [|d ds IH]; intros prev; simpl;
    [reflexivity|]. now rewrite IH.
Qed.

Lemma cumsum_length (acc : Z) (bs : list bool) :
  length (Frame.cumsum acc bs) = length bs.
Proof.
  revert acc. induction bs as [|b bs IH]; intros acc; simpl;
    [reflexivity|]. now rewrite IH.
Qed.

(** The gap of a row that has a predecessor: the days strictly between
    the two dates. *)
Lemma diff_gap_lookup_S (prev : option Z) (dates : list Z) (i : nat)
    (d1 d2 : Z) :
  dates !! i = Some d1 -> dates !! S i = Some d2 ->
  Frame.diff_gap prev dates !! S i = Some (d2 - d1 - 1).
Proof.
  revert prev i. induction dates as [|d ds IH]; intros prev i H1 H2;
    [discriminate|].
  destruct i as [|i]; simpl in *.
  - injection H1 as ->. destruct ds as [|d' ds]; [discriminate|].
    simpl in *. now injection H2 as ->.
  - now apply IH.
Qed.

Lemma diff_gap_lookup_0 (dates : list Z) (g : Z) :
  Frame.diff_gap None dates !! 0%nat = Some g -> g = 0.
Proof. destruct dates; simpl; [discriminate|]. now intros [= <-]. Qed.

(** The running count grows by one exactly at the rows that are marked. *)
Lemma cumsum_lookup_S (acc : Z) (bs : list bool) (i : nat) (x : Z) (b : bool) :
  Frame.cumsum acc bs !! i = Some x -> bs !! S i = Some b ->
  Frame.cumsum acc bs !! S i = Some (x + (if b then 1 else 0)).
Proof.
  revert acc i. induction bs as [|b0 bs IH]; intros acc i H1 H2;
    [discriminate|].
  destruct i as [|i]; simpl in *.
  - injection H1 as <-. destruct bs as [|b1 bs]; [discriminate|].
    simpl in *. now injection H2 as ->.
  - now apply IH.
Qed.

Lemma cumsum_all_true (acc : Z) (bs : list bool) :
  Forall (fun b => b = true) bs ->
  Frame.cumsum acc bs = seqZ (acc + 1) (Z.of_nat (length bs)).
Proof.
  intros H. revert acc. induction H as [|b bs -> _ IH]; intros acc;
    [reflexivity|].
  simpl Frame.cumsum. rewrite IH.
  replace (Z.of_nat (length (true :: bs))) with (Z.succ (Z.of_nat (length bs)))
    by (simpl length; lia).
  rewrite (seqZ_cons (acc + 1)) by lia. f_equal. f_equal; lia.
Qed.

(** The columns of a row of [with_new_period]. *)
Lemma with_new_period_lookup (max_gap : Z) (group : list TravelRow)
    (i : nat) (r : GroupRow) :
  with_new_period max_gap group !! i = Some r ->
  group !! i = Some (group_row r)
  /\ Frame.diff_gap None (map row_date group) !! i = Some (group_Gap r)
  /\ Frame.cumsum 0
       (map (fun g => max_gap <=? g) (Frame.diff_gap None (map row_date group)))
       !! i = Some (New_Period r).
Proof.
  unfold with_new_period. intros H.
  apply lookup_zip_with_Some in H as (x & [g n] & -> & Hx & Hgn).
  apply lookup_zip_with_Some in Hgn as (g' & n' & [= -> ->] & Hg & Hn).
  simpl. auto.
Qed.

Lemma with_new_period_New_Period (max_gap : Z) (group : list TravelRow) :
  map New_Period (with_new_period max_gap group)
  = Frame.cumsum 0
      (map (fun g => max_gap <=? g) (Frame.diff_gap None (map row_date group))).
Proof.
  apply list_eq. intros i. rewrite list_lookup_fmap.
  destruct (with_new_period max_gap group !! i) as [r|] eqn:E; simpl.
  - apply with_new_period_lookup in E as (_ & _ & E). now rewrite E.
  - symmetry. apply lookup_ge_None. apply lookup_ge_None in E.
    unfold with_new_period in E.
    rewrite length_zip_with, length_zip_with in E.
    rewrite cumsum_length, length_map, diff_gap_length, length_map in *.
    lia.
Qed.

(** Two rows of the group lie in the same stay period exactly when they
    have the same period number. *)
Lemma same_period_New_Period (rows : list GroupRow) (r1 r2 : GroupRow) :
  r1 ∈ rows -> r2 ∈ rows ->
  same_period (Frame.groupby Z.leb (fun r => Some (New_Period r)) rows) r1 r2
  <-> New_Period r1 = New_Period r2.
Proof.
  intros H1 H2. unfold same_period. split.
  - intros ([k g] & Hp & Hr1 & Hr2). simpl in *.
    apply (groupby_row _ _ _ _ _ r1) in Hp as Hp1.
    apply (groupby_row _ _ _ _ _ r2) in Hp as Hp2.
    apply Hp1 in Hr1 as [_ [= E1]]. apply Hp2 in Hr2 as [_ [= E2]].
    congruence.
  - intros E.
    exists (New_Period r1, filter (fun r => Some (New_Period r) = Some (New_Period r1)) rows).
    split; [|split]; simpl.
    + apply elem_of_groupby. split; [|reflexivity]. now exists r1.
    + apply list_elem_of_filter. auto.
    + apply list_elem_of_filter. split; [now rewrite E|exact H2].
Qed.

Lemma filter_key_singleton {A} (f : A -> Z) (l : list A) (k : Z) :
  NoDup (map f l) -> k ∈ map f l ->
  length (filter (fun r => Some (f r) = Some k) l) = 1%nat.
Proof.
  induction l as [|x l IH]; intros Hnd Hk; [inversion Hk|].
  simpl in Hnd. apply NoDup_cons in Hnd as [Hx Hnd].
  rewrite filter_cons. destruct (decide (Some (f x) = Some k)) as [[= E]|E].
  - simpl. f_equal. subst k.
    destruct (filter (fun r => Some (f r) = Some (f x)) l) as [|y t] eqn:Ef;
      [reflexivity|exfalso].
    assert (y ∈ filter (fun r => Some (f r) = Some (f x)) l) as Hy
      by (rewrite Ef; left).
    apply list_elem_of_filter in Hy as [[= Ey] Hy].
    apply Hx. rewrite <- Ey. apply list_elem_of_fmap. now exists y.
  - apply IH; [exact Hnd|].
    simpl in Hk. apply elem_of_cons in Hk as [->|Hk]; [congruence|exact Hk].
Qed.

Lemma Sorted_le_NoDup_lt (l : list Z) :
  Sorted Z.le l -> NoDup l -> Sorted Z.lt l.
Proof.
  induction 1 as [|x l Hl IH Hx]; intros Hnd; [constructor|].
  apply NoDup_cons in Hnd as [Hxl Hnd].
  constructor; [now apply IH|].
  destruct Hx as [|y l Hxy]; constructor.
  assert (x <> y) by (intros ->; apply Hxl; left). lia.
Qed.

Lemma diff_gap_nonneg (prev : option Z) (dates : list Z) :
  Sorted Z.lt dates ->
  match prev with Some p => HdRel Z.lt p dates | None => True end ->
  Forall (fun g => 0 <= g) (Frame.diff_gap prev dates).
Proof.
  intros Hs. revert prev. induction Hs as [|d ds Hds IH Hd]; intros prev Hp;
    simpl; constructor.
  - destruct prev as [p|]; [|lia]. inversion Hp; subst. lia.
  - apply IH. exact Hd.
Qed.

Lemma sorted_dates (group : list TravelRow) :
  Sorted Z.le (map row_date (Frame.sort_values date_leb group)).
Proof.
  assert (Sorted (fun a b => date_leb a b = true)
            (Frame.sort_values date_leb group)) as H.
  { apply sort_values_Sorted. unfold date_leb. intros a b.
    rewrite Z.leb_gt, Z.leb_le. lia. }
  induction H as [|x l Hl IH Hx]; simpl; constructor; [exact IH|].
  destruct Hx as [|y l Hxy]; simpl; constructor.
  unfold date_leb in Hxy. now apply Z.leb_le.
Qed.

End StayPeriods.

(** C3, as the code has it.  Within a group sorted by date, a row starts
    a new stay period, that is, it lies in another stay period than the
    row before it, exactly when its local gap (the days strictly between
    the two dates) is at least [max_gap]; every row lies in a stay
    period; and with [max_gap = 0] every stay period holds exactly one
    row provided the dates of the group are distinct. *)
Theorem new_period_at_threshold (max_gap : Z) (group : list TravelRow) :
  let rows := with_new_period max_gap (Frame.sort_values date_leb group) in
  let periods := stay_periods max_gap group in
  (forall i r1 r2,
     rows !! i = Some r1 -> rows !! S i = Some r2 ->
     group_Gap r2 = row_date (group_row r2) - row_date (group_row r1) - 1
     /\ (~ same_period periods r1 r2 <-> max_gap <= group_Gap r2))
  /\ (forall r, r ∈ rows -> exists p, p ∈ periods /\ r ∈ p.2)
  /\ (max_gap = 0 -> NoDup (map row_date group) ->
      Forall (fun p => length p.2 = 1%nat) periods).
Proof.
  intros rows periods. split; [|split].
  - intros i r1 r2 H1 H2.
    assert (r1 ∈ rows) as Hin1 by (eapply list_elem_of_lookup_2; eauto).
    assert (r2 ∈ rows) as Hin2 by (eapply list_elem_of_lookup_2; eauto).
    apply with_new_period_lookup in H1 as (Hr1 & Hg1 & Hn1).
    apply with_new_period_lookup in H2 as (Hr2 & Hg2 & Hn2).
    set (dates := map row_date (Frame.sort_values date_leb group)) in *.
    assert (dates !! i = Some (row_date (group_row r1))) as Hd1
      by (unfold dates; rewrite list_lookup_fmap, Hr1; reflexivity).
    assert (dates !! S i = Some (row_date (group_row r2))) as Hd2
      by (unfold dates; rewrite list_lookup_fmap, Hr2; reflexivity).
    pose proof (diff_gap_lookup_S None dates i _ _ Hd1 Hd2) as Hgap.
    rewrite Hg2 in Hgap. injection Hgap as Hgap.
    split; [exact Hgap|].
    assert (map (fun g => max_gap <=? g) (Frame.diff_gap None dates) !! S i
            = Some (max_gap <=? group_Gap r2)) as Hb
      by (rewrite list_lookup_fmap, Hg2; reflexivity).
    pose proof (cumsum_lookup_S _ _ _ _ _ Hn1 Hb) as Hn.
    rewrite Hn2 in Hn. injection Hn as Hn.
    unfold periods, stay_periods. fold rows.
    rewrite (same_period_New_Period rows r1 r2 Hin1 Hin2).
    destruct (Z.leb_spec max_gap (group_Gap r2)); lia.
  - intros r Hr.
    exists (New_Period r,
            filter (fun r' => Some (New_Period r') = Some (New_Period r)) rows).
    split; simpl.
    + unfold periods, stay_periods. fold rows.
      apply elem_of_groupby. split; [|reflexivity]. now exists r.
    + apply list_elem_of_filter. auto.
  - intros -> Hnd.
    assert (NoDup (map New_Period rows)) as Hnp.
    { unfold rows. rewrite with_new_period_New_Period.
      rewrite cumsum_all_true; [apply NoDup_seqZ|].
      apply Forall_fmap.
      eapply Forall_impl;
        [|intros g Hg; simpl; apply Z.leb_le; exact Hg].
      apply diff_gap_nonneg; [|exact I].
      apply Sorted_le_NoDup_lt; [apply sorted_dates|].
      rewrite sort_values_perm. exact Hnd. }
    apply Forall_forall. intros [k g] Hp. simpl.
    unfold periods, stay_periods in Hp. fold rows in Hp.
    apply elem_of_groupby in Hp as [(r & Hr & [= Hk]) ->].
    apply filter_key_singleton; [exact Hnp|].
    apply list_elem_of_fmap. now exists r.
Qed.

(** ** The gap annotator *)

Section GapAnnotator.

Lemma shift_by_member_length (last : gmap string Z) (df : list CastDate) :
  length (shift_by_member last df) = length df.
Proof.
  revert last. induction df as [|r df IH]; intros last; simpl;
    [reflexivity|]. now rewrite IH.
Qed.

Lemma shift_by_member_app (last : gmap string Z) (df1 df2 : list CastDate) :
  shift_by_member last (df1 ++ df2)
  = (shift_by_member last df1 ++ shift_by_member (seen last df1) df2)%list.
Proof.
  revert last. induction df1 as [|r df1 IH]; intros last; simpl;
    [reflexivity|]. now rewrite IH.
Qed.

Lemma seen_other (last : gmap string Z) (df : list CastDate) (m : string) :
  Forall (fun r => Cast_Member r <> m) df -> seen last df !! m = last !! m.
Proof.
  intros H. revert last. induction H as [|r df Hr _ IH]; intros last; simpl;
    [reflexivity|].
  rewrite IH. now apply lookup_insert_ne.
Qed.

Lemma seen_cons (last : gmap string Z) (r : CastDate) (df : list CastDate) :
  seen last (r :: df) = seen (<[Cast_Member r := Shooting_Date r]> last) df.
Proof. reflexivity. Qed.

Lemma seen_app (last : gmap string Z) (df1 df2 : list CastDate) :
  seen last (df1 ++ df2) = seen (seen last df1) df2.
Proof. apply foldl_app. Qed.

(** The row at the end of a prefix [before] is annotated with the date
    the cast member was last seen at in [before]. *)
Lemma calculate_gaps_lookup (before after : list CastDate) (c : CastDate) :
  calculate_gaps (before ++ c :: after) !! length before
  = Some (gap_row c (seen ∅ before !! Cast_Member c)).
Proof.
  unfold calculate_gaps. rewrite shift_by_member_app.
  rewrite zip_with_app by (now rewrite shift_by_member_length).
  rewrite lookup_app_r by (rewrite length_zip_with, shift_by_member_length; lia).
  rewrite length_zip_with, shift_by_member_length.
  replace (length before - length before `min` length before)%nat with 0%nat
    by lia.
  reflexivity.
Qed.

End GapAnnotator.

(** C2, as the code has it.  The first record of every person has gap 0
    (and no previous date); a record that follows another record of the
    same person gets the days strictly between the two dates, that is the
    difference less one, which is never clamped: for two consecutive
    records of the same person on the same date the gap is -1, and the
    count of weekend days in the gap is 0. *)
Theorem calculate_gaps_first_and_consecutive (c : CastDate) :
  (forall before after,
     Forall (fun r => Cast_Member r <> Cast_Member c) before ->
     exists r,
       calculate_gaps (before ++ c :: after) !! length before = Some r
       /\ cast_date r = c /\ Previous_Shooting_Date r = None /\ Gap r = 0
       /\ Weekends_in_Gap r = 0)
  /\ (forall before c' between after,
        Cast_Member c' = Cast_Member c ->
        Forall (fun r => Cast_Member r <> Cast_Member c) between ->
        exists r,
          calculate_gaps (before ++ c' :: between ++ c :: after)
            !! (length before + 1 + length between)%nat = Some r
          /\ cast_date r = c
          /\ Previous_Shooting_Date r = Some (Shooting_Date c')
          /\ Gap r = Shooting_Date c - Shooting_Date c' - 1
          /\ (Shooting_Date c = Shooting_Date c' ->
              Gap r = -1 /\ Weekends_in_Gap r = 0)).
Proof.
  split.
  - intros before after Hfirst.
    eexists. split; [apply calculate_gaps_lookup|].
    rewrite (seen_other _ _ _ Hfirst), lookup_empty. simpl. auto.
  - intros before c' between after Hsame Hbetween.
    pose proof (calculate_gaps_lookup (before ++ c' :: between) after c) as H.
    rewrite <- (app_assoc before) in H. simpl in H.
    rewrite length_app in H. simpl in H.
    replace (length before + S (length between))%nat
      with (length before + 1 + length between)%nat in H by lia.
    eexists. split; [exact H|].
    rewrite seen_app, seen_cons, (seen_other _ _ _ Hbetween).
    rewrite Hsame, lookup_insert_eq. unfold gap_row. simpl.
    split; [reflexivity|]. split; [reflexivity|]. split; [reflexivity|].
    intros ->. split; [lia|].
    unfold weekends_in_gap. simpl.
    replace (Shooting_Date c' - Shooting_Date c' - 1 <=? 0) with true
      by (symmetry; apply Z.leb_le; lia).
    reflexivity.
Qed.

(** ** The derivation of one stay period *)

Section Derivation.

Lemma size_two_dates (a d : Z) :
  a <> d -> size (({[d]} ∪ ({[a]} ∪ ∅)) : gset Z) = 2%nat.
Proof.
  intros Hne. rewrite union_empty_r_L.
  rewrite size_union
    by (apply disjoint_singleton_l; rewrite elem_of_singleton; congruence).
  rewrite !size_singleton. reflexivity.
Qed.

Lemma size_one_date (a : Z) : size (({[a]} ∪ ∅) : gset Z) = 1%nat.
Proof. rewrite union_empty_r_L. apply size_singleton. Qed.

(** The gap dates of a span: the dates of the span that are not shooting
    dates, each once. *)
Lemma elem_of_gap_dates (s e : Z) (shooting_dates : list Z) (x : Z) :
  x ∈ filter (fun x => x ∉ (list_to_set shooting_dates : gset Z))
        (Date.date_range s e)
  <-> s <= x <= e /\ x ∉ shooting_dates.
Proof.
  rewrite list_elem_of_filter, elem_of_date_range, elem_of_list_to_set. tauto.
Qed.

Lemma NoDup_gap_dates (s e : Z) (shooting_dates : list Z) :
  NoDup (filter (fun x => x ∉ (list_to_set shooting_dates : gset Z))
           (Date.date_range s e)).
Proof. apply NoDup_filter, NoDup_date_range. Qed.

(** What the travel branch does under the options the window offers. *)
Lemma travel_branch_spec (weekend_policy : bool)
    (arrival_option departure_option name home_location period_name : string)
    (period_number : Z) (shooting_dates : list Z) (st : State) :
  valid_arrival arrival_option -> valid_departure departure_option ->
  let a := if decide (arrival_option = "Day Before Shooting")
           then Frame.col_min shooting_dates - 1
           else Frame.col_min shooting_dates in
  let d := if decide (departure_option = "Day After Shooting")
           then Frame.col_max shooting_dates + 1
           else Frame.col_max shooting_dates in
  let gap_dates :=
    filter (fun x => x ∉ (list_to_set shooting_dates : gset Z))
      (Date.date_range (a + 1) (d - 1)) in
  let period_travel := if decide (d = a) then 1 else 2 in
  travel_branch weekend_policy arrival_option departure_option
    name home_location period_name period_number shooting_dates st
  = Ok {| arrival_date := Some a;
          departure_date := Some d;
          total_accommodation := total_accommodation st + (d - a);
          total_travel := total_travel st + period_travel;
          results := results st;
          export_data :=
            export_data st ++
            [{| e_Cast_Member := name;
                e_Home_Location := home_location;
                e_Period_Name :=
                  if decide (period_name = "") then "Local" else period_name;
                e_Period_Number := period_number;
                e_Period_Dates :=
                  Date.strftime a +:+ "–" +:+ Date.strftime d;
                e_Period_Start_Date := a;
                e_Period_End_Date := d;
                e_Period_Travel_Days := period_travel;
                e_Period_Accommodation_Nights := d - a;
                e_Number_of_Shooting_Days :=
                  Z.of_nat (length shooting_dates);
                e_Number_of_Gap_Days := Z.of_nat (length gap_dates);
                e_Number_of_Travel_Days := period_travel;
                e_Shooting_Dates := shooting_dates;
                e_X := 1;
                e_4X := 1;
                e_Requires_Travel := true |}];
          calendar_data :=
            calendar_data st
              ++ [travel_to_event name home_location period_name a]
              ++ map (shooting_event name period_name) shooting_dates
              ++ map (gap_event name period_name) gap_dates
              ++ [travel_back_event name home_location period_name d] |}.
Proof.
  intros Ha Hd. pose proof (col_min_le_max shooting_dates) as Hmm.
  unfold travel_branch, read_local, mbind, PyResult_bind.
  destruct Ha as [-> | ->], Hd as [-> | ->];
    repeat (cbv beta iota zeta; case_decide; try congruence; try lia);
    cbv beta iota zeta;
    rewrite ?size_two_dates, ?size_one_date by lia;
    try reflexivity.
Qed.

(** A loop whose body always succeeds and keeps [inv] succeeds and keeps
    [inv]. *)
Lemma for_each_ok {A S} (inv : S -> Prop) (body : A -> S -> PyResult S)
    (l : list A) (s : S) :
  (forall x s, x ∈ l -> inv s -> exists s', body x s = Ok s' /\ inv s') ->
  inv s -> exists s', for_each body l s = Ok s' /\ inv s'.
Proof.
  revert s. induction l as [|x l IH]; intros s Hbody Hs; simpl.
  - now exists s.
  - destruct (Hbody x s) as (s1 & -> & Hs1); [left|exact Hs|].
    unfold mbind, PyResult_bind. apply IH; [|exact Hs1].
    intros y s2 Hy. apply Hbody. now right.
Qed.

Lemma not_travel_shooting (name period_name : string) (d : Z) :
  ~ travel_title (shooting_event name period_name d).
Proof. intros [s [H|H]]; discriminate H. Qed.

Lemma not_travel_gap (name period_name : string) (d : Z) :
  ~ travel_title (gap_event name period_name d).
Proof. intros [s [H|H]]; discriminate H. Qed.

End Derivation.

(** C8. For a stay period that requires travel, the gap dates are exactly
    the dates strictly between the arrival date and the departure date
    that are not shooting dates of the period; for a stay period that
    does not, they are the dates from the first to the last shooting date
    that are not shooting dates, with no arrival or departure around
    them, and only Shooting and Gap events are added to the calendar. *)
Theorem gap_dates_of_period (weekend_policy : bool)
    (arrival_option departure_option name home_location period_name : string)
    (period_number : Z) (period_group : list GroupRow) (st : State) :
  valid_arrival arrival_option -> valid_departure departure_option ->
  let shooting_dates := map (fun r => row_date (group_row r)) period_group in
  (exists st' a d gap_dates e,
     period_body weekend_policy arrival_option departure_option
       name home_location period_name true (period_number, period_group) st
     = Ok st'
     /\ arrival_date st' = Some a /\ departure_date st' = Some d
     /\ (forall x, x ∈ gap_dates <-> a < x < d /\ x ∉ shooting_dates)
     /\ NoDup gap_dates
     /\ export_data st' = (export_data st ++ [e])%list
     /\ e_Number_of_Gap_Days e = Z.of_nat (length gap_dates)
     /\ calendar_data st'
        = (calendar_data st
            ++ [travel_to_event name home_location period_name a]
            ++ map (shooting_event name period_name) shooting_dates
            ++ map (gap_event name period_name) gap_dates
            ++ [travel_back_event name home_location period_name d])%list)
  /\ (exists st' gap_dates,
       period_body weekend_policy arrival_option departure_option
         name home_location period_name false (period_number, period_group) st
       = Ok st'
       /\ (forall x, x ∈ gap_dates
                     <-> Frame.col_min shooting_dates <= x
                           <= Frame.col_max shooting_dates
                         /\ x ∉ shooting_dates)
       /\ NoDup gap_dates
       /\ export_data st' = export_data st
       /\ calendar_data st'
          = (calendar_data st
              ++ map (shooting_event name period_name) shooting_dates
              ++ map (gap_event name period_name) gap_dates)%list).
Proof.
  intros Ha Hd shooting_dates. split.
  - unfold period_body. fold shooting_dates.
    rewrite (travel_branch_spec _ _ _ _ _ _ _ _ _ Ha Hd).
    do 5 eexists. split; [reflexivity|]. simpl.
    split; [reflexivity|]. split; [reflexivity|].
    split; [|split; [apply NoDup_gap_dates|auto]].
    intros x. rewrite elem_of_gap_dates.
    split; intros [Hx Hnot]; (split; [lia|exact Hnot]).
  - unfold period_body, home_branch. fold shooting_dates.
    do 2 eexists. split; [reflexivity|]. simpl.
    split; [apply elem_of_gap_dates|].
    split; [apply NoDup_gap_dates|auto].
Qed.

(** ** The filtered frame of a run *)

Lemma filtered_frame_ok (lower : string -> string)
    (to_datetime : string -> Parsed) (df_cast_dates : list CastDate)
    (cast_member_settings : gmap string CastSetting)
    (shooting_periods : list ShootingPeriod) :
  (exists r, r ∈ df_cast_dates
             /\ is_Some (cast_member_settings !! Cast_Member r)) ->
  exists df_filtered,
    filtered_frame lower to_datetime df_cast_dates cast_member_settings
      shooting_periods = Ok df_filtered.
Proof.
  intros (r & Hr & Hset). unfold filtered_frame.
  destruct (Frame.sort_values member_date_leb
              (filter (fun r => is_Some (cast_member_settings !! Cast_Member r))
                 df_cast_dates)) as [|r0 l] eqn:E.
  - exfalso.
    assert (r ∈ Frame.sort_values member_date_leb
              (filter (fun r => is_Some (cast_member_settings !! Cast_Member r))
                 df_cast_dates)) as Hin
      by (rewrite sort_values_perm; apply list_elem_of_filter; auto).
    rewrite E in Hin. inversion Hin.
  - eexists. reflexivity.
Qed.

(** C10. A stay period that requires travel always gets a "Travel to"
    event on its arrival date and a "Travel back to" event on its
    departure date, with no other travel event between them; when the two
    dates are equal (as for a single shooting date under the two same-day
    options) both events are on that date, while the period counts one
    travel day. *)
Theorem two_travel_events_one_travel_day (weekend_policy : bool)
    (arrival_option departure_option name home_location period_name : string)
    (period_number : Z) (period_group : list GroupRow) (st : State) :
  valid_arrival arrival_option -> valid_departure departure_option ->
  exists st' a d e events,
    period_body weekend_policy arrival_option departure_option
      name home_location period_name true (period_number, period_group) st
    = Ok st'
    /\ arrival_date st' = Some a /\ departure_date st' = Some d
    /\ export_data st' = (export_data st ++ [e])%list
    /\ calendar_data st'
       = (calendar_data st
           ++ [travel_to_event name home_location period_name a]
           ++ events
           ++ [travel_back_event name home_location period_name d])%list
    /\ Forall (fun ev => ~ travel_title ev) events
    /\ c_Title (travel_to_event name home_location period_name a)
       = "Travel to " +:+ period_name
    /\ c_Title (travel_back_event name home_location period_name d)
       = "Travel back to " +:+ home_location
    /\ (a = d ->
        e_Period_Travel_Days e = 1 /\ e_Number_of_Travel_Days e = 1
        /\ c_Start (travel_to_event name home_location period_name a)
           = Date.strftime a
        /\ c_Start (travel_back_event name home_location period_name d)
           = Date.strftime a)
    /\ (arrival_option = "Same Day as Shooting" ->
        departure_option = "Same Day as Shooting" ->
        forall r, period_group = [r] ->
          a = row_date (group_row r) /\ d = row_date (group_row r)).
Proof.
  intros Ha Hd. unfold period_body.
  rewrite (travel_branch_spec _ _ _ _ _ _ _ _ _ Ha Hd).
  set (shooting_dates := map (fun r => row_date (group_row r)) period_group).
  set (a := if decide (arrival_option = "Day Before Shooting")
            then Frame.col_min shooting_dates - 1
            else Frame.col_min shooting_dates).
  set (d := if decide (departure_option = "Day After Shooting")
            then Frame.col_max shooting_dates + 1
            else Frame.col_max shooting_dates).
  eexists. exists a, d. eexists.
  exists (map (shooting_event name period_name) shooting_dates
          ++ map (gap_event name period_name)
               (filter (fun x => x ∉ (list_to_set shooting_dates : gset Z))
                  (Date.date_range (a + 1) (d - 1))))%list.
  split; [reflexivity|].
  cbn [arrival_date departure_date export_data calendar_data].
  split; [reflexivity|]. split; [reflexivity|]. split; [reflexivity|].
  split; [now rewrite <- (app_assoc (map _ _))|].
  split.
  { apply Forall_app. split; apply Forall_fmap, Forall_forall; intros x _.
    - apply not_travel_shooting.
    - apply not_travel_gap. }
  split; [reflexivity|]. split; [reflexivity|].
  cbn [e_Period_Travel_Days e_Number_of_Travel_Days].
  split.
  - intros E. rewrite <- E.
    rewrite !decide_True by reflexivity. auto.
  - intros -> -> r ->. unfold a, d.
    rewrite !decide_False by discriminate. split; reflexivity.
Qed.

(** C7. A row requires travel exactly when it has a shooting location
    whose lower-case form differs from the lower-case form of the home
    location; this is the value of the column for every row of an included
    cast member, and the value of the key of the group the row falls
    into; and the loop body of a group whose key says that no travel is
    required adds no "Travel to" and no "Travel back to" event to the
    calendar, and no export record. *)
Theorem requires_travel_iff_locations_differ (lower : string -> string)
    (to_datetime : string -> Parsed) :
  (forall row,
     requires_travel lower row = true
     <-> exists location,
           Shooting_Location row = Some location
           /\ lower (Home_Location row) <> lower location)
  /\ (forall df_cast_dates cast_member_settings shooting_periods df_filtered r,
        filtered_frame lower to_datetime df_cast_dates cast_member_settings
          shooting_periods = Ok df_filtered ->
        r ∈ df_filtered ->
        Include (row r) = true
        /\ Requires_Travel r = requires_travel lower (row r))
  /\ (forall (df_filtered : list TravelRow) key group r,
        (key, group) ∈ Frame.groupby group_key_leb grouping_columns df_filtered ->
        r ∈ group -> Requires_Travel r = key.2)
  /\ (forall max_gap weekend_policy arrival_option departure_option
             name home_location period_name group st,
        exists st' events,
          group_body max_gap weekend_policy arrival_option departure_option
            (name, home_location, period_name, false, group) st = Ok st'
          /\ calendar_data st' = (calendar_data st ++ events)%list
          /\ Forall (fun ev => ~ travel_title ev) events
          /\ export_data st' = export_data st).
Proof.
  split; [|split; [|split]].
  - intros r. unfold requires_travel.
    destruct (Shooting_Location r) as [location|].
    + case_decide; split.
      * discriminate.
      * intros (l & [= <-] & Hne). congruence.
      * intros _. now exists location.
      * reflexivity.
    + split; [discriminate|]. intros (l & Hl & _). discriminate.
  - intros df settings sp rows r Hrun Hr. unfold filtered_frame in Hrun.
    match type of Hrun with
    | mbind _ ?m = _ => destruct m as [infos|]; [|discriminate]
    end.
    unfold mbind, PyResult_bind in Hrun. injection Hrun as <-.
    apply list_elem_of_fmap in Hr as (r0 & -> & Hr0).
    apply list_elem_of_filter in Hr0 as [Hinc _]. simpl. auto.
  - intros df key group r Hg Hr.
    apply (groupby_row _ _ _ _ _ r) in Hg. apply Hg in Hr as [_ Hkey].
    unfold grouping_columns in Hkey.
    destruct (Period_Name (row r)); [|discriminate].
    now injection Hkey as <-.
  - intros max_gap weekend_policy arrival_option departure_option
      name home_location period_name group st.
    unfold group_body.
    set (inv := fun s : State =>
      (exists events, calendar_data s = (calendar_data st ++ events)%list
                      /\ Forall (fun ev => ~ travel_title ev) events)
      /\ export_data s = export_data st).
    match goal with
    | |- context [for_each ?body ?l ?s0] =>
        destruct (for_each_ok inv body l s0) as (st1 & Hrun & Hst1)
    end.
    + intros [k pg] s _ ((events & Hcal & Hev) & Hexp).
      eexists. split; [reflexivity|]. split; [|exact Hexp].
      cbn [home_branch calendar_data]. rewrite Hcal.
      eexists. split; [rewrite <- app_assoc; reflexivity|].
      apply Forall_app. split; [exact Hev|].
      apply Forall_app. split; apply Forall_fmap, Forall_forall; intros x _.
      * apply not_travel_shooting.
      * apply not_travel_gap.
    + split; [|reflexivity]. exists []. split; [|constructor].
      simpl. now rewrite app_nil_r.
    + rewrite Hrun. destruct Hst1 as ((events & Hcal & Hev) & Hexp).
      eexists. exists events. split; [reflexivity|]. simpl. auto.
Qed.

(** C9. The weekend policy has no effect: with the flag set and with the
    flag cleared, a run on the same schedule, threshold, options, cast
    settings and shooting periods gives the same result, the same summary,
    export records and calendar events or the same error. *)
Theorem weekend_policy_no_op (lower : string -> string)
    (to_datetime : string -> Parsed) (df_cast_dates : list CastDate)
    (max_gap : Z) (arrival_option departure_option : string)
    (cast_member_settings : gmap string CastSetting)
    (shooting_periods : list ShootingPeriod) :
  apply_user_logic lower to_datetime df_cast_dates max_gap true
    arrival_option departure_option cast_member_settings shooting_periods
  = apply_user_logic lower to_datetime df_cast_dates max_gap false
      arrival_option departure_option cast_member_settings shooting_periods.
Proof. reflexivity. Qed.

(** ** The unmatched dates *)

(** A row whose date matches no shooting period has a null period name,
    and the outer [groupby] puts it into no group. *)
Lemma null_period_in_no_group (df_filtered : list TravelRow)
    (key : GroupKey) (group : list TravelRow) (r : TravelRow) :
  (key, group) ∈ Frame.groupby group_key_leb grouping_columns df_filtered ->
  r ∈ group -> Period_Name (row r) <> None.
Proof.
  intros Hg Hr. apply (groupby_row _ _ _ _ _ r) in Hg.
  apply Hg in Hr as [_ Hkey]. unfold grouping_columns in Hkey.
  destruct (Period_Name (row r)); [discriminate|discriminate Hkey].
Qed.

(** C1, on the code.  A cast member who is included and whose only
    shooting date matches no shooting period: the row is given a null
    period name and location and [Requires Travel = False], and then the
    run returns an empty summary, no export record and no calendar event;
    the date has left no trace. *)
Theorem unmatched_date_is_dropped (lower : string -> string)
    (to_datetime : string -> Parsed) :
  let df_cast_dates := [Sample.shoot "Alice" Sample.mar_1] in
  let cast_member_settings : gmap string CastSetting :=
    {["Alice" := {| include := true; home_location := "Local" |}]} in
  filtered_frame lower to_datetime df_cast_dates cast_member_settings []
  = Ok [{| row := {| cast := Sample.shoot "Alice" Sample.mar_1;
                     Period_Name := None;
                     Shooting_Location := None;
                     Home_Location := "Local";
                     Include := true |};
           Requires_Travel := false |}]
  /\ apply_user_logic lower to_datetime df_cast_dates 2 false
       "Day Before Shooting" "Same Day as Shooting" cast_member_settings []
     = Ok ([], [], []).
Proof. split; vm_compute; reflexivity. Qed.

(** The same in a project with periods: Alice's date of 01.03.2024 lies
    in no period, and no calendar event of the run is on that date. *)
Example unmatched_date_among_others :
  exists df_summary export calendar,
    apply_user_logic Sample.lower Sample.to_datetime
      (Sample.df_cast_dates ++ [Sample.shoot "Alice" Sample.mar_1]) 2 false
      "Day Before Shooting" "Same Day as Shooting"
      Sample.cast_member_settings Sample.shooting_periods
    = Ok (df_summary, export, calendar)
    /\ Forall (fun ev => c_Start ev <> "01.03.2024") calendar
    /\ apply_user_logic Sample.lower Sample.to_datetime
         Sample.df_cast_dates 2 false
         "Day Before Shooting" "Same Day as Shooting"
         Sample.cast_member_settings Sample.shooting_periods
       = Ok (df_summary, export, calendar).
Proof.
  do 3 eexists. split; [vm_compute; reflexivity|].
  split; [|vm_compute; reflexivity].
  repeat constructor; discriminate.
Qed.

(** ** The statements on the sample project *)

(** C2 as stated fails: two consecutive records of one person on the same
    date get the gap -1, not 0. *)
Lemma same_date_gap_is_negative :
  exists r,
    calculate_gaps [Sample.shoot "Alice" Sample.jan_1;
                    Sample.shoot "Alice" Sample.jan_1] !! 1%nat = Some r
    /\ Previous_Shooting_Date r = Some (Shooting_Date (cast_date r))
    /\ Gap r = -1
    /\ ~ (0 <= Gap r).
Proof.
  eexists. split; [vm_compute; reflexivity|]. simpl.
  split; [reflexivity|]. split; [reflexivity|]. lia.
Qed.

Lemma calculate_gaps_first_and_consecutive_witness :
  let c := Sample.shoot "Alice" Sample.jan_1 in
  let bob := Sample.shoot "Bob" Sample.jan_2 in
  Forall (fun r => Cast_Member r <> Cast_Member c) [bob]
  /\ (exists r,
        calculate_gaps ([bob] ++ c :: [c]) !! 1%nat = Some r
        /\ cast_date r = c /\ Previous_Shooting_Date r = None /\ Gap r = 0
        /\ Weekends_in_Gap r = 0)
  /\ (exists r,
        calculate_gaps ([] ++ c :: [bob] ++ c :: []) !! 2%nat = Some r
        /\ cast_date r = c
        /\ Previous_Shooting_Date r = Some (Shooting_Date c)
        /\ Gap r = Shooting_Date c - Shooting_Date c - 1
        /\ (Shooting_Date c = Shooting_Date c ->
            Gap r = -1 /\ Weekends_in_Gap r = 0)).
Proof.
  intros c bob.
  assert (Forall (fun r => Cast_Member r <> Cast_Member c) [bob]) as Hbob
    by (repeat constructor; discriminate).
  destruct (calculate_gaps_first_and_consecutive c) as [Hfirst Hnext].
  split; [exact Hbob|]. split.
  - exact (Hfirst [bob] [c] Hbob).
  - exact (Hnext [] c [bob] [] eq_refl Hbob).
Defined.

Lemma get_period_info_first_match_witness :
  Forall (fun q => covers Sample.to_datetime Sample.jan_10 q = false) []
  /\ covers Sample.to_datetime Sample.jan_10 Sample.block_1 = true
  /\ covers Sample.to_datetime Sample.jan_10 Sample.block_2 = true
  /\ (get_period_info Sample.to_datetime Sample.jan_10
        Sample.shooting_periods).1
     = (Some "Block 1", Some "Away").
Proof.
  assert (covers Sample.to_datetime Sample.jan_10 Sample.block_1 = true)
    as H1 by reflexivity.
  split; [constructor|]. split; [exact H1|]. split; [reflexivity|].
  exact (proj1 (proj2 (get_period_info_first_match Sample.to_datetime
                         Sample.jan_10 Sample.shooting_periods))
           [] Sample.block_1 [Sample.block_2] eq_refl (Forall_nil_2 _) H1).
Defined.

(** With the two overlapping periods in the other order, the other name
    comes back, and a date before both gets the pair of nulls. *)
Example get_period_info_order :
  (get_period_info Sample.to_datetime Sample.jan_10
     [Sample.block_2; Sample.block_1]).1 = (Some "Block 2", Some "Local")
  /\ (get_period_info Sample.to_datetime (Sample.jan_1 - 1)
        Sample.shooting_periods).1 = (None, None).
Proof. split; reflexivity. Qed.

Lemma new_period_at_threshold_witness :
  let group := [Sample.travel_row "Alice" Sample.jan_2;
                Sample.travel_row "Alice" Sample.jan_10;
                Sample.travel_row "Alice" Sample.jan_1] in
  NoDup (map row_date group)
  /\ Forall (fun p => length p.2 = 1%nat) (stay_periods 0 group)
  /\ (exists r1 r2,
        with_new_period 7 (Frame.sort_values date_leb group) !! 1%nat = Some r1
        /\ with_new_period 7 (Frame.sort_values date_leb group) !! 2%nat
           = Some r2
        /\ group_Gap r2 = 7
        /\ ~ same_period (stay_periods 7 group) r1 r2).
Proof.
  intros group.
  assert (NoDup (map row_date group)) as Hnd
    by (apply (bool_decide_unpack _); vm_compute; exact I).
  split; [exact Hnd|]. split.
  - exact (proj2 (proj2 (new_period_at_threshold 0 group)) eq_refl Hnd).
  - destruct (new_period_at_threshold 7 group) as [Hstep _].
    do 2 eexists. split; [vm_compute; reflexivity|].
    split; [vm_compute; reflexivity|]. split; [reflexivity|].
    eapply (proj2 (Hstep 1%nat _ _ eq_refl eq_refl)). vm_compute. discriminate.
Defined.

(** The example of the specification: shooting on 01.01, 02.01 and 10.01
    with threshold 2 gives two stay periods, the second of 10.01 alone. *)
Example two_stay_periods :
  map (fun p => map (fun r => row_date (group_row r)) p.2)
    (stay_periods 2 [Sample.travel_row "Alice" Sample.jan_1;
                     Sample.travel_row "Alice" Sample.jan_2;
                     Sample.travel_row "Alice" Sample.jan_10])
  = [[Sample.jan_1; Sample.jan_2]; [Sample.jan_10]].
Proof. vm_compute. reflexivity. Qed.

(** C3 as stated fails: of two records of a group on one date the second
    has the local gap -1, which is below the threshold 0, so that it
    starts no new stay period and the two records share one. *)
Lemma same_date_shares_period :
  exists r1 r2,
    with_new_period 0
      (Frame.sort_values date_leb
         [Sample.travel_row "Alice" Sample.jan_1;
          Sample.travel_row "Alice" Sample.jan_1]) = [r1; r2]
    /\ group_Gap r2 = -1
    /\ map (fun p => length p.2)
         (stay_periods 0 [Sample.travel_row "Alice" Sample.jan_1;
                          Sample.travel_row "Alice" Sample.jan_1])
       = [2%nat]
    /\ ~ Forall (fun p => length p.2 = 1%nat)
          (stay_periods 0 [Sample.travel_row "Alice" Sample.jan_1;
                           Sample.travel_row "Alice" Sample.jan_1]).
Proof.
  do 2 eexists. split; [vm_compute; reflexivity|].
  split; [reflexivity|]. split; [vm_compute; reflexivity|].
  intros H.
  apply (Forall_fmap (fun p : Z * list GroupRow => length p.2)
           (fun n => n = 1%nat)) in H.
  vm_compute in H. inversion H as [|? ? Hlen _]. discriminate Hlen.
Qed.

Lemma sample_has_settings :
  exists r, r ∈ Sample.df_cast_dates
            /\ is_Some (Sample.cast_member_settings !! Cast_Member r).
Proof.
  exists (Sample.shoot "Alice" Sample.jan_1). split; [left|].
  eexists. vm_compute. reflexivity.
Qed.

(** The run of the sample project under the two same-day options: the
    stay period of 10.01.2024 alone counts one travel day and no
    night. *)
Example same_day_single_date :
  exists df_summary export calendar,
    apply_user_logic Sample.lower Sample.to_datetime Sample.df_cast_dates
      2 false "Same Day as Shooting" "Same Day as Shooting"
      Sample.cast_member_settings Sample.shooting_periods
    = Ok (df_summary, export, calendar)
    /\ map (fun e => (e_Period_Dates e, e_Period_Travel_Days e,
                      e_Period_Accommodation_Nights e)) export
       = [("01.01.2024–02.01.2024", 2, 1); ("10.01.2024–10.01.2024", 1, 0)]
    /\ map (fun s => (s_Cast_Member s, s_Travel_Days s,
                      s_Accommodation_Nights s, s_Requires_Travel s))
         df_summary
       = [("Alice", 3, 1, true); ("Bob", 0, 0, false)].
Proof. do 3 eexists. split; [vm_compute; reflexivity|]. split; reflexivity. Qed.

Lemma requires_travel_iff_locations_differ_witness :
  let bob := {| cast := Sample.shoot "Bob" Sample.jan_1;
                Period_Name := Some "Block 1";
                Shooting_Location := Some "Away";
                Home_Location := "away";
                Include := true |} in
  (exists df_filtered,
     filtered_frame Sample.lower Sample.to_datetime Sample.df_cast_dates
       Sample.cast_member_settings Sample.shooting_periods = Ok df_filtered
     /\ {| row := bob; Requires_Travel := false |} ∈ df_filtered)
  /\ requires_travel Sample.lower bob = false
  /\ ~ (exists location,
          Shooting_Location bob = Some location
          /\ Sample.lower (Home_Location bob) <> Sample.lower location).
Proof.
  intros bob.
  destruct (requires_travel_iff_locations_differ Sample.lower
              Sample.to_datetime) as (Hiff & Hcol & _ & _).
  assert (exists df_filtered,
     filtered_frame Sample.lower Sample.to_datetime Sample.df_cast_dates
       Sample.cast_member_settings Sample.shooting_periods = Ok df_filtered
     /\ {| row := bob; Requires_Travel := false |} ∈ df_filtered)
    as (df_filtered & Hrun & Hin).
  { eexists. split; [vm_compute; reflexivity|].
    do 3 right. left. }
  destruct (Hcol _ _ _ _ _ Hrun Hin) as [_ Hreq]. simpl in Hreq.
  split; [exists df_filtered; auto|]. split; [now symmetry|].
  intros Hdiff. apply Hiff in Hdiff. congruence.
Defined.

(** Bob lives in "away" and shoots in "Away": his group adds one Shooting
    event and nothing about travel. *)
Example no_travel_at_home :
  exists st,
    group_body 2 false "Day Before Shooting" "Day After Shooting"
      ("Bob", "away", "Block 1", false,
       [{| row := {| cast := Sample.shoot "Bob" Sample.jan_1;
                     Period_Name := Some "Block 1";
                     Shooting_Location := Some "Away";
                     Home_Location := "away";
                     Include := true |};
           Requires_Travel := false |}]) init_state = Ok st
    /\ map c_Title (calendar_data st) = ["Shooting in Block 1"]
    /\ export_data st = []
    /\ map s_Travel_Days (results st) = [0].
Proof. eexists. split; [vm_compute; reflexivity|]. repeat split. Qed.

Lemma gap_dates_of_period_witness :
  let period_group :=
    [Sample.group_of (Sample.travel_row "Alice" Sample.jan_1);
     Sample.group_of (Sample.travel_row "Alice" (Sample.jan_1 + 3))] in
  valid_arrival "Day Before Shooting"
  /\ valid_departure "Day After Shooting"
  /\ (exists st',
        period_body false "Day Before Shooting" "Day After Shooting"
          "Alice" "Local" "Block 1" true (0, period_group) init_state = Ok st'
        /\ map c_Start (calendar_data st')
           = ["31.12.2023"; "01.01.2024"; "04.01.2024"; "02.01.2024";
              "03.01.2024"; "05.01.2024"])
  /\ (exists st',
        period_body false "Day Before Shooting" "Day After Shooting"
          "Alice" "Local" "Block 1" false (0, period_group) init_state = Ok st'
        /\ map c_Start (calendar_data st')
           = ["01.01.2024"; "04.01.2024"; "02.01.2024"; "03.01.2024"]).
Proof.
  intros period_group.
  assert (valid_arrival "Day Before Shooting") as Ha by (left; reflexivity).
  assert (valid_departure "Day After Shooting") as Hd by (left; reflexivity).
  split; [exact Ha|]. split; [exact Hd|].
  destruct (gap_dates_of_period false _ _ "Alice" "Local" "Block 1" 0
              period_group init_state Ha Hd)
    as [(st1 & a & d & gaps & e & Hrun1 & _) (st2 & gaps2 & Hrun2 & _)].
  split.
  - exists st1. split; [exact Hrun1|].
    vm_compute in Hrun1. injection Hrun1 as <-. reflexivity.
  - exists st2. split; [exact Hrun2|].
    vm_compute in Hrun2. injection Hrun2 as <-. reflexivity.
Defined.

Lemma two_travel_events_one_travel_day_witness :
  let period_group :=
    [Sample.group_of (Sample.travel_row "Alice" Sample.jan_10)] in
  valid_arrival "Same Day as Shooting"
  /\ valid_departure "Same Day as Shooting"
  /\ exists st',
       period_body false "Same Day as Shooting" "Same Day as Shooting"
         "Alice" "Local" "Block 1" true (1, period_group) init_state = Ok st'
       /\ arrival_date st' = departure_date st'
       /\ map (fun ev => (c_Title ev, c_Start ev)) (calendar_data st')
          = [("Travel to Block 1", "10.01.2024");
             ("Shooting in Block 1", "10.01.2024");
             ("Travel back to Local", "10.01.2024")]
       /\ map e_Period_Travel_Days (export_data st') = [1].
Proof.
  intros period_group.
  assert (valid_arrival "Same Day as Shooting") as Ha by (right; reflexivity).
  assert (valid_departure "Same Day as Shooting") as Hd
    by (right; reflexivity).
  split; [exact Ha|]. split; [exact Hd|].
  destruct (two_travel_events_one_travel_day false _ _ "Alice" "Local"
              "Block 1" 1 period_group init_state Ha Hd)
    as (st' & a & d & e & events & Hrun & _).
  exists st'. split; [exact Hrun|].
  vm_compute in Hrun. injection Hrun as <-. repeat split.
Defined.

(** ** Dates, weekends *)

Example strftime_first_day : Date.strftime 1 = "01.01.0001".
Proof. reflexivity. Qed.

Example strftime_leap_day_2024 : Date.strftime 738945 = "29.02.2024".
Proof. reflexivity. Qed.

Example strftime_end_of_2023 : Date.strftime (Sample.jan_1 - 1) = "31.12.2023".
Proof. reflexivity. Qed.

(** 01.01.2024 is a Monday; the gap from it to 10.01.2024 spans one
    Saturday and one Sunday. *)
Example weekend_days_in_gap :
  Date.weekday Sample.jan_1 = 0
  /\ map (fun r => (Gap r, Weekends_in_Gap r))
       (calculate_gaps [Sample.shoot "Alice" Sample.jan_1;
                        Sample.shoot "Alice" Sample.jan_10])
     = [(0, 0); (8, 2)].
Proof. split; vm_compute; reflexivity. Qed.

(** ** Errors of a run *)

(** An option that is neither of the two leaves [arrival_date] unbound at
    the first stay period that requires travel; a schedule without any
    row of a cast member that has settings fails when the period columns
    are set. *)
Example errors_of_a_run :
  apply_user_logic Sample.lower Sample.to_datetime Sample.df_cast_dates
    2 false "Two Days Before" "Same Day as Shooting"
    Sample.cast_member_settings Sample.shooting_periods
  = Raise UnboundLocalError
  /\ apply_user_logic Sample.lower Sample.to_datetime
       [Sample.shoot "Carol" Sample.jan_1] 2 false
       "Day Before Shooting" "Same Day as Shooting"
       Sample.cast_member_settings Sample.shooting_periods
     = Raise ValueError.
Proof. split; vm_compute; reflexivity. Qed.

(** ** The structure of a run *)

Section RunStructure.

Lemma travel_branch_inv (weekend_policy : bool)
    (arrival_option departure_option name home_location period_name : string)
    (period_number : Z) (shooting_dates : list Z) (st st' : State) :
  travel_branch weekend_policy arrival_option departure_option
    name home_location period_name period_number shooting_dates st = Ok st' ->
  exists e events,
    export_data st' = (export_data st ++ [e])%list
    /\ calendar_data st' = (calendar_data st ++ events)%list
    /\ results st' = results st
    /\ total_travel st' = total_travel st + e_Period_Travel_Days e
    /\ total_accommodation st'
       = total_accommodation st + e_Period_Accommodation_Nights e
    /\ e_Cast_Member e = name /\ e_Home_Location e = home_location
    /\ e_Period_Number e = period_number
    /\ e_Shooting_Dates e = shooting_dates
    /\ Forall (fun ev => c_Cast_Member ev = name) events.
Proof.
  unfold travel_branch, read_local, mbind, PyResult_bind.
  intros H.
  repeat (cbv beta iota zeta in H;
          match type of H with
          | context [decide ?P] => destruct (decide P)
          | context [match arrival_date st with _ => _ end] =>
              destruct (arrival_date st)
          | context [match departure_date st with _ => _ end] =>
              destruct (departure_date st)
          end);
    cbv beta iota zeta in H; try discriminate H;
    injection H as <-;
    (eexists; eexists; cbn [export_data calendar_data results total_travel
                             total_accommodation];
     split; [reflexivity|]; split; [reflexivity|]; split; [reflexivity|];
     split; [reflexivity|]; split; [reflexivity|];
     split; [reflexivity|]; split; [reflexivity|];
     split; [reflexivity|]; split; [reflexivity|];
     repeat first
       [ apply Forall_nil_2
       | apply Forall_cons_2; [reflexivity|]
       | apply Forall_app; split
       | apply Forall_fmap, Forall_forall; intros ? _; reflexivity ]).
Qed.

Lemma sum_Z_app (l1 l2 : list Z) : sum_Z (l1 ++ l2) = sum_Z l1 + sum_Z l2.
Proof.
  unfold sum_Z. induction l1 as [|x l1 IH]; simpl; [reflexivity|].
  rewrite IH. lia.
Qed.

Lemma for_each_cons_inv {A S} (body : A -> S -> PyResult S) (x : A)
    (l : list A) (s s' : S) :
  for_each body (x :: l) s = Ok s' ->
  exists s1, body x s = Ok s1 /\ for_each body l s1 = Ok s'.
Proof.
  simpl. destruct (body x s) as [s1|err]; [|discriminate].
  intros H. now exists s1.
Qed.

Lemma periods_inv (weekend_policy : bool)
    (arrival_option departure_option name home_location period_name : string)
    (requires_travel : bool) (periods : list (Z * list GroupRow))
    (st st' : State) :
  for_each
    (period_body weekend_policy arrival_option departure_option
       name home_location period_name requires_travel) periods st = Ok st' ->
  exists block events,
    export_data st' = (export_data st ++ block)%list
    /\ calendar_data st' = (calendar_data st ++ events)%list
    /\ results st' = results st
    /\ total_travel st'
       = total_travel st + sum_Z (map e_Period_Travel_Days block)
    /\ total_accommodation st'
       = total_accommodation st
         + sum_Z (map e_Period_Accommodation_Nights block)
    /\ Forall (fun e => e_Cast_Member e = name
                        /\ e_Home_Location e = home_location) block
    /\ Forall (fun ev => c_Cast_Member ev = name) events
    /\ (if requires_travel
        then Forall2 (fun p e => e_Period_Number e = p.1
                                 /\ e_Shooting_Dates e = period_dates p)
               periods block
        else block = []).
Proof.
  revert st. induction periods as [|[number pg] periods IH]; intros st Hrun.
  - simpl in Hrun. injection Hrun as <-. exists [], [].
    rewrite !app_nil_r. simpl.
    repeat split; try lia; try constructor.
    destruct requires_travel; [constructor|reflexivity].
  - apply for_each_cons_inv in Hrun as (st1 & Hbody & Hrun).
    destruct (IH st1 Hrun)
      as (block & events & Hexp & Hcal & Hres & Htr & Hacc & Hb & Hev & Hper).
    unfold period_body in Hbody. destruct requires_travel.
    + apply travel_branch_inv in Hbody
        as (e & events1 & Hexp1 & Hcal1 & Hres1 & Htr1 & Hacc1
            & Hn & Hh & Hnum & Hdates & Hev1).
      exists (e :: block), (events1 ++ events)%list.
      rewrite Hexp, Hexp1, Hcal, Hcal1, Hres, Htr, Htr1, Hacc, Hacc1.
      rewrite <- !app_assoc. simpl. unfold sum_Z in *. simpl.
      split; [reflexivity|]. split; [reflexivity|]. split; [exact Hres1|].
      split; [lia|]. split; [lia|].
      split; [constructor; auto|].
      split; [apply Forall_app; auto|].
      constructor; [|exact Hper]. simpl. auto.
    + injection Hbody as <-. subst block.
      unfold home_branch in *. simpl in *.
      eexists [], _. rewrite app_nil_r in *.
      split; [exact Hexp|]. split; [rewrite Hcal, <- app_assoc; reflexivity|].
      split; [exact Hres|]. split; [exact Htr|]. split; [exact Hacc|].
      split; [constructor|]. split; [|reflexivity].
      apply Forall_app. split; [|exact Hev].
      apply Forall_app.
      split; apply Forall_fmap, Forall_forall; intros ? _; reflexivity.
Qed.

Lemma group_body_inv (max_gap : Z) (weekend_policy : bool)
    (arrival_option departure_option : string)
    (g : GroupKey * list TravelRow) (st st' : State) :
  group_body max_gap weekend_policy arrival_option departure_option g st
  = Ok st' ->
  exists out,
    group_outcome max_gap g out
    /\ results st' = (results st ++ [out.1.1])%list
    /\ export_data st' = (export_data st ++ out.1.2)%list
    /\ calendar_data st' = (calendar_data st ++ out.2)%list.
Proof.
  destruct g as [[[[name home_location] period_name] requires_travel] group].
  unfold group_body. intros Hrun.
  match type of Hrun with
  | context [for_each ?body ?l ?s0] =>
      destruct (for_each body l s0) as [st1|err] eqn:Hloop;
        [|discriminate Hrun]
  end.
  unfold mbind, PyResult_bind in Hrun. injection Hrun as <-.
  apply periods_inv in Hloop
    as (block & events & Hexp & Hcal & Hres & Htr & Hacc & Hb & Hev & Hper).
  simpl in Hexp, Hcal, Hres, Htr, Hacc.
  eexists (_, block, events). simpl.
  split; [|rewrite Hres, Hexp, Hcal; auto].
  repeat split; try assumption; lia.
Qed.

Lemma groups_inv (max_gap : Z) (weekend_policy : bool)
    (arrival_option departure_option : string)
    (groups : list (GroupKey * list TravelRow)) (st st' : State) :
  for_each
    (group_body max_gap weekend_policy arrival_option departure_option)
    groups st = Ok st' ->
  exists outs,
    Forall2 (group_outcome max_gap) groups outs
    /\ results st' = (results st ++ map (fun o => o.1.1) outs)%list
    /\ export_data st'
       = (export_data st ++ concat (map (fun o => o.1.2) outs))%list
    /\ calendar_data st' = (calendar_data st ++ concat (map snd outs))%list.
Proof.
  revert st. induction groups as [|g groups IH]; intros st Hrun.
  - simpl in Hrun. injection Hrun as <-. exists []. simpl.
    rewrite !app_nil_r. auto.
  - apply for_each_cons_inv in Hrun as (st1 & Hbody & Hrun).
    apply group_body_inv in Hbody as (out & Hout & Hres1 & Hexp1 & Hcal1).
    destruct (IH st1 Hrun) as (outs & Houts & Hres & Hexp & Hcal).
    exists (out :: outs). simpl.
    rewrite Hres, Hres1, Hexp, Hexp1, Hcal, Hcal1, <- !app_assoc.
    split; [constructor; assumption|]. auto.
Qed.

(** A successful run, group by group. *)
Lemma run_structure (lower : string -> string)
    (to_datetime : string -> Parsed) (df_cast_dates : list CastDate)
    (max_gap : Z) (weekend_policy : bool)
    (arrival_option departure_option : string)
    (cast_member_settings : gmap string CastSetting)
    (shooting_periods : list ShootingPeriod)
    (df_summary : list SummaryRow) (export : list ExportRecord)
    (calendar : list CalendarEvent) :
  apply_user_logic lower to_datetime df_cast_dates max_gap weekend_policy
    arrival_option departure_option cast_member_settings shooting_periods
  = Ok (df_summary, export, calendar) ->
  exists df_filtered outs,
    filtered_frame lower to_datetime df_cast_dates cast_member_settings
      shooting_periods = Ok df_filtered
    /\ Forall2 (group_outcome max_gap)
         (Frame.groupby group_key_leb grouping_columns df_filtered) outs
    /\ df_summary = map (fun o => o.1.1) outs
    /\ export = concat (map (fun o => o.1.2) outs)
    /\ calendar = concat (map snd outs).
Proof.
  unfold apply_user_logic. intros Hrun.
  destruct (filtered_frame lower to_datetime df_cast_dates
              cast_member_settings shooting_periods)
    as [df_filtered|err]; [|discriminate Hrun].
  unfold mbind at 1, PyResult_bind at 1 in Hrun.
  match type of Hrun with
  | context [for_each ?body ?l ?s0] =>
      destruct (for_each body l s0) as [st1|err] eqn:Hloop;
        [|discriminate Hrun]
  end.
  unfold mbind, PyResult_bind in Hrun. injection Hrun as <- <- <-.
  apply groups_inv in Hloop as (outs & Houts & Hres & Hexp & Hcal).
  exists df_filtered, outs. simpl in *. auto.
Qed.

End RunStructure.

(** ** The filtered frame *)

Section FilteredFrame.

Variable lower : string -> string.
Variable to_datetime : string -> Parsed.

(** The frame in closed form: the records of the cast members that have
    settings, sorted, each with the answer of a scan of the periods as
    given, then the included ones. *)
Lemma filtered_frame_closed (df_cast_dates : list CastDate)
    (cast_member_settings : gmap string CastSetting)
    (shooting_periods : list ShootingPeriod) (df_filtered : list TravelRow) :
  filtered_frame lower to_datetime df_cast_dates cast_member_settings
    shooting_periods = Ok df_filtered ->
  df_filtered
  = map (fun r => {| row := r; Requires_Travel := requires_travel lower r |})
      (filter (fun r => Include r = true)
         (map (located_row to_datetime cast_member_settings shooting_periods)
            (Frame.sort_values member_date_leb
               (filter
                  (fun r => is_Some (cast_member_settings !! Cast_Member r))
                  df_cast_dates)))).
Proof.
  unfold filtered_frame.
  set (sorted := Frame.sort_values member_date_leb
                   (filter (fun r => is_Some (cast_member_settings !! Cast_Member r))
                      df_cast_dates)).
  destruct sorted as [|r0 l] eqn:E; [discriminate|]. rewrite <- E. clear E.
  unfold mbind, PyResult_bind. intros [= <-].
  rewrite period_info_column_find.
  do 2 f_equal.
  rewrite zip_with_fmap_r, zip_with_fmap_r, zip_with_diag.
  reflexivity.
Qed.

End FilteredFrame.

Lemma Forall2_elem_of_r {A B} (P : A -> B -> Prop) (l : list A) (k : list B)
    (y : B) :
  Forall2 P l k -> y ∈ k -> exists x, x ∈ l /\ P x y.
Proof.
  induction 1 as [|x y' l k Hxy _ IH]; intros Hy; [inversion Hy|].
  apply elem_of_cons in Hy as [->|Hy].
  - exists x. split; [left|exact Hxy].
  - destruct (IH Hy) as (x' & Hx' & HP). exists x'. split; [now right|exact HP].
Qed.

(** X1. Every row of the filtered frame carries the name and the location
    of the first shooting period, of the periods as they are given to the
    run, whose range contains its date, or two nulls when there is none:
    the parsed dates that earlier calls of [get_period_info] store back
    into the shared list of periods change no later answer. *)
Theorem period_columns_of_given_periods (lower : string -> string)
    (to_datetime : string -> Parsed) (df_cast_dates : list CastDate)
    (cast_member_settings : gmap string CastSetting)
    (shooting_periods : list ShootingPeriod) (df_filtered : list TravelRow) :
  filtered_frame lower to_datetime df_cast_dates cast_member_settings
    shooting_periods = Ok df_filtered ->
  forall r, r ∈ df_filtered ->
    (Period_Name (row r), Shooting_Location (row r))
    = match List.find (covers to_datetime (row_date r)) shooting_periods with
      | Some period => (Some (Name period), Some (Location period))
      | None => (None, None)
      end.
Proof.
  intros Hrun r Hr. apply filtered_frame_closed in Hrun. subst df_filtered.
  apply list_elem_of_fmap in Hr as (fr & -> & Hfr).
  apply list_elem_of_filter in Hfr as [_ Hfr].
  apply list_elem_of_fmap in Hfr as (c & -> & _).
  unfold row_date, located_row. simpl.
  destruct (List.find (covers to_datetime (Shooting_Date c)) shooting_periods);
    reflexivity.
Qed.

Lemma filtered_frame_casts (lower : string -> string)
    (to_datetime : string -> Parsed) (df_cast_dates : list CastDate)
    (cast_member_settings : gmap string CastSetting)
    (shooting_periods : list ShootingPeriod) (df_filtered : list TravelRow) :
  filtered_frame lower to_datetime df_cast_dates cast_member_settings
    shooting_periods = Ok df_filtered ->
  map (fun r => cast (row r)) df_filtered
  = filter (fun c => include (cast_member_settings !!! Cast_Member c) = true)
      (Frame.sort_values member_date_leb
         (filter (fun c => is_Some (cast_member_settings !! Cast_Member c))
            df_cast_dates)).
Proof.
  intros Hrun. apply filtered_frame_closed in Hrun. subst df_filtered.
  induction (Frame.sort_values member_date_leb
               (filter (fun c => is_Some (cast_member_settings
                                            !! Cast_Member c))
                  df_cast_dates)) as [|c l IH]; [reflexivity|].
  simpl. rewrite !filter_cons. simpl.
  destruct (decide (include (cast_member_settings !!! Cast_Member c) = true));
    simpl; now rewrite IH.
Qed.

Lemma filtered_frame_cast_iff (lower : string -> string)
    (to_datetime : string -> Parsed) (df_cast_dates : list CastDate)
    (cast_member_settings : gmap string CastSetting)
    (shooting_periods : list ShootingPeriod) (df_filtered : list TravelRow) :
  filtered_frame lower to_datetime df_cast_dates cast_member_settings
    shooting_periods = Ok df_filtered ->
  forall c, c ∈ map (fun r => cast (row r)) df_filtered
            <-> c ∈ df_cast_dates
                /\ included cast_member_settings (Cast_Member c).
Proof.
  intros Hrun c. rewrite (filtered_frame_casts _ _ _ _ _ _ Hrun).
  rewrite list_elem_of_filter, sort_values_perm, list_elem_of_filter.
  unfold included. split.
  - intros (Hinc & [setting Hset] & Hc). split; [exact Hc|].
    exists setting. split; [exact Hset|].
    now rewrite (lookup_total_correct _ _ _ Hset) in Hinc.
  - intros (Hc & setting & Hset & Hinc).
    rewrite (lookup_total_correct _ _ _ Hset).
    split; [exact Hinc|]. split; [now exists setting|exact Hc].
Qed.

(** X2. The filtered frame holds exactly the records of the cast members
    that have settings and are included, each as often as the schedule
    has it, sorted by cast member and date; each row carries the home
    location of the settings. *)
Theorem filtered_frame_included_records (lower : string -> string)
    (to_datetime : string -> Parsed) (df_cast_dates : list CastDate)
    (cast_member_settings : gmap string CastSetting)
    (shooting_periods : list ShootingPeriod) (df_filtered : list TravelRow) :
  filtered_frame lower to_datetime df_cast_dates cast_member_settings
    shooting_periods = Ok df_filtered ->
  map (fun r => cast (row r)) df_filtered
  = filter (fun c => include (cast_member_settings !!! Cast_Member c) = true)
      (Frame.sort_values member_date_leb
         (filter (fun c => is_Some (cast_member_settings !! Cast_Member c))
            df_cast_dates))
  /\ (forall c, c ∈ map (fun r => cast (row r)) df_filtered
                <-> c ∈ df_cast_dates
                    /\ included cast_member_settings (Cast_Member c))
  /\ Forall (fun r =>
               exists setting,
                 cast_member_settings !! Cast_Member (cast (row r))
                 = Some setting
                 /\ include setting = true
                 /\ Home_Location (row r) = home_location setting)
       df_filtered.
Proof.
  intros Hrun.
  split; [exact (filtered_frame_casts _ _ _ _ _ _ Hrun)|].
  split; [exact (filtered_frame_cast_iff _ _ _ _ _ _ Hrun)|].
  apply filtered_frame_closed in Hrun. subst df_filtered.
  apply Forall_forall. intros r Hr.
  apply list_elem_of_fmap in Hr as (fr & -> & Hfr).
  apply list_elem_of_filter in Hfr as [Hinc Hfr].
  apply list_elem_of_fmap in Hfr as (c & -> & Hc).
  rewrite sort_values_perm in Hc.
  apply list_elem_of_filter in Hc as [[setting Hset] _]. simpl in *.
  exists setting. rewrite (lookup_total_correct _ _ _ Hset) in *. auto.
Qed.

(** ** The outputs of a run *)

Lemma elem_of_concat {A} (x : A) (ls : list (list A)) :
  x ∈ concat ls <-> exists l, x ∈ l /\ l ∈ ls.
Proof.
  induction ls as [|l ls IH]; simpl.
  - split; [inversion 1|]. intros (l & _ & Hl). inversion Hl.
  - rewrite elem_of_app, IH. split.
    + intros [Hx|(l' & Hx & Hl')].
      * exists l. split; [exact Hx|left].
      * exists l'. split; [exact Hx|now right].
    + intros (l' & Hx & [->|Hl']%elem_of_cons); [now left|].
      right. now exists l'.
Qed.

Lemma group_key_leb_total (a b : GroupKey) :
  group_key_leb a b = false -> group_key_leb b a = true.
Proof.
  destruct a as [[[n1 h1] p1] t1], b as [[[n2 h2] p2] t2].
  unfold group_key_leb.
  rewrite (String.compare_antisym n2 n1), (String.compare_antisym h2 h1),
    (String.compare_antisym p2 p1).
  destruct (String.compare n1 n2); simpl; try congruence.
  destruct (String.compare h1 h2); simpl; try congruence.
  destruct (String.compare p1 p2); simpl; try congruence.
  destruct t1, t2; simpl; congruence.
Qed.

Lemma group_name_included (lower : string -> string)
    (to_datetime : string -> Parsed) (df_cast_dates : list CastDate)
    (cast_member_settings : gmap string CastSetting)
    (shooting_periods : list ShootingPeriod) (df_filtered : list TravelRow)
    (g : GroupKey * list TravelRow) :
  filtered_frame lower to_datetime df_cast_dates cast_member_settings
    shooting_periods = Ok df_filtered ->
  g ∈ Frame.groupby group_key_leb grouping_columns df_filtered ->
  included cast_member_settings g.1.1.1.1
  /\ exists c, c ∈ df_cast_dates /\ Cast_Member c = g.1.1.1.1.
Proof.
  intros Hframe Hg. destruct g as [key group].
  apply elem_of_groupby in Hg as [(r & Hr & Hkey) _].
  pose proof (filtered_frame_cast_iff _ _ _ _ _ _ Hframe) as Hin.
  assert (cast (row r) ∈ map (fun r => cast (row r)) df_filtered) as Hc
    by (apply list_elem_of_fmap; now exists r).
  apply Hin in Hc as [Hc Hinc].
  unfold grouping_columns in Hkey.
  destruct (Period_Name (row r)); [|discriminate].
  injection Hkey as <-. simpl. split; [exact Hinc|]. now exists (cast (row r)).
Qed.

(** X3. Whatever a run returns is about included cast members of the
    schedule only: the cast member of every summary row, of every export
    record and of every calendar event has settings with [include] set
    and has a record in the schedule. *)
Theorem outputs_name_included_members (lower : string -> string)
    (to_datetime : string -> Parsed) (df_cast_dates : list CastDate)
    (max_gap : Z) (weekend_policy : bool)
    (arrival_option departure_option : string)
    (cast_member_settings : gmap string CastSetting)
    (shooting_periods : list ShootingPeriod)
    (df_summary : list SummaryRow) (export : list ExportRecord)
    (calendar : list CalendarEvent) :
  apply_user_logic lower to_datetime df_cast_dates max_gap weekend_policy
    arrival_option departure_option cast_member_settings shooting_periods
  = Ok (df_summary, export, calendar) ->
  let known name :=
    included cast_member_settings name
    /\ exists c, c ∈ df_cast_dates /\ Cast_Member c = name in
  Forall (fun s => known (s_Cast_Member s)) df_summary
  /\ Forall (fun e => known (e_Cast_Member e)) export
  /\ Forall (fun ev => known (c_Cast_Member ev)) calendar.
Proof.
  intros Hrun known.
  apply run_structure in Hrun
    as (df_filtered & outs & Hframe & Houts & -> & -> & ->).
  assert (forall out, out ∈ outs ->
            exists g, known g.1.1.1.1 /\ group_outcome max_gap g out) as Hout.
  { intros out Hin.
    destruct (Forall2_elem_of_r _ _ _ _ Houts Hin) as (g & Hg & Hgo).
    exists g. split; [|exact Hgo].
    exact (group_name_included _ _ _ _ _ _ _ Hframe Hg). }
  split; [|split]; apply Forall_forall.
  - intros s Hs. apply list_elem_of_fmap in Hs as (out & -> & Hin).
    destruct (Hout out Hin) as ([[[[n h] p] t] group] & Hk & Hgo).
    destruct out as [[srow block] events]. simpl in *.
    destruct Hgo as (-> & _). exact Hk.
  - intros e He. apply elem_of_concat in He as (block & He & Hb).
    apply list_elem_of_fmap in Hb as (out & -> & Hin).
    destruct (Hout out Hin) as ([[[[n h] p] t] group] & Hk & Hgo).
    destruct out as [[srow block] events]. simpl in *.
    destruct Hgo as (_ & _ & _ & _ & _ & Hblock & _).
    rewrite Forall_forall in Hblock. destruct (Hblock e He) as [-> _].
    exact Hk.
  - intros ev Hev. apply elem_of_concat in Hev as (events & Hev & Hb).
    apply list_elem_of_fmap in Hb as (out & -> & Hin).
    destruct (Hout out Hin) as ([[[[n h] p] t] group] & Hk & Hgo).
    destruct out as [[srow block] events']. simpl in *.
    destruct Hgo as (_ & _ & _ & _ & _ & _ & Hevents & _).
    rewrite Forall_forall in Hevents. rewrite (Hevents ev Hev).
    exact Hk.
Qed.

(** X4. The summary accumulates the export records: the export records of
    a run split into one block per summary row, in order, such that the
    travel days and the accommodation nights of the row are the sums over
    its block, the records of the block are about the cast member and
    home location of the row, and a row that requires no travel has an
    empty block and two zeros. *)
Theorem summary_totals (lower : string -> string)
    (to_datetime : string -> Parsed) (df_cast_dates : list CastDate)
    (max_gap : Z) (weekend_policy : bool)
    (arrival_option departure_option : string)
    (cast_member_settings : gmap string CastSetting)
    (shooting_periods : list ShootingPeriod)
    (df_summary : list SummaryRow) (export : list ExportRecord)
    (calendar : list CalendarEvent) :
  apply_user_logic lower to_datetime df_cast_dates max_gap weekend_policy
    arrival_option departure_option cast_member_settings shooting_periods
  = Ok (df_summary, export, calendar) ->
  exists blocks,
    export = concat blocks
    /\ Forall2
         (fun s block =>
            s_Travel_Days s = sum_Z (map e_Period_Travel_Days block)
            /\ s_Accommodation_Nights s
               = sum_Z (map e_Period_Accommodation_Nights block)
            /\ Forall (fun e => e_Cast_Member e = s_Cast_Member s
                                /\ e_Home_Location e = s_Home_Location s)
                 block
            /\ (s_Requires_Travel s = false ->
                block = [] /\ s_Travel_Days s = 0
                /\ s_Accommodation_Nights s = 0))
         df_summary blocks.
Proof.
  intros Hrun.
  apply run_structure in Hrun as (df_filtered & outs & _ & Houts & -> & -> & _).
  exists (map (fun o => o.1.2) outs). split; [reflexivity|].
  induction Houts as [|g out groups outs Hgo _ IH]; simpl; constructor;
    [|exact IH].
  destruct g as [[[[n h] p] t] group], out as [[srow block] events].
  simpl in *.
  destruct Hgo as (-> & -> & -> & Htr & Hacc & Hblock & _ & Hper).
  split; [exact Htr|]. split; [exact Hacc|]. split; [exact Hblock|].
  intros ->. subst block. rewrite Htr, Hacc. auto.
Qed.

(** X5. The summary has one row per group of the filtered frame, that is
    per combination of cast member, home location, period name and travel
    flag that occurs among the rows with a period, in ascending order of
    these keys and without a key twice; the row shows the cast member,
    the home location and the flag of its key, not the period name. *)
Theorem summary_rows_of_groups (lower : string -> string)
    (to_datetime : string -> Parsed) (df_cast_dates : list CastDate)
    (max_gap : Z) (weekend_policy : bool)
    (arrival_option departure_option : string)
    (cast_member_settings : gmap string CastSetting)
    (shooting_periods : list ShootingPeriod)
    (df_summary : list SummaryRow) (export : list ExportRecord)
    (calendar : list CalendarEvent) :
  apply_user_logic lower to_datetime df_cast_dates max_gap weekend_policy
    arrival_option departure_option cast_member_settings shooting_periods
  = Ok (df_summary, export, calendar) ->
  exists df_filtered keys,
    filtered_frame lower to_datetime df_cast_dates cast_member_settings
      shooting_periods = Ok df_filtered
    /\ (forall key, key ∈ keys
                    <-> exists r, r ∈ df_filtered
                                  /\ grouping_columns r = Some key)
    /\ NoDup keys
    /\ Sorted (fun a b => group_key_leb a b = true) keys
    /\ map (fun s => (s_Cast_Member s, s_Home_Location s, s_Requires_Travel s))
         df_summary
       = map (fun key : GroupKey => (key.1.1.1, key.1.1.2, key.2)) keys.
Proof.
  intros Hrun.
  apply run_structure in Hrun
    as (df_filtered & outs & Hframe & Houts & -> & _ & _).
  exists df_filtered,
    (Frame.groupby group_key_leb grouping_columns df_filtered).*1.
  split; [exact Hframe|]. split; [|split; [|split]].
  - intros key. rewrite list_elem_of_fmap. split.
    + intros ([k g] & -> & Hg). apply elem_of_groupby in Hg. tauto.
    + intros Hr. eexists (key, _). split; [reflexivity|].
      apply elem_of_groupby. split; [exact Hr|reflexivity].
  - apply groupby_keys_NoDup.
  - unfold Frame.groupby.
    assert (forall l : list GroupKey,
      (map (fun k => (k, filter (fun r => grouping_columns r = Some k)
                           df_filtered)) l).*1 = l) as ->.
    { induction l as [|k l IH]; simpl; [reflexivity|]. now f_equal. }
    apply sort_values_Sorted, group_key_leb_total.
  - rewrite <- !list_fmap_compose.
    induction Houts as [|g out groups outs Hgo _ IH]; simpl; [reflexivity|].
    f_equal; [|exact IH].
    destruct g as [[[[n h] p] t] group], out as [[srow block] events].
    simpl in *. destruct Hgo as (-> & -> & -> & _). reflexivity.
Qed.

(** X6. The export records of a run are, in order, the stay periods of
    the groups that require travel, one record per stay period: each
    record carries the cast member and the home location of its group,
    the number of its stay period and the shooting dates of the period. *)
Theorem export_records_of_stay_periods (lower : string -> string)
    (to_datetime : string -> Parsed) (df_cast_dates : list CastDate)
    (max_gap : Z) (weekend_policy : bool)
    (arrival_option departure_option : string)
    (cast_member_settings : gmap string CastSetting)
    (shooting_periods : list ShootingPeriod)
    (df_summary : list SummaryRow) (export : list ExportRecord)
    (calendar : list CalendarEvent) :
  apply_user_logic lower to_datetime df_cast_dates max_gap weekend_policy
    arrival_option departure_option cast_member_settings shooting_periods
  = Ok (df_summary, export, calendar) ->
  exists df_filtered,
    filtered_frame lower to_datetime df_cast_dates cast_member_settings
      shooting_periods = Ok df_filtered
    /\ Forall2
         (fun (stay : GroupKey * (Z * list GroupRow)) e =>
            e_Cast_Member e = stay.1.1.1.1
            /\ e_Home_Location e = stay.1.1.1.2
            /\ e_Period_Number e = stay.2.1
            /\ e_Shooting_Dates e = period_dates stay.2)
         (travel_stays max_gap
            (Frame.groupby group_key_leb grouping_columns df_filtered))
         export.
Proof.
  intros Hrun.
  apply run_structure in Hrun
    as (df_filtered & outs & Hframe & Houts & _ & -> & _).
  exists df_filtered. split; [exact Hframe|].
  unfold travel_stays.
  induction Houts as [|g out groups outs Hgo _ IH]; simpl; [constructor|].
  apply Forall2_app; [|exact IH].
  destruct g as [[[[n h] p] t] group], out as [[srow block] events].
  simpl in *. destruct Hgo as (_ & _ & _ & _ & _ & Hblock & _ & Hper).
  destruct t; [|subst block; constructor].
  clear IH. induction Hper as [|per e pers block [Hnum Hdates] _ IH];
    simpl; [constructor|].
  apply Forall_cons in Hblock as [[Hn Hh] Hblock].
  constructor; [simpl; auto|]. now apply IH.
Qed.

(** ** The errors of a run *)

Section RunErrors.

Variables (max_gap : Z) (weekend_policy : bool).
Variables arrival_option departure_option : string.

Lemma travel_branch_unbound (name home_location period_name : string)
    (period_number : Z) (shooting_dates : list Z) (st : State) :
  unbound_local arrival_option departure_option st ->
  travel_branch weekend_policy arrival_option departure_option
    name home_location period_name period_number shooting_dates st
  = Raise UnboundLocalError.
Proof.
  unfold unbound_local, valid_arrival, valid_departure, travel_branch,
    read_local,
    mbind, PyResult_bind.
  intros [[Hopt Hst]|[Hopt Hst]]; rewrite ?Hst;
    repeat (cbv beta iota zeta;
            match goal with
            | |- context [decide ?P] => destruct (decide P)
            | |- context [match arrival_date st with _ => _ end] =>
                destruct (arrival_date st)
            | |- context [match departure_date st with _ => _ end] =>
                destruct (departure_date st)
            end);
    cbv beta iota zeta; try reflexivity; exfalso; tauto.
Qed.

Lemma travel_branch_raises (name home_location period_name : string)
    (period_number : Z) (shooting_dates : list Z) (st : State) (e : PyError) :
  travel_branch weekend_policy arrival_option departure_option
    name home_location period_name period_number shooting_dates st
  = Raise e ->
  e = UnboundLocalError.
Proof.
  unfold travel_branch, read_local, mbind, PyResult_bind. intros H.
  repeat (cbv beta iota zeta in H;
          match type of H with
          | context [decide ?P] => destruct (decide P)
          | context [match arrival_date st with _ => _ end] =>
              destruct (arrival_date st)
          | context [match departure_date st with _ => _ end] =>
              destruct (departure_date st)
          end);
    cbv beta iota zeta in H; congruence.
Qed.

Lemma for_each_raises {A S} (body : A -> S -> PyResult S) (l : list A)
    (s : S) (e : PyError) (P : PyError -> Prop) :
  (forall x s e, body x s = Raise e -> P e) ->
  for_each body l s = Raise e -> P e.
Proof.
  intros Hbody. revert s. induction l as [|x l IH]; intros s; simpl;
    [discriminate|].
  destruct (body x s) as [s1|e1] eqn:E; unfold mbind, PyResult_bind.
  - apply IH.
  - intros [= <-]. eapply Hbody, E.
Qed.

Lemma for_each_cons {A S} (body : A -> S -> PyResult S) (x : A)
    (l : list A) (s : S) :
  for_each body (x :: l) s
  = match body x s with
    | Ok s' => for_each body l s'
    | Raise e => Raise e
    end.
Proof. reflexivity. Qed.

Lemma stay_periods_nonempty (group : list TravelRow) :
  group <> [] -> stay_periods max_gap group <> [].
Proof.
  intros Hne Hnil. unfold stay_periods in Hnil.
  set (rows := with_new_period max_gap (Frame.sort_values date_leb group)) in *.
  assert (length rows = length group) as Hlen.
  { unfold rows, with_new_period.
    rewrite !length_zip_with, cumsum_length, length_map, diff_gap_length,
      length_map.
    pose proof (Permutation_length (sort_values_perm date_leb group)). lia. }
  destruct rows as [|r rows'] eqn:E;
    [destruct group; [congruence|discriminate Hlen]|].
  assert ((New_Period r,
           filter (fun r' => Some (New_Period r') = Some (New_Period r))
             (r :: rows'))
          ∈ Frame.groupby Z.leb (fun r => Some (New_Period r)) (r :: rows'))
    as Hin.
  { apply elem_of_groupby. split; [|reflexivity]. exists r.
    split; [left|auto]. }
  rewrite Hnil in Hin. inversion Hin.
Qed.

Lemma group_body_unbound (name home_location period_name : string)
    (group : list TravelRow) (st : State) :
  group <> [] -> unbound_local arrival_option departure_option st ->
  group_body max_gap weekend_policy arrival_option departure_option
    (name, home_location, period_name, true, group) st
  = Raise UnboundLocalError.
Proof.
  intros Hne Hst. unfold group_body.
  destruct (stay_periods max_gap group) as [|[number pg] periods] eqn:E;
    [now apply stay_periods_nonempty in E|].
  rewrite for_each_cons. unfold period_body at 1.
  rewrite travel_branch_unbound; [reflexivity|].
  destruct Hst as [[? ?]|[? ?]]; [left|right]; simpl; auto.
Qed.

Lemma group_body_home (name home_location period_name : string)
    (group : list TravelRow) (st : State) :
  exists st',
    group_body max_gap weekend_policy arrival_option departure_option
      (name, home_location, period_name, false, group) st = Ok st'
    /\ arrival_date st' = arrival_date st
    /\ departure_date st' = departure_date st
    /\ export_data st' = export_data st.
Proof.
  unfold group_body.
  match goal with
  | |- context [for_each ?body ?l ?s0] =>
      destruct (for_each_ok
                  (fun s => arrival_date s = arrival_date st
                            /\ departure_date s = departure_date st
                            /\ export_data s = export_data st)
                  body l s0) as (st1 & Hrun & Hst1)
  end.
  - intros [k pg] s _ Hs. eexists. split; [reflexivity|]. exact Hs.
  - auto.
  - rewrite Hrun. eexists. split; [reflexivity|]. exact Hst1.
Qed.

Lemma groups_unbound (groups : list (GroupKey * list TravelRow)) (st : State) :
  Forall (fun g => g.2 <> []) groups ->
  unbound_local arrival_option departure_option st ->
  (Exists (fun g => g.1.2 = true) groups ->
   for_each
     (group_body max_gap weekend_policy arrival_option departure_option)
     groups st = Raise UnboundLocalError)
  /\ (Forall (fun g => g.1.2 = false) groups ->
      exists st',
        for_each
          (group_body max_gap weekend_policy arrival_option departure_option)
          groups st = Ok st'
        /\ export_data st' = export_data st).
Proof.
  intros Hne. revert st. induction Hne as [|g groups Hg _ IH]; intros st Hst.
  - split; [inversion 1|]. intros _. now exists st.
  - destruct g as [[[[name home_location] period_name] [|]] group].
    all: simpl in Hg.
    + split.
      * intros _. rewrite for_each_cons.
        now rewrite (group_body_unbound _ _ _ _ _ Hg Hst).
      * intros Hall. apply Forall_cons in Hall as [Hfalse _]. discriminate.
    + destruct (group_body_home name home_location period_name group st)
        as (st1 & Hbody & Harr & Hdep & Hexp).
      assert (unbound_local arrival_option departure_option st1) as Hst1
        by (unfold unbound_local in *; rewrite Harr, Hdep; exact Hst).
      destruct (IH st1 Hst1) as [IHraise IHok].
      rewrite for_each_cons. unfold GroupKey in *. rewrite Hbody. split.
      * intros Hex. apply Exists_cons in Hex as [Hex|Hex]; [discriminate|].
        now apply IHraise.
      * intros Hall. apply Forall_cons in Hall as [_ Hall].
        destruct (IHok Hall) as (st' & Hrun & Hexp').
        exists st'. split; [exact Hrun|congruence].
Qed.

End RunErrors.

(** X7. With an arrival or a departure option that is none of the two
    strings of the window, a run raises [UnboundLocalError] as soon as one
    row with a period requires travel, and otherwise succeeds without an
    export record: the options are read only where travel is required. *)
Theorem unknown_option_raises (lower : string -> string)
    (to_datetime : string -> Parsed) (df_cast_dates : list CastDate)
    (max_gap : Z) (weekend_policy : bool)
    (arrival_option departure_option : string)
    (cast_member_settings : gmap string CastSetting)
    (shooting_periods : list ShootingPeriod) (df_filtered : list TravelRow) :
  ~ valid_arrival arrival_option \/ ~ valid_departure departure_option ->
  filtered_frame lower to_datetime df_cast_dates cast_member_settings
    shooting_periods = Ok df_filtered ->
  ((exists r, r ∈ df_filtered /\ Period_Name (row r) <> None
              /\ Requires_Travel r = true) ->
   apply_user_logic lower to_datetime df_cast_dates max_gap weekend_policy
     arrival_option departure_option cast_member_settings shooting_periods
   = Raise UnboundLocalError)
  /\ ((forall r, r ∈ df_filtered -> Period_Name (row r) <> None ->
                 Requires_Travel r = false) ->
      exists df_summary calendar,
        apply_user_logic lower to_datetime df_cast_dates max_gap
          weekend_policy arrival_option departure_option
          cast_member_settings shooting_periods
        = Ok (df_summary, [], calendar)).
Proof.
  intros Hopt Hframe. unfold apply_user_logic. rewrite Hframe.
  unfold mbind at 1 3, PyResult_bind at 1 3.
  set (groups := Frame.groupby group_key_leb grouping_columns df_filtered).
  assert (Forall (fun g => g.2 <> []) groups) as Hne.
  { apply Forall_forall. intros [k g] Hg. simpl.
    eapply groupby_nonempty, Hg. }
  assert (unbound_local arrival_option departure_option init_state) as Hinit
    by (destruct Hopt; [left|right]; auto).
  destruct (groups_unbound max_gap weekend_policy arrival_option
              departure_option groups init_state Hne Hinit) as [Hraise Hok].
  split.
  - intros (r & Hr & Hper & Htravel). rewrite Hraise; [reflexivity|].
    destruct (Period_Name (row r)) as [p|] eqn:Ep; [|congruence].
    apply Exists_exists.
    exists (Cast_Member (cast (row r)), Home_Location (row r), p, true,
            filter (fun r' => grouping_columns r'
                              = Some (Cast_Member (cast (row r)),
                                      Home_Location (row r), p, true))
              df_filtered).
    split; [|reflexivity].
    apply elem_of_groupby. split; [|reflexivity].
    exists r. split; [exact Hr|]. unfold grouping_columns.
    now rewrite Ep, Htravel.
  - intros Hnone. destruct Hok as (st' & Hrun & Hexp).
    + apply Forall_forall. intros [k g] Hg. simpl.
      apply elem_of_groupby in Hg as [(r & Hr & Hkey) _].
      unfold grouping_columns in Hkey.
      destruct (Period_Name (row r)) as [p|] eqn:Ep; [|discriminate].
      injection Hkey as <-. simpl. apply Hnone; [exact Hr|congruence].
    + rewrite Hrun. unfold mbind, PyResult_bind. rewrite Hexp.
      now exists (results st'), (calendar_data st').
Qed.

(** X8. A schedule with a cast member that has settings, but with no cast
    member that is included, gives a successful run with an empty
    summary, no export record and no calendar event. *)
Theorem nobody_included_empty_outputs (lower : string -> string)
    (to_datetime : string -> Parsed) (df_cast_dates : list CastDate)
    (max_gap : Z) (weekend_policy : bool)
    (arrival_option departure_option : string)
    (cast_member_settings : gmap string CastSetting)
    (shooting_periods : list ShootingPeriod) :
  (exists c, c ∈ df_cast_dates
             /\ is_Some (cast_member_settings !! Cast_Member c)) ->
  (forall c, c ∈ df_cast_dates ->
             ~ included cast_member_settings (Cast_Member c)) ->
  apply_user_logic lower to_datetime df_cast_dates max_gap weekend_policy
    arrival_option departure_option cast_member_settings shooting_periods
  = Ok ([], [], []).
Proof.
  intros Hsome Hnone.
  destruct (filtered_frame_ok lower to_datetime _ _ shooting_periods Hsome)
    as (df_filtered & Hframe).
  pose proof (filtered_frame_cast_iff _ _ _ _ _ _ Hframe) as Hin.
  assert (df_filtered = []) as ->.
  { destruct df_filtered as [|r l]; [reflexivity|exfalso].
    destruct (proj1 (Hin (cast (row r)))) as [Hc Hinc]; [left|].
    exact (Hnone _ Hc Hinc). }
  unfold apply_user_logic. rewrite Hframe. reflexivity.
Qed.

(** X9. A run on a schedule none of whose records is of a cast member
    that has settings, the empty schedule included, raises [ValueError]:
    the period columns cannot be set on a frame without rows. *)
Theorem no_settings_raises_value_error (lower : string -> string)
    (to_datetime : string -> Parsed) (df_cast_dates : list CastDate)
    (max_gap : Z) (weekend_policy : bool)
    (arrival_option departure_option : string)
    (cast_member_settings : gmap string CastSetting)
    (shooting_periods : list ShootingPeriod) :
  (forall c, c ∈ df_cast_dates ->
             cast_member_settings !! Cast_Member c = None) ->
  apply_user_logic lower to_datetime df_cast_dates max_gap weekend_policy
    arrival_option departure_option cast_member_settings shooting_periods
  = Raise ValueError.
Proof.
  intros Hnone. unfold apply_user_logic, filtered_frame.
  assert (filter (fun r => is_Some (cast_member_settings !! Cast_Member r))
            df_cast_dates = []) as ->; [|reflexivity].
  destruct (filter _ df_cast_dates) as [|c l] eqn:E; [reflexivity|exfalso].
  assert (c ∈ filter (fun r => is_Some (cast_member_settings !! Cast_Member r))
                df_cast_dates) as Hc by (rewrite E; left).
  apply list_elem_of_filter in Hc as [[s Hs] Hc].
  rewrite (Hnone c Hc) in Hs. discriminate.
Qed.

(** ** Groups and stay periods as partitions *)

Section Partition.

Context {A : Type}.

Lemma filter_none (P : A -> Prop) `{forall x, Decision (P x)} (l : list A) :
  Forall (fun x => ~ P x) l -> filter P l = [].
Proof.
  induction 1 as [|x l Hx _ IH]; [reflexivity|].
  now rewrite filter_cons_False.
Qed.

Lemma filter_all (P : A -> Prop) `{forall x, Decision (P x)} (l : list A) :
  Forall P l -> filter P l = l.
Proof.
  induction 1 as [|x l Hx _ IH]; [reflexivity|].
  rewrite filter_cons_True by exact Hx. now f_equal.
Qed.

Lemma filter_by_key_ext (key key' : A -> Prop)
    `{forall x, Decision (key x)} `{forall x, Decision (key' x)}
    (l : list A) :
  (forall x, x ∈ l -> key x <-> key' x) -> filter key l = filter key' l.
Proof.
  induction l as [|x l IH]; intros Hext; [reflexivity|].
  rewrite !filter_cons.
  destruct (decide (key x)) as [Hk|Hk], (decide (key' x)) as [Hk'|Hk'].
  - f_equal. apply IH. intros y Hy. apply Hext. now right.
  - exfalso. apply Hk', (Hext x); [left|exact Hk].
  - exfalso. apply Hk, (Hext x); [left|exact Hk'].
  - apply IH. intros y Hy. apply Hext. now right.
Qed.

(** The rows with the least key come first in a frame sorted by key. *)
Lemma split_least_key (key : A -> Z) (k : Z) (l : list A) :
  StronglySorted Z.le (map key l) -> Forall (fun x => k <= key x) l ->
  (filter (fun r => Some (key r) = Some k) l
   ++ filter (fun r => Some (key r) <> Some k) l)%list = l.
Proof.
  induction l as [|x l IH]; intros Hs Hk; [reflexivity|].
  simpl in Hs. apply StronglySorted_inv in Hs as [Hs Hx].
  apply Forall_cons in Hk as [Hkx Hk].
  destruct (decide (key x = k)) as [E|E].
  - rewrite filter_cons_True by congruence.
    rewrite (filter_cons_False (fun r => Some (key r) <> Some k))
      by (intros Hne; apply Hne; congruence).
    simpl. f_equal. now apply IH.
  - assert (Forall (fun y => Some (key y) <> Some k) (x :: l)) as Hall.
    { constructor; [congruence|].
      pose proof (proj1 (Forall_fmap _ _ _) Hx) as Hx'.
      eapply Forall_impl; [exact Hx'|].
      simpl. intros y Hy [= Ey]. lia. }
    rewrite filter_none, filter_all; [reflexivity|exact Hall|].
    eapply Forall_impl; [exact Hall|]. simpl. tauto.
Qed.

Lemma StronglySorted_filter_key (key : A -> Z) (P : A -> Prop)
    `{forall x, Decision (P x)} (l : list A) :
  StronglySorted Z.le (map key l) ->
  StronglySorted Z.le (map key (filter P l)).
Proof.
  induction l as [|x l IH]; intros Hs; [constructor|].
  simpl in Hs. apply StronglySorted_inv in Hs as [Hs Hx].
  rewrite filter_cons. destruct (decide (P x)); [|now apply IH].
  simpl. constructor; [now apply IH|].
  apply Forall_fmap.
  pose proof (proj1 (Forall_fmap _ _ _) Hx) as Hx'.
  apply Forall_forall. intros y Hy.
  apply list_elem_of_filter in Hy as [_ Hy].
  rewrite Forall_forall in Hx'. now apply Hx'.
Qed.

(** The groups of a frame sorted by key, taken in ascending order of the
    keys, are the consecutive runs of the frame. *)
Lemma concat_groups_sorted (key : A -> Z) (ks : list Z) (l : list A) :
  StronglySorted Z.lt ks -> StronglySorted Z.le (map key l) ->
  Forall (fun x => key x ∈ ks) l ->
  concat (map (fun k => filter (fun r => Some (key r) = Some k) l) ks) = l.
Proof.
  intros Hks. revert l. induction Hks as [|k ks Hks IH Hk]; intros l Hs Hin.
  - destruct l as [|x l]; [reflexivity|].
    apply Forall_cons in Hin as [Hx _]. inversion Hx.
  - simpl.
    assert (Forall (fun x => k <= key x) l) as Hle.
    { eapply Forall_impl; [exact Hin|]. simpl.
      intros x [->|Hx]%elem_of_cons; [lia|].
      rewrite Forall_forall in Hk. specialize (Hk _ Hx). lia. }
    etransitivity; [|exact (split_least_key key k l Hs Hle)]. f_equal.
    set (l2 := filter (fun r => Some (key r) <> Some k) l).
    assert (concat (map (fun k' => filter (fun r => Some (key r) = Some k') l2)
                      ks) = l2) as H2.
    { apply IH.
      - now apply StronglySorted_filter_key.
      - apply Forall_forall. intros x Hx.
        apply list_elem_of_filter in Hx as [Hne Hx].
        rewrite Forall_forall in Hin.
        destruct (proj1 (elem_of_cons _ _ _) (Hin x Hx)) as [E|E];
          [congruence|exact E]. }
    rewrite <- H2. f_equal. apply map_ext_in. intros k' Hk'.
    apply list_elem_of_In in Hk'. unfold l2.
    rewrite list_filter_filter. apply filter_by_key_ext.
    intros x _. split; [|tauto]. intros [= E]. split; [congruence|].
    intros [= E']. rewrite Forall_forall in Hk. specialize (Hk _ Hk'). lia.
Qed.

(** Keys without a twin give groups that share no row, and the groups of
    all the keys hold together the rows that have a key. *)
Lemma concat_groups_perm {K} `{EqDecision K} (key : A -> option K)
    (ks : list K) (l : list A) :
  NoDup ks ->
  Forall (fun r => forall k, key r = Some k -> k ∈ ks) l ->
  concat (map (fun k => filter (fun r => key r = Some k) l) ks)
  ≡ₚ filter (fun r => is_Some (key r)) l.
Proof.
  intros Hnd Hall. induction Hall as [|x l Hx _ IH].
  - rewrite filter_nil.
    assert (forall ks' : list K,
              concat (map (fun k => filter (fun r => key r = Some k) []) ks')
              = []) as ->; [|reflexivity].
    induction ks' as [|k ks' IH']; [reflexivity|]. simpl. exact IH'.
  - rewrite (filter_cons (fun r => is_Some (key r))).
    destruct (key x) as [k|] eqn:Ex.
    + rewrite decide_True by eauto. rewrite <- IH. clear IH.
      specialize (Hx k eq_refl).
      induction Hnd as [|k0 ks Hk0 Hnd IHks]; [inversion Hx|].
      simpl. rewrite filter_cons.
      destruct (decide (key x = Some k0)) as [E|E].
      * simpl. apply Permutation_skip. apply Permutation_app_head.
        assert (Forall (fun k' => key x <> Some k') ks) as Hnot.
        { apply Forall_forall. intros k' Hk' E'. apply Hk0. congruence. }
        clear -Hnot. induction Hnot as [|k' ks Hk' _ IH]; [reflexivity|].
        simpl. rewrite filter_cons_False by exact Hk'. now rewrite IH.
      * apply elem_of_cons in Hx as [->|Hx]; [congruence|].
        rewrite (IHks Hx). symmetry. apply Permutation_middle.
    + rewrite decide_False by (intros [k Hk]; discriminate).
      rewrite <- IH.
      assert (forall ks' : list K,
        concat (map (fun k => filter (fun r => key r = Some k) (x :: l)) ks')
        = concat (map (fun k => filter (fun r => key r = Some k) l) ks'))
        as ->; [|reflexivity].
      induction ks' as [|k' ks' IH']; [reflexivity|]. simpl.
      rewrite filter_cons_False by congruence. now rewrite IH'.
Qed.

End Partition.

Section StayPeriodsPartition.

Lemma cumsum_sorted (acc : Z) (bs : list bool) :
  Forall (fun x => acc <= x) (Frame.cumsum acc bs)
  /\ StronglySorted Z.le (Frame.cumsum acc bs).
Proof.
  revert acc. induction bs as [|b bs IH]; intros acc; simpl;
    [split; constructor|].
  destruct (IH (acc + (if b then 1 else 0))) as [Hle Hs].
  assert (acc <= acc + (if b then 1 else 0)) by (destruct b; lia).
  split.
  - constructor; [assumption|].
    eapply Forall_impl; [exact Hle|]. simpl. intros; lia.
  - constructor; assumption.
Qed.

Lemma with_new_period_length (max_gap : Z) (group : list TravelRow) :
  length (with_new_period max_gap group) = length group.
Proof.
  unfold with_new_period.
  rewrite !length_zip_with, cumsum_length, length_map, diff_gap_length,
    length_map. lia.
Qed.

Lemma with_new_period_group_row (max_gap : Z) (group : list TravelRow) :
  map group_row (with_new_period max_gap group) = group.
Proof.
  apply list_eq. intros i. rewrite list_lookup_fmap.
  destruct (with_new_period max_gap group !! i) as [r|] eqn:E; simpl.
  - apply with_new_period_lookup in E as (E & _). now rewrite E.
  - symmetry. apply lookup_ge_None. apply lookup_ge_None in E.
    now rewrite with_new_period_length in E.
Qed.

Lemma Sorted_leb_le (l : list Z) :
  Sorted (fun a b => Z.leb a b = true) l -> Sorted Z.le l.
Proof.
  induction 1 as [|x l Hl IH Hx]; constructor; [exact IH|].
  destruct Hx as [|y l Hxy]; constructor. now apply Z.leb_le.
Qed.

Lemma period_keys_sorted (rows : list GroupRow) :
  StronglySorted Z.lt
    (Frame.sort_values Z.leb
       (remove_dups (omap (fun r => Some (New_Period r)) rows))).
Proof.
  apply Sorted_StronglySorted; [intros x y z; lia|].
  apply Sorted_le_NoDup_lt.
  - apply Sorted_leb_le, sort_values_Sorted.
    intros a b. rewrite Z.leb_gt, Z.leb_le. lia.
  - rewrite sort_values_perm. apply NoDup_remove_dups.
Qed.

Lemma stay_periods_concat (max_gap : Z) (group : list TravelRow) :
  concat (map snd (stay_periods max_gap group))
  = with_new_period max_gap (Frame.sort_values date_leb group).
Proof.
  unfold stay_periods, Frame.groupby.
  set (rows := with_new_period max_gap (Frame.sort_values date_leb group)).
  rewrite map_map. simpl.
  apply (concat_groups_sorted New_Period).
  - apply period_keys_sorted.
  - unfold rows. rewrite with_new_period_New_Period. apply cumsum_sorted.
  - apply Forall_forall. intros r Hr.
    rewrite sort_values_perm, elem_of_remove_dups, list_elem_of_omap.
    now exists r.
Qed.

End StayPeriodsPartition.

Lemma stay_periods_dates (max_gap : Z) (group : list TravelRow) :
  concat (map period_dates (stay_periods max_gap group))
  = map row_date (Frame.sort_values date_leb group).
Proof.
  unfold period_dates.
  rewrite <- (map_map snd (map (fun r => row_date (group_row r)))).
  rewrite <- concat_map. rewrite stay_periods_concat.
  rewrite <- (map_map group_row row_date).
  now rewrite with_new_period_group_row.
Qed.

(** X10. The stay periods of a group hold every shooting date of the
    group exactly once and in ascending order: their dates, one period
    after the other, are the dates of the group sorted.  The periods are
    numbered in strictly ascending order, and none is empty. *)
Theorem stay_periods_cover_group (max_gap : Z) (group : list TravelRow) :
  let periods := stay_periods max_gap group in
  concat (map period_dates periods)
  = map row_date (Frame.sort_values date_leb group)
  /\ Sorted Z.le (concat (map period_dates periods))
  /\ concat (map period_dates periods) ≡ₚ map row_date group
  /\ Sorted Z.lt (map fst periods)
  /\ Forall (fun p => p.2 <> []) periods.
Proof.
  intros periods.
  assert (concat (map period_dates periods)
          = map row_date (Frame.sort_values date_leb group)) as Hdates.
  { apply stay_periods_dates. }
  split; [exact Hdates|]. rewrite Hdates.
  split; [apply sorted_dates|].
  split; [now rewrite sort_values_perm|]. split.
  - unfold periods, stay_periods, Frame.groupby.
    rewrite map_map. simpl. rewrite map_id.
    apply StronglySorted_Sorted, period_keys_sorted.
  - apply Forall_forall. intros [k g] Hp. simpl.
    unfold periods, stay_periods in Hp. eapply groupby_nonempty, Hp.
Qed.

(** X11. The groups of the filtered frame share no row: taken together
    they hold every row that has a period name exactly as often as the
    frame has it, and no row without one. *)
Theorem groups_partition_rows_with_period (df_filtered : list TravelRow) :
  concat (map snd (Frame.groupby group_key_leb grouping_columns df_filtered))
  ≡ₚ filter (fun r => is_Some (Period_Name (row r))) df_filtered.
Proof.
  unfold Frame.groupby. rewrite map_map. simpl.
  rewrite concat_groups_perm.
  - apply Permutation_refl'. apply filter_by_key_ext.
    intros r _. unfold grouping_columns.
    destruct (Period_Name (row r)); split; intros [x Hx]; eauto; discriminate.
  - rewrite sort_values_perm. apply NoDup_remove_dups.
  - apply Forall_forall. intros r Hr k Hk.
    rewrite sort_values_perm, elem_of_remove_dups, list_elem_of_omap.
    now exists r.
Qed.

(** X12. When any two shooting dates of a group are fewer than [max_gap]
    days apart (and [max_gap] is positive), the whole group is one stay
    period, numbered 0. *)
Theorem one_stay_period_below_threshold (max_gap : Z)
    (group : list TravelRow) :
  0 < max_gap -> group <> [] ->
  (forall d d', d ∈ map row_date group -> d' ∈ map row_date group ->
                d' - d - 1 < max_gap) ->
  exists rows,
    stay_periods max_gap group = [(0, rows)]
    /\ map group_row rows = Frame.sort_values date_leb group.
Proof.
  intros Hpos Hne Hclose.
  set (sorted := Frame.sort_values date_leb group).
  set (rows := with_new_period max_gap sorted).
  assert (Forall (fun g => g < max_gap)
            (Frame.diff_gap None (map row_date sorted))) as Hgaps.
  { assert (forall prev l,
      (forall d d', d ∈ l -> d' ∈ l -> d' - d - 1 < max_gap) ->
      match prev with
      | Some p => forall d', d' ∈ l -> d' - p - 1 < max_gap
      | None => True
      end ->
      Forall (fun g => g < max_gap) (Frame.diff_gap prev l)) as Hgen.
    { intros prev l. revert prev.
      induction l as [|d l IH]; intros prev Hl Hp; simpl; constructor.
      - destruct prev as [p|]; [apply Hp; left|lia].
      - apply IH.
        + intros x y Hx Hy. apply Hl; now right.
        + intros y Hy. apply Hl; [left|now right]. }
    apply Hgen; [|exact I]. intros d d' Hd Hd'.
    unfold sorted in Hd, Hd'. rewrite sort_values_perm in Hd, Hd'.
    now apply Hclose. }
  assert (map New_Period rows = replicate (length rows) 0) as Hnp.
  { unfold rows at 1. rewrite with_new_period_New_Period.
    unfold rows. rewrite with_new_period_length.
    rewrite <- (length_map row_date), <- (diff_gap_length None).
    assert (forall gaps, Forall (fun g => g < max_gap) gaps ->
              Frame.cumsum 0 (map (fun g => max_gap <=? g) gaps)
              = replicate (length gaps) 0) as Hgen.
    { induction 1 as [|g gaps Hg _ IH]; [reflexivity|]. simpl.
      replace (max_gap <=? g) with false by (symmetry; apply Z.leb_gt; lia).
      simpl. rewrite !Z.add_0_r. now rewrite IH. }
    now apply Hgen. }
  assert (Forall (fun r => New_Period r = 0) rows) as Hzero.
  { apply Forall_forall. intros r Hr.
    assert (New_Period r ∈ map New_Period rows) as Hin
      by (apply list_elem_of_fmap; now exists r).
    rewrite Hnp in Hin. now apply elem_of_replicate in Hin as [-> _]. }
  assert (rows <> []) as Hrows.
  { intros Hnil.
    pose proof (with_new_period_length max_gap sorted) as Hlen.
    fold rows in Hlen. rewrite Hnil in Hlen. simpl in Hlen.
    pose proof (Permutation_length (sort_values_perm date_leb group)) as Hp.
    fold sorted in Hp. destruct group; [congruence|simpl in Hp; lia]. }
  exists rows. split; [|apply with_new_period_group_row].
  unfold stay_periods, Frame.groupby. fold sorted. fold rows.
  assert (remove_dups (omap (fun r => Some (New_Period r)) rows) = [0]) as ->.
  { assert (forall l : list Z, Forall (fun x => x = 0) l -> l <> [] ->
              remove_dups l = [0]) as Hdups.
    { induction 1 as [|x l -> Hl IH]; intros Hl'; [congruence|]. simpl.
      destruct (decide_rel elem_of 0 l) as [Hin|Hnot].
      - apply IH. intros ->. inversion Hin.
      - destruct l as [|y l]; [reflexivity|exfalso].
        apply Forall_cons in Hl as [-> _]. apply Hnot. left. }
    apply Hdups.
    - apply Forall_forall. intros x Hx.
      apply list_elem_of_omap in Hx as (r & Hr & [= <-]).
      rewrite Forall_forall in Hzero. now apply Hzero.
    - destruct rows as [|r rows']; [congruence|discriminate]. }
  simpl. f_equal. f_equal. apply filter_all.
  eapply Forall_impl; [exact Hzero|]. simpl. congruence.
Qed.

(** ** Weekends in a gap *)

Section Weekends.

Lemma weekday_shift (q x : Z) : Date.weekday (7 * q + x) = Date.weekday x.
Proof.
  unfold Date.weekday.
  replace (7 * q + x + 6) with (x + 6 + q * 7) by lia.
  apply Z_mod_plus_full.
Qed.

Lemma weekend_days_shift (q s n : Z) :
  weekend_days (7 * q + s) n = weekend_days s n.
Proof.
  unfold weekend_days. rewrite <- (fmap_add_seqZ (7 * q) s n).
  generalize (seqZ s n). intros l.
  induction l as [|x l IH]; [reflexivity|].
  rewrite fmap_cons, !filter_cons, weekday_shift.
  destruct (decide (5 <= Date.weekday x)); simpl; now rewrite IH.
Qed.

Lemma weekend_days_app (s a b : Z) :
  0 <= a -> 0 <= b ->
  weekend_days s (a + b) = (weekend_days s a + weekend_days (s + a) b)%nat.
Proof.
  intros Ha Hb. unfold weekend_days.
  rewrite seqZ_app by lia. now rewrite filter_app, length_app.
Qed.

(** Every start of the week and every length below a week, by
    enumeration. *)
Lemma weekend_days_small :
  Forall (fun m =>
            weekend_days m 7 = 2%nat
            /\ Forall (fun r => (weekend_days m r <= 2)%nat) (seqZ 0 7))
    (seqZ 0 7).
Proof. apply (bool_decide_unpack _). vm_compute. exact I. Qed.

Lemma weekend_days_week (s : Z) : weekend_days s 7 = 2%nat.
Proof.
  rewrite (Z.div_mod s 7) by lia. rewrite weekend_days_shift.
  pose proof weekend_days_small as H. rewrite Forall_forall in H.
  apply (H (s mod 7)). apply elem_of_seqZ.
  pose proof (Z.mod_pos_bound s 7). lia.
Qed.

Lemma weekend_days_below_week (s r : Z) :
  0 <= r < 7 -> (weekend_days s r <= 2)%nat.
Proof.
  intros Hr. rewrite (Z.div_mod s 7) by lia. rewrite weekend_days_shift.
  pose proof weekend_days_small as H. rewrite Forall_forall in H.
  destruct (H (s mod 7)) as [_ H'].
  - apply elem_of_seqZ. pose proof (Z.mod_pos_bound s 7). lia.
  - rewrite Forall_forall in H'. apply H'. apply elem_of_seqZ. lia.
Qed.

Lemma weekend_days_weeks (s k : Z) :
  0 <= k -> weekend_days s (7 * k) = (2 * Z.to_nat k)%nat.
Proof.
  intros Hk. revert s. pattern k. apply natlike_ind; [| |exact Hk].
  - intros s. reflexivity.
  - intros k' Hk' IH s.
    replace (7 * Z.succ k') with (7 + 7 * k') by lia.
    rewrite weekend_days_app by lia.
    rewrite weekend_days_week, IH, Z2Nat.inj_succ by lia. lia.
Qed.

Lemma weekend_days_bounds (s n : Z) :
  0 <= n ->
  (2 * Z.to_nat (n / 7) <= weekend_days s n <= 2 * Z.to_nat (n / 7) + 2)%nat
  /\ (n mod 7 = 0 -> weekend_days s n = (2 * Z.to_nat (n / 7))%nat)
  /\ Z.of_nat (weekend_days s n) <= n.
Proof.
  intros Hn.
  pose proof (Z.div_mod n 7 ltac:(lia)) as Hdm.
  pose proof (Z.mod_pos_bound n 7 ltac:(lia)) as Hm.
  assert (0 <= n / 7) as Hq by (apply Z.div_pos; lia).
  assert (weekend_days s n
          = (2 * Z.to_nat (n / 7)
             + weekend_days (s + 7 * (n / 7)) (n mod 7))%nat) as E.
  { rewrite Hdm at 1. rewrite weekend_days_app by lia.
    now rewrite weekend_days_weeks. }
  pose proof (weekend_days_below_week (s + 7 * (n / 7)) (n mod 7) Hm) as Hr.
  split; [lia|]. split.
  - intros Hz. rewrite E, Hz. unfold weekend_days.
    rewrite seqZ_nil by lia. simpl. lia.
  - unfold weekend_days.
    pose proof (length_filter (fun d => 5 <= Date.weekday d) (seqZ s n)) as Hl.
    rewrite length_seqZ in Hl. lia.
Qed.

Lemma weekends_in_gap_row (c : CastDate) (previous : option Z) :
  let r := gap_row c previous in
  (Gap r <= 0 -> Weekends_in_Gap r = 0)
  /\ (0 < Gap r ->
      exists p, previous = Some p
                /\ Weekends_in_Gap r = Z.of_nat (weekend_days (p + 1) (Gap r))).
Proof.
  unfold gap_row, weekends_in_gap. simpl.
  destruct previous as [p|]; simpl.
  - split.
    + intros Hle. apply Z.leb_le in Hle. now rewrite Hle.
    + intros Hpos. exists p. split; [reflexivity|].
      replace (Shooting_Date c - p - 1 <=? 0) with false
        by (symmetry; apply Z.leb_gt; lia).
      unfold weekend_days, Date.date_range. do 4 f_equal. lia.
  - split; [reflexivity|lia].
Qed.

End Weekends.

(** X13. The weekend days [calculate_gaps] counts in a gap: none for a
    gap that is not positive; for a gap of [g > 0] days, two for every
    whole week of the gap and at most two more, so never more than [g],
    and exactly [2 * (g / 7)] when the gap is a whole number of weeks. *)
Theorem weekends_in_gap_bounds (df_cast_dates : list CastDate) :
  Forall (fun r =>
            (Gap r <= 0 -> Weekends_in_Gap r = 0)
            /\ (0 < Gap r ->
                2 * (Gap r / 7) <= Weekends_in_Gap r <= 2 * (Gap r / 7) + 2
                /\ Weekends_in_Gap r <= Gap r
                /\ (Gap r mod 7 = 0 -> Weekends_in_Gap r = 2 * (Gap r / 7))))
    (calculate_gaps df_cast_dates).
Proof.
  apply Forall_forall. intros r Hr. unfold calculate_gaps in Hr.
  apply list_elem_of_lookup in Hr as [i Hr].
  apply lookup_zip_with_Some in Hr as (c & previous & -> & _ & _).
  destruct (weekends_in_gap_row c previous) as [Hzero Hpos].
  split; [exact Hzero|]. intros Hgap.
  destruct (Hpos Hgap) as (p & _ & ->).
  destruct (weekend_days_bounds (p + 1) (Gap (gap_row c previous)))
    as (Hb & Hz & Hle); [lia|].
  assert (0 <= Gap (gap_row c previous) / 7) by (apply Z.div_pos; lia).
  split; [lia|]. split; [lia|].
  intros Hmod. rewrite (Hz Hmod). lia.
Qed.

(** ** The gaps of a loaded schedule *)





(** ** The export records in closed form *)

Section ExportClosedForm.

Variables (max_gap : Z) (weekend_policy : bool).
Variables arrival_option departure_option : string.
Hypothesis arrival_ok : valid_arrival arrival_option.
Hypothesis departure_ok : valid_departure departure_option.

Lemma periods_exports (name home_location period_name : string)
    (requires_travel : bool) (periods : list (Z * list GroupRow))
    (st : State) :
  exists st',
    for_each
      (period_body weekend_policy arrival_option departure_option
         name home_location period_name requires_travel) periods st = Ok st'
    /\ results st' = results st
    /\ export_data st'
       = (export_data st
          ++ if requires_travel
             then map (fun p =>
                         travel_export arrival_option departure_option name
                           home_location period_name p.1 (period_dates p))
                    periods
             else [])%list.
Proof.
  revert st. induction periods as [|[number pg] periods IH]; intros st.
  - exists st. simpl. destruct requires_travel; rewrite app_nil_r; auto.
  - rewrite for_each_cons. unfold period_body at 1.
    destruct requires_travel.
    + rewrite (travel_branch_spec _ _ _ _ _ _ _ _ _ arrival_ok departure_ok).
      match goal with
      | |- context [for_each _ periods ?s1] =>
          destruct (IH s1) as (st' & Hrun & Hres & Hexp)
      end.
      exists st'. split; [exact Hrun|]. split; [exact Hres|].
      rewrite Hexp. cbn [export_data]. rewrite <- app_assoc. reflexivity.
    + match goal with
      | |- context [for_each _ periods ?s1] =>
          destruct (IH s1) as (st' & Hrun & Hres & Hexp)
      end.
      exists st'. split; [exact Hrun|]. split; [exact Hres|].
      rewrite Hexp. reflexivity.
Qed.

Lemma groups_exports (groups : list (GroupKey * list TravelRow)) (st : State) :
  exists st',
    for_each
      (group_body max_gap weekend_policy arrival_option departure_option)
      groups st = Ok st'
    /\ export_data st'
       = (export_data st
          ++ map (stay_record arrival_option departure_option)
               (travel_stays max_gap groups))%list.
Proof.
  revert st. induction groups as [|g groups IH]; intros st.
  - exists st. simpl. now rewrite app_nil_r.
  - rewrite for_each_cons.
    destruct g as [[[[name home_location] period_name] requires_travel] group].
    unfold group_body at 1.
    match goal with
    | |- context [for_each (period_body _ _ _ _ _ _ _) ?l ?s0] =>
        destruct (periods_exports name home_location period_name
                    requires_travel l s0) as (st1 & Hrun1 & Hres1 & Hexp1)
    end.
    rewrite Hrun1. unfold mbind, PyResult_bind.
    match goal with
    | |- context [for_each _ groups ?s2] =>
        destruct (IH s2) as (st' & Hrun & Hexp)
    end.
    exists st'. split; [exact Hrun|].
    rewrite Hexp. cbn [export_data]. rewrite Hexp1. cbn [export_data].
    rewrite <- app_assoc. f_equal.
    unfold travel_stays. simpl. rewrite map_app. f_equal.
    destruct requires_travel; [|reflexivity].
    rewrite map_map. reflexivity.
Qed.

End ExportClosedForm.

(** X15. The export records of a run that returns under the options of
    the window are fixed in closed form: one per stay period of the
    groups that require travel, in the order of the groups and of the
    periods, each computed from the key of the group, the number of the
    period and its shooting dates alone. *)
Theorem export_closed_form (lower : string -> string)
    (to_datetime : string -> Parsed) (df_cast_dates : list CastDate)
    (max_gap : Z) (weekend_policy : bool)
    (arrival_option departure_option : string)
    (cast_member_settings : gmap string CastSetting)
    (shooting_periods : list ShootingPeriod)
    (df_summary : list SummaryRow) (export : list ExportRecord)
    (calendar : list CalendarEvent) :
  valid_arrival arrival_option -> valid_departure departure_option ->
  apply_user_logic lower to_datetime df_cast_dates max_gap weekend_policy
    arrival_option departure_option cast_member_settings shooting_periods
  = Ok (df_summary, export, calendar) ->
  exists df_filtered,
    filtered_frame lower to_datetime df_cast_dates cast_member_settings
      shooting_periods = Ok df_filtered
    /\ export
       = map (stay_record arrival_option departure_option)
           (travel_stays max_gap
              (Frame.groupby group_key_leb grouping_columns df_filtered)).
Proof.
  intros Ha Hd Hrun. unfold apply_user_logic in Hrun.
  destruct (filtered_frame lower to_datetime df_cast_dates
              cast_member_settings shooting_periods)
    as [df_filtered|err] eqn:Hframe; [|discriminate Hrun].
  unfold mbind at 1, PyResult_bind at 1 in Hrun.
  destruct (groups_exports max_gap weekend_policy arrival_option
              departure_option Ha Hd
              (Frame.groupby group_key_leb grouping_columns df_filtered)
              init_state) as (st' & Hloop & Hexp).
  rewrite Hloop in Hrun. unfold mbind, PyResult_bind in Hrun.
  injection Hrun as _ <- _. rewrite Hexp. simpl.
  now exists df_filtered.
Qed.

(** ** The calendar in closed form *)

Section CalendarClosedForm.

Variables (max_gap : Z) (weekend_policy : bool).
Variables arrival_option departure_option : string.
Hypothesis arrival_ok : valid_arrival arrival_option.
Hypothesis departure_ok : valid_departure departure_option.

Lemma periods_calendar (name home_location period_name : string)
    (requires_travel : bool) (periods : list (Z * list GroupRow))
    (st : State) :
  exists st',
    for_each
      (period_body weekend_policy arrival_option departure_option
         name home_location period_name requires_travel) periods st = Ok st'
    /\ results st' = results st
    /\ calendar_data st'
       = (calendar_data st
          ++ flat_map
               (fun p =>
                  stay_events arrival_option departure_option
                    (name, home_location, period_name, requires_travel, p))
               periods)%list.
Proof.
  revert st. induction periods as [|[number pg] periods IH]; intros st.
  - exists st. simpl. rewrite app_nil_r. auto.
  - rewrite for_each_cons. unfold period_body at 1.
    destruct requires_travel.
    + rewrite (travel_branch_spec _ _ _ _ _ _ _ _ _ arrival_ok departure_ok).
      match goal with
      | |- context [for_each _ periods ?s1] =>
          destruct (IH s1) as (st' & Hrun & Hres & Hcal)
      end.
      exists st'. split; [exact Hrun|]. split; [exact Hres|].
      rewrite Hcal. cbn [calendar_data flat_map stay_events].
      unfold period_dates. cbn [snd]. rewrite <- !app_assoc. reflexivity.
    + match goal with
      | |- context [for_each _ periods ?s1] =>
          destruct (IH s1) as (st' & Hrun & Hres & Hcal)
      end.
      exists st'. split; [exact Hrun|]. split; [exact Hres|].
      rewrite Hcal. unfold home_branch.
      cbn [calendar_data flat_map stay_events].
      unfold period_dates. cbn [snd]. rewrite <- !app_assoc. reflexivity.
Qed.

Lemma groups_calendar (groups : list (GroupKey * list TravelRow))
    (st : State) :
  exists st',
    for_each
      (group_body max_gap weekend_policy arrival_option departure_option)
      groups st = Ok st'
    /\ calendar_data st'
       = (calendar_data st
          ++ flat_map (stay_events arrival_option departure_option)
               (all_stays max_gap groups))%list.
Proof.
  revert st. induction groups as [|g groups IH]; intros st.
  - exists st. simpl. now rewrite app_nil_r.
  - rewrite for_each_cons.
    destruct g as [[[[name home_location] period_name] requires_travel] group].
    unfold group_body at 1.
    match goal with
    | |- context [for_each (period_body _ _ _ _ _ _ _) ?l ?s0] =>
        destruct (periods_calendar name home_location period_name
                    requires_travel l s0) as (st1 & Hrun1 & Hres1 & Hcal1)
    end.
    rewrite Hrun1. unfold mbind, PyResult_bind.
    match goal with
    | |- context [for_each _ groups ?s2] =>
        destruct (IH s2) as (st' & Hrun & Hcal)
    end.
    exists st'. split; [exact Hrun|].
    rewrite Hcal. cbn [calendar_data]. rewrite Hcal1. cbn [calendar_data].
    rewrite <- app_assoc. f_equal.
    unfold all_stays. simpl. rewrite flat_map_app. f_equal.
    generalize (stay_periods max_gap group). intros l.
    induction l as [|p l IHl]; [reflexivity|]. simpl. now rewrite IHl.
Qed.

End CalendarClosedForm.

Lemma run_calendar_closed (lower : string -> string)
    (to_datetime : string -> Parsed) (df_cast_dates : list CastDate)
    (max_gap : Z) (weekend_policy : bool)
    (arrival_option departure_option : string)
    (cast_member_settings : gmap string CastSetting)
    (shooting_periods : list ShootingPeriod)
    (df_summary : list SummaryRow) (export : list ExportRecord)
    (calendar : list CalendarEvent) :
  valid_arrival arrival_option -> valid_departure departure_option ->
  apply_user_logic lower to_datetime df_cast_dates max_gap weekend_policy
    arrival_option departure_option cast_member_settings shooting_periods
  = Ok (df_summary, export, calendar) ->
  exists df_filtered,
    filtered_frame lower to_datetime df_cast_dates cast_member_settings
      shooting_periods = Ok df_filtered
    /\ calendar
       = flat_map (stay_events arrival_option departure_option)
           (all_stays max_gap
              (Frame.groupby group_key_leb grouping_columns df_filtered)).
Proof.
  intros Ha Hd Hrun. unfold apply_user_logic in Hrun.
  destruct (filtered_frame lower to_datetime df_cast_dates
              cast_member_settings shooting_periods)
    as [df_filtered|err] eqn:Hframe; [|discriminate Hrun].
  unfold mbind at 1, PyResult_bind at 1 in Hrun.
  destruct (groups_calendar max_gap weekend_policy arrival_option
              departure_option Ha Hd
              (Frame.groupby group_key_leb grouping_columns df_filtered)
              init_state) as (st' & Hloop & Hcal).
  rewrite Hloop in Hrun. unfold mbind, PyResult_bind in Hrun.
  injection Hrun as _ _ <-. rewrite Hcal. simpl.
  now exists df_filtered.
Qed.

(** X27. The calendar of a run that returns under the options of the
    window is fixed in closed form: the stay periods of all groups, in
    the order of the groups and of the periods, give one block of events
    each, the shooting days followed by the gap days, and around them the
    journey to the location and the journey back where the group requires
    travel. *)
Theorem calendar_closed_form (lower : string -> string)
    (to_datetime : string -> Parsed) (df_cast_dates : list CastDate)
    (max_gap : Z) (weekend_policy : bool)
    (arrival_option departure_option : string)
    (cast_member_settings : gmap string CastSetting)
    (shooting_periods : list ShootingPeriod)
    (df_summary : list SummaryRow) (export : list ExportRecord)
    (calendar : list CalendarEvent) :
  valid_arrival arrival_option -> valid_departure departure_option ->
  apply_user_logic lower to_datetime df_cast_dates max_gap weekend_policy
    arrival_option departure_option cast_member_settings shooting_periods
  = Ok (df_summary, export, calendar) ->
  exists df_filtered,
    filtered_frame lower to_datetime df_cast_dates cast_member_settings
      shooting_periods = Ok df_filtered
    /\ calendar
       = flat_map (stay_events arrival_option departure_option)
           (all_stays max_gap
              (Frame.groupby group_key_leb grouping_columns df_filtered)).
Proof.
  intros Ha Hd Hrun. unfold apply_user_logic in Hrun.
  destruct (filtered_frame lower to_datetime df_cast_dates
              cast_member_settings shooting_periods)
    as [df_filtered|err] eqn:Hframe; [|discriminate Hrun].
  unfold mbind at 1, PyResult_bind at 1 in Hrun.
  destruct (groups_calendar max_gap weekend_policy arrival_option
              departure_option Ha Hd
              (Frame.groupby group_key_leb grouping_columns df_filtered)
              init_state) as (st' & Hloop & Hcal).
  rewrite Hloop in Hrun. unfold mbind, PyResult_bind in Hrun.
  injection Hrun as _ _ <-. rewrite Hcal. simpl.
  now exists df_filtered.
Qed.

Lemma elem_of_all_stays (max_gap : Z)
    (groups : list (GroupKey * list TravelRow))
    (stay : GroupKey * (Z * list GroupRow)) :
  stay ∈ all_stays max_gap groups
  <-> exists group, (stay.1, group) ∈ groups
                    /\ stay.2 ∈ stay_periods max_gap group.
Proof.
  unfold all_stays. rewrite list_elem_of_In, in_flat_map. split.
  - intros ([key group] & Hg & Hin). apply list_elem_of_In in Hg, Hin.
    apply list_elem_of_fmap in Hin as (p & -> & Hp). now exists group.
  - intros (group & Hg & Hp). exists (stay.1, group).
    split; [now apply list_elem_of_In|].
    apply list_elem_of_In, list_elem_of_fmap. exists stay.2.
    split; [now destruct stay|exact Hp].
Qed.

(** The dates of the stay periods of a group are the dates of its rows. *)
Lemma elem_of_stay_dates (max_gap : Z) (group : list TravelRow) (date : Z) :
  (exists p, p ∈ stay_periods max_gap group /\ date ∈ period_dates p)
  <-> exists r, r ∈ group /\ row_date r = date.
Proof.
  transitivity
    (date ∈ concat (map period_dates (stay_periods max_gap group))).
  - rewrite elem_of_concat. split.
    + intros (p & Hp & Hd). exists (period_dates p).
      split; [exact Hd|]. apply list_elem_of_fmap. now exists p.
    + intros (l & Hd & Hl). apply list_elem_of_fmap in Hl as (p & -> & Hp).
      now exists p.
  - rewrite stay_periods_dates, list_elem_of_fmap.
    split; intros (r & Hd & Hr); exists r.
    + rewrite sort_values_perm in Hr. auto.
    + rewrite sort_values_perm. auto.
Qed.

(** X28. Under the options of the window the shooting days of the
    calendar are the rows of the filtered frame that have a period: every
    such row has its event, with its cast member, its period name and its
    date, and every event titled as a shooting day is the event of such a
    row. *)
Theorem calendar_shooting_days (lower : string -> string)
    (to_datetime : string -> Parsed) (df_cast_dates : list CastDate)
    (max_gap : Z) (weekend_policy : bool)
    (arrival_option departure_option : string)
    (cast_member_settings : gmap string CastSetting)
    (shooting_periods : list ShootingPeriod)
    (df_summary : list SummaryRow) (export : list ExportRecord)
    (calendar : list CalendarEvent) :
  valid_arrival arrival_option -> valid_departure departure_option ->
  apply_user_logic lower to_datetime df_cast_dates max_gap weekend_policy
    arrival_option departure_option cast_member_settings shooting_periods
  = Ok (df_summary, export, calendar) ->
  exists df_filtered,
    filtered_frame lower to_datetime df_cast_dates cast_member_settings
      shooting_periods = Ok df_filtered
    /\ forall ev,
         (ev ∈ calendar /\ exists p, c_Title ev = "Shooting in " +:+ p)
         <-> exists r p,
               r ∈ df_filtered /\ Period_Name (row r) = Some p
               /\ ev = shooting_event (Cast_Member (cast (row r))) p
                         (row_date r).
Proof.
  intros Ha Hd Hrun.
  destruct (run_calendar_closed _ _ _ _ _ _ _ _ _ _ _ _ Ha Hd Hrun)
    as (df_filtered & Hframe & ->).
  exists df_filtered. split; [exact Hframe|]. intros ev.
  set (groups := Frame.groupby group_key_leb grouping_columns df_filtered).
  split.
  - intros [Hev [p' Htitle]].
    apply list_elem_of_In, in_flat_map in Hev as (stay & Hstay & Hev).
    apply list_elem_of_In in Hstay, Hev.
    apply elem_of_all_stays in Hstay as (group & Hg & Hp).
    destruct stay as [[[[name home] pn] rt] period]. simpl in Hg, Hp.
    assert (ev ∈ map (shooting_event name pn) (period_dates period)) as Hin.
    { unfold stay_events in Hev. destruct rt.
      - rewrite !elem_of_app in Hev.
        destruct Hev as [Hev|[Hev|[Hev|Hev]]]; [exfalso|exact Hev|exfalso..].
        + apply list_elem_of_singleton in Hev. subst ev. discriminate Htitle.
        + apply list_elem_of_fmap in Hev as (x & -> & _). discriminate Htitle.
        + apply list_elem_of_singleton in Hev. subst ev. discriminate Htitle.
      - rewrite elem_of_app in Hev. destruct Hev as [Hev|Hev]; [exact Hev|].
        exfalso. apply list_elem_of_fmap in Hev as (x & -> & _).
        discriminate Htitle. }
    apply list_elem_of_fmap in Hin as (date & -> & Hdate).
    destruct (proj1 (elem_of_stay_dates max_gap group date)) as (r & Hr & <-);
      [now exists period|].
    apply (groupby_row _ _ _ _ _ r) in Hg. apply Hg in Hr as [Hr Hkey].
    unfold grouping_columns in Hkey.
    destruct (Period_Name (row r)) as [p|] eqn:Ep; [|discriminate].
    injection Hkey as <- _ <- _. exists r, p. auto.
  - intros (r & p & Hr & Hp & ->). split; [|now exists p].
    set (key := (Cast_Member (cast (row r)), Home_Location (row r), p,
                 Requires_Travel r)).
    assert (grouping_columns r = Some key) as Hkey
      by (unfold grouping_columns; now rewrite Hp).
    set (group := filter (fun r' => grouping_columns r' = Some key)
                    df_filtered).
    assert ((key, group) ∈ groups) as Hg
      by (apply elem_of_groupby; split; [now exists r|reflexivity]).
    destruct (proj2 (elem_of_stay_dates max_gap group (row_date r)))
      as (period & Hperiod & Hdate).
    { exists r. split; [|reflexivity]. apply list_elem_of_filter. auto. }
    apply list_elem_of_In, in_flat_map. exists (key, period).
    split; [apply list_elem_of_In, elem_of_all_stays; now exists group|].
    apply list_elem_of_In. unfold stay_events, key.
    assert (shooting_event (Cast_Member (cast (row r))) p (row_date r)
            ∈ map (shooting_event (Cast_Member (cast (row r))) p)
                (period_dates period)) as Hin
      by (apply list_elem_of_fmap; now exists (row_date r)).
    destruct (Requires_Travel r); rewrite !elem_of_app; auto.
Qed.

(** ** The days of a stay *)

Section StayDays.

Lemma length_filter_split {A} (P : A -> Prop) `{forall x, Decision (P x)}
    (l : list A) :
  (length (filter P l) + length (filter (fun x => ~ P x) l))%nat = length l.
Proof.
  induction l as [|x l IH]; [reflexivity|].
  rewrite !filter_cons.
  destruct (decide (P x)) as [Hp|Hp].
  - rewrite decide_False by tauto. simpl. lia.
  - rewrite decide_True by exact Hp. simpl. lia.
Qed.

Lemma ends_count (a d : Z) (l : list Z) :
  NoDup l -> Forall (fun x => a <= x <= d) l ->
  length (filter (fun x => ~ (a < x < d)) l)
  = ((if decide (a ∈ l) then 1 else 0)
     + (if decide (d ∈ l /\ d <> a) then 1 else 0))%nat.
Proof.
  intros Hnd Hin.
  transitivity
    (length ((if decide (a ∈ l) then [a] else [])
             ++ (if decide (d ∈ l /\ d <> a) then [d] else []))).
  - apply Permutation_length, NoDup_Permutation.
    + now apply NoDup_filter.
    + repeat case_decide; simpl;
        rewrite ?NoDup_cons, ?elem_of_cons, ?elem_of_nil;
        repeat split; try apply NoDup_nil_2; intuition congruence.
    + intros x. rewrite list_elem_of_filter, elem_of_app.
      rewrite Forall_forall in Hin.
      split.
      * intros [Hx Hl]. specialize (Hin x Hl).
        destruct (decide (x = a)) as [->|Hxa].
        -- left. rewrite decide_True by exact Hl. left.
        -- right. assert (x = d) as -> by lia.
           rewrite decide_True by tauto. left.
      * intros [Hx|Hx]; case_decide; try (now inversion Hx);
          apply list_elem_of_singleton in Hx as ->; split; try tauto; lia.
  - rewrite length_app. repeat case_decide; reflexivity.
Qed.

(** Every day from the arrival to the departure is a shooting day, a gap
    day or a travel day without shooting, and none is two of them. *)
Lemma stay_days (a d : Z) (l : list Z) :
  NoDup l -> Forall (fun x => a <= x <= d) l ->
  a < d \/ (a = d /\ a ∈ l) ->
  Z.of_nat (length l)
  + Z.of_nat (length (filter (fun x => x ∉ (list_to_set l : gset Z))
                        (Date.date_range (a + 1) (d - 1))))
  + (if decide (a ∈ l) then 0 else 1) + (if decide (d ∈ l) then 0 else 1)
  = d - a + 1.
Proof.
  intros Hnd Hin Hends.
  set (R := Date.date_range (a + 1) (d - 1)).
  pose proof (length_filter_split (fun x => x ∈ (list_to_set l : gset Z)) R)
    as HR.
  pose proof (length_filter_split (fun x => a < x < d) l) as Hl.
  pose proof (ends_count a d l Hnd Hin) as He.
  assert (length (filter (fun x => x ∈ (list_to_set l : gset Z)) R)
          = length (filter (fun x => a < x < d) l)) as Hinside.
  { apply Permutation_length, NoDup_Permutation.
    - apply NoDup_filter, NoDup_date_range.
    - now apply NoDup_filter.
    - intros x. rewrite !list_elem_of_filter, elem_of_list_to_set.
      unfold R. rewrite elem_of_date_range. split; intros [? ?]; split;
        try assumption; lia. }
  assert (length R = Z.to_nat (d - a - 1)) as HlenR.
  { unfold R, Date.date_range. rewrite length_seqZ. f_equal. lia. }
  destruct Hends as [Hlt|[-> Ha]].
  - cbv beta in HR, Hl.
    repeat case_decide; try lia; exfalso; intuition lia.
  - cbv beta in HR, Hl. rewrite !decide_True in * by exact Ha.
    rewrite decide_False in He by tauto. lia.
Qed.

Lemma NoDup_concat_elem {A} (ls : list (list A)) (l : list A) :
  NoDup (concat ls) -> l ∈ ls -> NoDup l.
Proof.
  induction ls as [|l0 ls IH]; intros Hnd Hl; [inversion Hl|].
  simpl in Hnd. apply NoDup_app in Hnd as (Hl0 & _ & Hls).
  apply elem_of_cons in Hl as [->|Hl]; [exact Hl0|now apply IH].
Qed.

Lemma NoDup_map_filter {A B} (f : A -> B) (P : A -> Prop)
    `{forall x, Decision (P x)} (l : list A) :
  NoDup (map f l) -> NoDup (map f (filter P l)).
Proof.
  induction l as [|x l IH]; intros Hnd; [constructor|].
  simpl in Hnd. apply NoDup_cons in Hnd as [Hx Hnd].
  rewrite filter_cons. destruct (decide (P x)); [|now apply IH].
  simpl. apply NoDup_cons. split; [|now apply IH].
  intros Hin. apply Hx.
  apply list_elem_of_fmap in Hin as (y & Hy & Hin).
  apply list_elem_of_filter in Hin as [_ Hin].
  apply list_elem_of_fmap. now exists y.
Qed.

Lemma NoDup_map_coarser {A B C} (f : A -> B) (g : A -> C) (l : list A) :
  NoDup (map f l) ->
  (forall x y, x ∈ l -> y ∈ l -> g x = g y -> f x = f y) ->
  NoDup (map g l).
Proof.
  induction l as [|x l IH]; intros Hnd Hfg; [constructor|].
  simpl in Hnd. apply NoDup_cons in Hnd as [Hx Hnd].
  simpl. apply NoDup_cons. split.
  - intros Hin. apply Hx.
    apply list_elem_of_fmap in Hin as (y & Hy & Hin).
    apply list_elem_of_fmap. exists y. split; [|exact Hin].
    apply Hfg; [left|now right|exact Hy].
  - apply IH; [exact Hnd|]. intros y z Hy Hz. apply Hfg; now right.
Qed.

(** In a schedule without a record twice, the dates of a group, and so
    of each of its stay periods, are distinct. *)
Lemma stay_dates_NoDup (lower : string -> string)
    (to_datetime : string -> Parsed) (df_cast_dates : list CastDate)
    (max_gap : Z) (cast_member_settings : gmap string CastSetting)
    (shooting_periods : list ShootingPeriod) (df_filtered : list TravelRow)
    (stay : GroupKey * (Z * list GroupRow)) :
  NoDup df_cast_dates ->
  filtered_frame lower to_datetime df_cast_dates cast_member_settings
    shooting_periods = Ok df_filtered ->
  stay ∈ travel_stays max_gap
           (Frame.groupby group_key_leb grouping_columns df_filtered) ->
  NoDup (period_dates stay.2) /\ stay.2.2 <> [].
Proof.
  intros Hnd Hframe Hstay. unfold travel_stays in Hstay.
  apply list_elem_of_In, in_flat_map in Hstay as ([key group] & Hg & Hstay).
  apply list_elem_of_In in Hg. simpl in Hstay.
  destruct key.2; [|inversion Hstay].
  apply in_map_iff in Hstay as (p & <- & Hp). apply list_elem_of_In in Hp.
  simpl.
  pose proof (filtered_frame_casts _ _ _ _ _ _ Hframe) as Hcasts.
  assert (NoDup (map (fun r => cast (row r)) df_filtered)) as Hnd1.
  { rewrite Hcasts. apply NoDup_filter. rewrite sort_values_perm.
    now apply NoDup_filter. }
  pose proof Hg as Hg'. apply elem_of_groupby in Hg' as [_ ->].
  set (group := filter (fun r => grouping_columns r = Some key) df_filtered)
    in *.
  assert (NoDup (map row_date group)) as Hnd2.
  { apply (NoDup_map_coarser (fun r => cast (row r))).
    - now apply NoDup_map_filter.
    - intros x y Hx Hy Hdate.
      apply list_elem_of_filter in Hx as [Hx _].
      apply list_elem_of_filter in Hy as [Hy _].
      unfold grouping_columns in Hx, Hy.
      destruct (Period_Name (row x)); [|discriminate].
      destruct (Period_Name (row y)); [|discriminate].
      unfold row_date in Hdate.
      destruct (cast (row x)) as [mx dx], (cast (row y)) as [my dy].
      simpl in *. congruence. }
  split.
  - apply (NoDup_concat_elem (map period_dates (stay_periods max_gap group))).
    + now rewrite stay_periods_dates, sort_values_perm.
    + apply list_elem_of_fmap. now exists p.
  - destruct p as [k pg]. unfold stay_periods in Hp.
    eapply groupby_nonempty, Hp.
Qed.

End StayDays.

(** The export records of a run under the options of the window. *)
Lemma run_exports_closed (lower : string -> string)
    (to_datetime : string -> Parsed) (df_cast_dates : list CastDate)
    (max_gap : Z) (weekend_policy : bool)
    (arrival_option departure_option : string)
    (cast_member_settings : gmap string CastSetting)
    (shooting_periods : list ShootingPeriod)
    (df_summary : list SummaryRow) (export : list ExportRecord)
    (calendar : list CalendarEvent) :
  valid_arrival arrival_option -> valid_departure departure_option ->
  apply_user_logic lower to_datetime df_cast_dates max_gap weekend_policy
    arrival_option departure_option cast_member_settings shooting_periods
  = Ok (df_summary, export, calendar) ->
  exists df_filtered,
    filtered_frame lower to_datetime df_cast_dates cast_member_settings
      shooting_periods = Ok df_filtered
    /\ export
       = map (stay_record arrival_option departure_option)
           (travel_stays max_gap
              (Frame.groupby group_key_leb grouping_columns df_filtered)).
Proof.
  intros Ha Hd Hrun. unfold apply_user_logic in Hrun.
  destruct (filtered_frame lower to_datetime df_cast_dates
              cast_member_settings shooting_periods)
    as [df_filtered|err] eqn:Hframe; [|discriminate Hrun].
  unfold mbind at 1, PyResult_bind at 1 in Hrun.
  destruct (groups_exports max_gap weekend_policy arrival_option
              departure_option Ha Hd
              (Frame.groupby group_key_leb grouping_columns df_filtered)
              init_state) as (st' & Hloop & Hexp).
  rewrite Hloop in Hrun. unfold mbind, PyResult_bind in Hrun.
  injection Hrun as _ <- _. rewrite Hexp. simpl.
  now exists df_filtered.
Qed.

(** An export record requires travel, names a location, and counts its
    gap days from 0. *)
Lemma stay_record_named (arrival_option departure_option : string)
    (stay : GroupKey * (Z * list GroupRow)) :
  e_Requires_Travel (stay_record arrival_option departure_option stay) = true
  /\ e_Period_Name (stay_record arrival_option departure_option stay) <> ""
  /\ 0 <= e_Number_of_Gap_Days
            (stay_record arrival_option departure_option stay).
Proof.
  destruct stay as [[[[name home] pn] rt] [number pg]]. simpl.
  split; [reflexivity|]. split; [|lia].
  destruct (decide (pn = "")); [discriminate|assumption].
Qed.

(** The stays of the groups that require travel. *)
Lemma elem_of_travel_stays (max_gap : Z)
    (groups : list (GroupKey * list TravelRow))
    (stay : GroupKey * (Z * list GroupRow)) :
  stay ∈ travel_stays max_gap groups
  <-> exists group, (stay.1, group) ∈ groups /\ stay.1.2 = true
                    /\ stay.2 ∈ stay_periods max_gap group.
Proof.
  unfold travel_stays. rewrite list_elem_of_In, in_flat_map. split.
  - intros ([key group] & Hg & Hin). apply list_elem_of_In in Hg.
    simpl in Hin. destruct key.2 eqn:Ek; [|inversion Hin].
    apply list_elem_of_In, list_elem_of_fmap in Hin as (p & -> & Hp).
    exists group. simpl. auto.
  - intros (group & Hg & Ht & Hp). exists (stay.1, group).
    split; [now apply list_elem_of_In|]. simpl. rewrite Ht.
    apply list_elem_of_In, list_elem_of_fmap. exists stay.2.
    split; [now destruct stay|exact Hp].
Qed.

(** A stay period has shooting dates. *)
Lemma stay_period_dated (max_gap : Z) (group : list TravelRow)
    (period : Z * list GroupRow) :
  period ∈ stay_periods max_gap group -> period_dates period <> [].
Proof.
  destruct period as [number pg]. unfold stay_periods. intros Hp E.
  assert (pg <> []) as Hne by (eapply groupby_nonempty, Hp).
  apply Hne. unfold period_dates in E. simpl in E.
  destruct pg; [reflexivity|discriminate E].
Qed.

(** The records of a run are the records of its stays, one for one. *)
Lemma records_of_stays (arrival_option departure_option : string)
    (max_gap : Z) (groups : list (GroupKey * list TravelRow))
    (record_of : GroupKey -> Z * list GroupRow -> ExportRecord -> Prop) :
  (forall key group period,
     (key, group) ∈ groups -> period ∈ stay_periods max_gap group ->
     record_of key period
       (stay_record arrival_option departure_option (key, period))) ->
  Forall2 (fun stay e => record_of stay.1 stay.2 e)
    (travel_stays max_gap groups)
    (map (stay_record arrival_option departure_option)
       (travel_stays max_gap groups))
  /\ forall key group period,
       (key, group) ∈ groups -> key.2 = true ->
       period ∈ stay_periods max_gap group ->
       exists e,
         e ∈ map (stay_record arrival_option departure_option)
               (travel_stays max_gap groups)
         /\ record_of key period e.
Proof.
  intros Hrec. split.
  - apply Forall2_fmap_r, Forall_Forall2_diag, Forall_forall.
    intros [key period] Hstay.
    apply elem_of_travel_stays in Hstay as (group & Hg & _ & Hp).
    exact (Hrec key group period Hg Hp).
  - intros key group period Hg Ht Hp.
    exists (stay_record arrival_option departure_option (key, period)).
    split; [|exact (Hrec key group period Hg Hp)].
    apply list_elem_of_fmap. exists (key, period). split; [reflexivity|].
    apply elem_of_travel_stays. exists group. auto.
Qed.

(** C5. In a run that returns under the options of the window, every
    stay period of a group that requires travel has its export record,
    and the export records are those of these stay periods, one for one
    and in their order.  The record of a stay period starts at the least
    shooting date of the period less one day under "Day Before Shooting"
    and at the least shooting date itself under "Same Day as Shooting",
    and ends at the greatest shooting date plus one day under "Day After
    Shooting" and at the greatest shooting date itself under "Same Day as
    Shooting"; a departure date equal to the arrival date counts once, so
    that a single shooting date under the two same-day options gives one
    travel day. *)
Theorem arrival_departure_by_policy (lower : string -> string)
    (to_datetime : string -> Parsed) (df_cast_dates : list CastDate)
    (max_gap : Z) (weekend_policy : bool)
    (arrival_option departure_option : string)
    (cast_member_settings : gmap string CastSetting)
    (shooting_periods : list ShootingPeriod)
    (df_summary : list SummaryRow) (export : list ExportRecord)
    (calendar : list CalendarEvent) :
  valid_arrival arrival_option -> valid_departure departure_option ->
  apply_user_logic lower to_datetime df_cast_dates max_gap weekend_policy
    arrival_option departure_option cast_member_settings shooting_periods
  = Ok (df_summary, export, calendar) ->
  let record_of (key : GroupKey) (period : Z * list GroupRow)
      (e : ExportRecord) : Prop :=
    let dates := period_dates period in
    let first := Frame.col_min dates in
    let last := Frame.col_max dates in
    e_Cast_Member e = key.1.1.1
    /\ e_Home_Location e = key.1.1.2
    /\ e_Period_Number e = period.1
    /\ e_Shooting_Dates e = dates
    /\ (first ∈ dates /\ forall x, x ∈ dates -> first <= x)
    /\ (last ∈ dates /\ forall x, x ∈ dates -> x <= last)
    /\ (arrival_option = "Day Before Shooting" ->
        e_Period_Start_Date e = first - 1)
    /\ (arrival_option = "Same Day as Shooting" ->
        e_Period_Start_Date e = first)
    /\ (departure_option = "Day After Shooting" ->
        e_Period_End_Date e = last + 1)
    /\ (departure_option = "Same Day as Shooting" ->
        e_Period_End_Date e = last)
    /\ (e_Period_End_Date e = e_Period_Start_Date e ->
        e_Period_Travel_Days e = 1)
    /\ (e_Period_End_Date e <> e_Period_Start_Date e ->
        e_Period_Travel_Days e = 2)
    /\ (arrival_option = "Same Day as Shooting" ->
        departure_option = "Same Day as Shooting" ->
        forall x, dates = [x] ->
          e_Period_Start_Date e = x /\ e_Period_End_Date e = x
          /\ e_Period_Travel_Days e = 1) in
  exists df_filtered,
    filtered_frame lower to_datetime df_cast_dates cast_member_settings
      shooting_periods = Ok df_filtered
    /\ let groups :=
         Frame.groupby group_key_leb grouping_columns df_filtered in
       Forall2 (fun stay e => record_of stay.1 stay.2 e)
         (travel_stays max_gap groups) export
       /\ forall key group period,
            (key, group) ∈ groups -> key.2 = true ->
            period ∈ stay_periods max_gap group ->
            exists e, e ∈ export /\ record_of key period e.
Proof.
  intros Ha Hd Hrun record_of.
  destruct (run_exports_closed _ _ _ _ _ _ _ _ _ _ _ _ Ha Hd Hrun)
    as (df_filtered & Hframe & ->).
  exists df_filtered. split; [exact Hframe|]. intros groups.
  apply records_of_stays. intros key group period Hg Hp.
  pose proof (stay_period_dated _ _ _ Hp) as Hne.
  destruct key as [[[name home] pn] rt]. unfold record_of, stay_record.
  cbn [fst snd travel_export e_Cast_Member e_Home_Location e_Period_Number
       e_Shooting_Dates e_Period_Start_Date e_Period_End_Date
       e_Period_Travel_Days].
  set (dates := period_dates period) in *.
  do 4 (split; [reflexivity|]).
  split; [split; [now apply col_min_elem|apply col_min_le]|].
  split; [split; [now apply col_max_elem|apply col_max_ge]|].
  split; [intros ->; now rewrite decide_True|].
  split; [intros ->; now rewrite decide_False|].
  split; [intros ->; now rewrite decide_True|].
  split; [intros ->; now rewrite decide_False|].
  split; [intros E; now rewrite decide_True|].
  split; [intros E; now rewrite decide_False|].
  intros -> -> x Hx. rewrite Hx. simpl.
  repeat case_decide; try discriminate; try congruence; auto.
Qed.

(** C6. In a run that returns under the options of the window, every
    stay period of a group that requires travel has its export record,
    and the export records are those of these stay periods, one for one
    and in their order.  The record of a stay period has the arrival date
    and the departure date of the options, and its accommodation nights
    are the days from the arrival date to the departure date; they are
    never negative, and they are 0 exactly when the two dates are
    equal. *)
Theorem accommodation_nights_span (lower : string -> string)
    (to_datetime : string -> Parsed) (df_cast_dates : list CastDate)
    (max_gap : Z) (weekend_policy : bool)
    (arrival_option departure_option : string)
    (cast_member_settings : gmap string CastSetting)
    (shooting_periods : list ShootingPeriod)
    (df_summary : list SummaryRow) (export : list ExportRecord)
    (calendar : list CalendarEvent) :
  valid_arrival arrival_option -> valid_departure departure_option ->
  apply_user_logic lower to_datetime df_cast_dates max_gap weekend_policy
    arrival_option departure_option cast_member_settings shooting_periods
  = Ok (df_summary, export, calendar) ->
  let record_of (key : GroupKey) (period : Z * list GroupRow)
      (e : ExportRecord) : Prop :=
    let dates := period_dates period in
    let arrival_date :=
      if decide (arrival_option = "Day Before Shooting")
      then Frame.col_min dates - 1 else Frame.col_min dates in
    let departure_date :=
      if decide (departure_option = "Day After Shooting")
      then Frame.col_max dates + 1 else Frame.col_max dates in
    e_Cast_Member e = key.1.1.1
    /\ e_Home_Location e = key.1.1.2
    /\ e_Period_Number e = period.1
    /\ e_Shooting_Dates e = dates
    /\ e_Period_Start_Date e = arrival_date
    /\ e_Period_End_Date e = departure_date
    /\ e_Period_Accommodation_Nights e = departure_date - arrival_date
    /\ 0 <= e_Period_Accommodation_Nights e
    /\ (e_Period_Accommodation_Nights e = 0
        <-> arrival_date = departure_date) in
  exists df_filtered,
    filtered_frame lower to_datetime df_cast_dates cast_member_settings
      shooting_periods = Ok df_filtered
    /\ let groups :=
         Frame.groupby group_key_leb grouping_columns df_filtered in
       Forall2 (fun stay e => record_of stay.1 stay.2 e)
         (travel_stays max_gap groups) export
       /\ forall key group period,
            (key, group) ∈ groups -> key.2 = true ->
            period ∈ stay_periods max_gap group ->
            exists e, e ∈ export /\ record_of key period e.
Proof.
  intros Ha Hd Hrun record_of.
  destruct (run_exports_closed _ _ _ _ _ _ _ _ _ _ _ _ Ha Hd Hrun)
    as (df_filtered & Hframe & ->).
  exists df_filtered. split; [exact Hframe|]. intros groups.
  apply records_of_stays. intros key group period Hg Hp.
  destruct key as [[[name home] pn] rt]. unfold record_of, stay_record.
  cbn [fst snd travel_export e_Cast_Member e_Home_Location e_Period_Number
       e_Shooting_Dates e_Period_Start_Date e_Period_End_Date
       e_Period_Accommodation_Nights].
  pose proof (col_min_le_max (period_dates period)) as Hmm.
  do 7 (split; [reflexivity|]).
  repeat case_decide; lia.
Qed.

(** The days of the export record of a stay of a schedule without a
    record twice. *)
Lemma stay_record_days (lower : string -> string)
    (to_datetime : string -> Parsed) (df_cast_dates : list CastDate)
    (max_gap : Z) (arrival_option departure_option : string)
    (cast_member_settings : gmap string CastSetting)
    (shooting_periods : list ShootingPeriod) (df_filtered : list TravelRow)
    (stay : GroupKey * (Z * list GroupRow)) :
  NoDup df_cast_dates ->
  valid_arrival arrival_option -> valid_departure departure_option ->
  filtered_frame lower to_datetime df_cast_dates cast_member_settings
    shooting_periods = Ok df_filtered ->
  stay ∈ travel_stays max_gap
           (Frame.groupby group_key_leb grouping_columns df_filtered) ->
  let e := stay_record arrival_option departure_option stay in
  NoDup (e_Shooting_Dates e)
  /\ e_Number_of_Shooting_Days e + e_Number_of_Gap_Days e
     + (if decide (e_Period_Start_Date e ∈ e_Shooting_Dates e) then 0 else 1)
     + (if decide (e_Period_End_Date e ∈ e_Shooting_Dates e) then 0 else 1)
     = e_Period_Accommodation_Nights e + 1.
Proof.
  intros Hnd Ha Hd Hframe Hstay.
  destruct (stay_dates_NoDup _ _ _ _ _ _ _ _ Hnd Hframe Hstay) as [Hnds Hne].
  destruct stay as [[[[name home] pn] rt] [number pg]]. simpl in *.
  unfold travel_export. cbn [e_Shooting_Dates e_Number_of_Shooting_Days
    e_Number_of_Gap_Days e_Period_Start_Date e_Period_End_Date
    e_Period_Accommodation_Nights].
  split; [exact Hnds|].
  set (l := period_dates (number, pg)) in *.
  assert (l <> []) as Hl.
  { intros E. apply Hne. unfold l, period_dates in E. simpl in E.
    destruct pg; [reflexivity|discriminate]. }
  pose proof (col_min_elem l Hl) as Hmin.
  pose proof (col_max_elem l Hl) as Hmax.
  pose proof (col_min_le_max l) as Hmm.
  apply stay_days.
  - exact Hnds.
  - apply Forall_forall. intros x Hx.
    pose proof (col_min_le l x Hx). pose proof (col_max_ge l x Hx).
    repeat case_decide; lia.
  - destruct Ha as [-> | ->], Hd as [-> | ->];
      repeat case_decide; try congruence; try (left; lia).
    destruct (decide (Frame.col_min l = Frame.col_max l)) as [E|E];
      [right; split; [exact E|exact Hmin]|left; lia].
Qed.

(** X16. In a run under the options of the window on a schedule without a
    record twice, the days of every export record add up: its shooting
    days, its gap days, and one day each for an arrival date and a
    departure date that are no shooting dates, make the days from the
    arrival to the departure, that is the accommodation nights plus
    one. *)
Theorem stay_days_add_up (lower : string -> string)
    (to_datetime : string -> Parsed) (df_cast_dates : list CastDate)
    (max_gap : Z) (weekend_policy : bool)
    (arrival_option departure_option : string)
    (cast_member_settings : gmap string CastSetting)
    (shooting_periods : list ShootingPeriod)
    (df_summary : list SummaryRow) (export : list ExportRecord)
    (calendar : list CalendarEvent) :
  NoDup df_cast_dates ->
  valid_arrival arrival_option -> valid_departure departure_option ->
  apply_user_logic lower to_datetime df_cast_dates max_gap weekend_policy
    arrival_option departure_option cast_member_settings shooting_periods
  = Ok (df_summary, export, calendar) ->
  Forall (fun e =>
            NoDup (e_Shooting_Dates e)
            /\ e_Number_of_Shooting_Days e + e_Number_of_Gap_Days e
               + (if decide (e_Period_Start_Date e ∈ e_Shooting_Dates e)
                  then 0 else 1)
               + (if decide (e_Period_End_Date e ∈ e_Shooting_Dates e)
                  then 0 else 1)
               = e_Period_Accommodation_Nights e + 1)
    export.
Proof.
  intros Hnd Ha Hd Hrun.
  destruct (run_exports_closed _ _ _ _ _ _ _ _ _ _ _ _ Ha Hd Hrun)
    as (df_filtered & Hframe & ->).
  apply Forall_forall. intros e He.
  apply list_elem_of_fmap in He as (stay & -> & Hstay).
  exact (stay_record_days lower to_datetime df_cast_dates max_gap _ _
           cast_member_settings shooting_periods df_filtered stay
           Hnd Ha Hd Hframe Hstay).
Qed.

(** ** The loader *)

Section DropDuplicates.

Context {A : Type} `{EqDecision A}.

Lemma elem_of_drop_duplicates_from (seen l : list A) (x : A) :
  x ∈ drop_duplicates_from seen l <-> x ∈ l /\ x ∉ seen.
Proof.
  revert seen. induction l as [|y l IH]; intros seen; simpl.
  - rewrite elem_of_nil. tauto.
  - destruct (decide (y ∈ seen)) as [Hy|Hy].
    + rewrite IH, elem_of_cons. split; [tauto|].
      intros [[->|Hx] Hs]; tauto.
    + rewrite !elem_of_cons, IH, not_elem_of_cons.
      destruct (decide (x = y)) as [->|Hxy]; tauto.
Qed.

Lemma NoDup_drop_duplicates_from (seen l : list A) :
  NoDup (drop_duplicates_from seen l).
Proof.
  revert seen. induction l as [|y l IH]; intros seen; simpl; [constructor|].
  destruct (decide (y ∈ seen)); [apply IH|].
  apply NoDup_cons. split; [|apply IH].
  rewrite elem_of_drop_duplicates_from. intros [_ Hy]. apply Hy. left.
Qed.

Lemma elem_of_drop_duplicates (l : list A) (x : A) :
  x ∈ drop_duplicates l <-> x ∈ l.
Proof.
  unfold drop_duplicates. rewrite elem_of_drop_duplicates_from, elem_of_nil.
  tauto.
Qed.

End DropDuplicates.

Lemma string_compare_refl (s : string) : String.compare s s = Eq.
Proof. now apply OrderedTypeEx.String_as_OT.cmp_eq. Qed.

Lemma string_compare_trans (a b c : string) :
  String.compare a b = Lt -> String.compare b c = Lt ->
  String.compare a c = Lt.
Proof.
  intros Hab Hbc. apply OrderedTypeEx.String_as_OT.cmp_lt.
  apply OrderedTypeEx.String_as_OT.cmp_lt in Hab, Hbc.
  eapply OrderedTypeEx.String_as_OT.lt_trans; eassumption.
Qed.

Lemma loaded_leb_total (a b : LoadedRow) :
  loaded_leb a b = false -> loaded_leb b a = true.
Proof.
  destruct a as [n1 d1], b as [n2 d2]. unfold loaded_leb. simpl.
  rewrite (String.compare_antisym n2 n1).
  destruct (String.compare n1 n2); simpl; try congruence.
  destruct d1, d2; simpl; try congruence.
  rewrite Z.leb_gt, Z.leb_le. lia.
Qed.

Lemma loaded_leb_trans (a b c : LoadedRow) :
  loaded_leb a b = true -> loaded_leb b c = true -> loaded_leb a c = true.
Proof.
  destruct a as [n1 d1], b as [n2 d2], c as [n3 d3]. unfold loaded_leb.
  simpl. intros Hab Hbc.
  destruct (String.compare n1 n2) eqn:E12; try discriminate;
    destruct (String.compare n2 n3) eqn:E23; try discriminate.
  - apply String.compare_eq_iff in E12, E23. subst.
    rewrite string_compare_refl.
    destruct d1, d2, d3; simpl in *; try congruence.
    apply Z.leb_le. apply Z.leb_le in Hab, Hbc. lia.
  - apply String.compare_eq_iff in E12. subst. now rewrite E23.
  - apply String.compare_eq_iff in E23. subst. now rewrite E12.
  - now rewrite (string_compare_trans _ _ _ E12 E23).
Qed.

Lemma loaded_leb_antisym (a b : LoadedRow) :
  loaded_leb a b = true -> loaded_leb b a = true -> a = b.
Proof.
  destruct a as [n1 d1], b as [n2 d2]. unfold loaded_leb. simpl.
  rewrite (String.compare_antisym n2 n1).
  destruct (String.compare n1 n2) eqn:E; simpl; try discriminate.
  apply String.compare_eq_iff in E. subst.
  destruct d1, d2; simpl; try discriminate; [|reflexivity].
  rewrite !Z.leb_le. intros. f_equal. f_equal. lia.
Qed.

(** A frame sorted by cast member and date. *)
Lemma sort_values_loaded (l : list LoadedRow) :
  StronglySorted (fun a b => loaded_leb a b = true)
    (Frame.sort_values loaded_leb l).
Proof.
  apply Sorted_StronglySorted.
  - intros a b c. apply loaded_leb_trans.
  - apply sort_values_Sorted, loaded_leb_total.
Qed.

(** Two frames without duplicates that hold the same rows are sorted
    into the same frame. *)
Lemma sort_values_loaded_unique (l1 l2 : list LoadedRow) :
  NoDup l1 -> NoDup l2 -> (forall x, x ∈ l1 <-> x ∈ l2) ->
  Frame.sort_values loaded_leb l1 = Frame.sort_values loaded_leb l2.
Proof.
  intros H1 H2 Hiff.
  apply (StronglySorted_unique_strong (fun a b => loaded_leb a b = true)).
  - intros a b _ _. apply loaded_leb_antisym.
  - apply sort_values_loaded.
  - apply sort_values_loaded.
  - rewrite !sort_values_perm. now apply NoDup_Permutation.
Qed.

Section LoaderFacts.

Variable str_split : string -> list string.
Variable str_strip : string -> string.
Variable sub_leading_number : string -> string.
Variable sub_bracketed_number : string -> string.
Variable to_datetime_format : string -> Parsed.

Lemma to_datetime_cell_cases (cell : option DateField) :
  to_datetime_cell to_datetime_format cell
  = Ok (cell_date to_datetime_format cell)
  \/ to_datetime_cell to_datetime_format cell = Raise ValueError.
Proof.
  unfold cell_date. destruct cell as [[t|s]|]; simpl; auto.
  destruct (to_datetime_format s); auto.
Qed.

Lemma dates_column (l : list (option string * option DateField)) :
  (Forall (fun r => to_datetime_cell to_datetime_format r.2
                    = Ok (cell_date to_datetime_format r.2)) l
   /\ mapM (fun r : option string * option DateField =>
              d ← to_datetime_cell to_datetime_format r.2; mret (r.1, d)) l
      = Ok (map (fun r => (r.1, cell_date to_datetime_format r.2)) l))
  \/ (Exists (fun r => to_datetime_cell to_datetime_format r.2
                       = Raise ValueError) l
      /\ mapM (fun r : option string * option DateField =>
                 d ← to_datetime_cell to_datetime_format r.2; mret (r.1, d)) l
         = Raise ValueError).
Proof.
  induction l as [|r l IH]; [left; split; [constructor|reflexivity]|].
  cbn [mapM].
  destruct (to_datetime_cell_cases r.2) as [Hr|Hr].
  - destruct IH as [[Hl Hm]|[Hl Hm]].
    + left. split; [now constructor|]. rewrite Hr, Hm. reflexivity.
    + right. split; [now apply Exists_cons_tl|]. rewrite Hr, Hm. reflexivity.
  - right. split; [now apply Exists_cons_hd|]. rewrite Hr. reflexivity.
Qed.

Lemma explode_nonempty {B : Type} (l : list B) : explode l <> [].
Proof. destruct l; discriminate. Qed.

Lemma exploded_Forall (P : option DateField -> Prop) (df : list SheetRow) :
  Forall (fun r : option string * option DateField => P r.2)
    (flat_map (fun r => map (fun c => (c, SHOOTING_DATE r))
                          (explode (split_cast str_split str_strip (CAST r))))
       df)
  <-> Forall (fun r => P (SHOOTING_DATE r)) df.
Proof.
  induction df as [|r df IH]; simpl; [split; constructor|].
  rewrite Forall_app, Forall_cons, IH.
  pose proof (explode_nonempty (split_cast str_split str_strip (CAST r))).
  destruct (explode (split_cast str_split str_strip (CAST r))) as [|c l];
    [congruence|].
  simpl. rewrite Forall_cons, Forall_fmap. simpl.
  split; [tauto|]. intros [Hp Hdf]. split; [|exact Hdf].
  split; [exact Hp|]. apply Forall_forall. intros; exact Hp.
Qed.

Lemma exploded_Exists (P : option DateField -> Prop) (df : list SheetRow) :
  Exists (fun r : option string * option DateField => P r.2)
    (flat_map (fun r => map (fun c => (c, SHOOTING_DATE r))
                          (explode (split_cast str_split str_strip (CAST r))))
       df)
  -> Exists (fun r => P (SHOOTING_DATE r)) df.
Proof.
  induction df as [|r df IH]; simpl; [inversion 1|].
  rewrite Exists_app, Exists_cons. intros [Hr|Hdf]; [left|right; auto].
  apply Exists_exists in Hr as ([c d] & Hin & Hp).
  apply list_elem_of_fmap in Hin as (c' & [= -> ->] & _). exact Hp.
Qed.

Lemma named_rows_of_exploded (df : list SheetRow) :
  map (fun r : option string * option Z =>
         (clean_cast_member str_strip sub_leading_number sub_bracketed_number
            r.1, r.2))
    (filter (fun r : option string * option Z => is_Some r.1)
       (map (fun r : option string * option DateField =>
               (r.1, cell_date to_datetime_format r.2))
          (flat_map (fun r => map (fun c => (c, SHOOTING_DATE r))
                                (explode (split_cast str_split str_strip
                                            (CAST r))))
             df)))
  = named_rows str_split str_strip sub_leading_number sub_bracketed_number
      to_datetime_format df.
Proof.
  induction df as [|r df IH]; [reflexivity|].
  simpl. rewrite map_app, filter_app, map_app, IH. f_equal.
  destruct (split_cast str_split str_strip (CAST r)) as [|p ps];
    [reflexivity|].
  change (explode (p :: ps)) with (map Some (p :: ps)).
  induction (p :: ps) as [|q qs IHq]; [reflexivity|].
  simpl. f_equal. exact IHq.
Qed.

(** The loader in closed form: it raises when a date does not parse, and
    otherwise returns the named rows without duplicates, sorted. *)
Lemma load_closed (df : list SheetRow) :
  (Forall (fun r => to_datetime_cell to_datetime_format (SHOOTING_DATE r)
                    = Ok (cell_date to_datetime_format (SHOOTING_DATE r))) df
   /\ load_and_process_schedule str_split str_strip sub_leading_number
        sub_bracketed_number to_datetime_format df
      = Ok (Frame.sort_values loaded_leb
              (drop_duplicates
                 (named_rows str_split str_strip sub_leading_number
                    sub_bracketed_number to_datetime_format df))))
  \/ (Exists (fun r => to_datetime_cell to_datetime_format (SHOOTING_DATE r)
                       = Raise ValueError) df
      /\ load_and_process_schedule str_split str_strip sub_leading_number
           sub_bracketed_number to_datetime_format df
         = Raise ValueError).
Proof.
  unfold load_and_process_schedule.
  match goal with
  | |- context [mapM ?f ?l] => destruct (dates_column l) as [[Hl Hm]|[Hl Hm]]
  end.
  - left. split.
    + now apply (exploded_Forall
                   (fun cell => to_datetime_cell to_datetime_format cell
                                = Ok (cell_date to_datetime_format cell))).
    + rewrite Hm. unfold mbind, PyResult_bind, mret, PyResult_ret.
      now rewrite named_rows_of_exploded.
  - right. split.
    + now apply (exploded_Exists
                   (fun cell => to_datetime_cell to_datetime_format cell
                                = Raise ValueError)).
    + rewrite Hm. reflexivity.
Qed.

Lemma elem_of_named_rows (df : list SheetRow) (name : string)
    (d : option Z) :
  (name, d) ∈ named_rows str_split str_strip sub_leading_number
                sub_bracketed_number to_datetime_format df
  <-> exists r cast_str piece,
        r ∈ df /\ CAST r = Some cast_str /\ piece ∈ str_split cast_str
        /\ name = str_strip (sub_bracketed_number
                               (sub_leading_number (str_strip piece)))
        /\ d = cell_date to_datetime_format (SHOOTING_DATE r).
Proof.
  unfold named_rows. rewrite list_elem_of_In, in_flat_map. split.
  - intros (r & Hr & Hin). apply list_elem_of_In in Hr, Hin.
    apply list_elem_of_fmap in Hin as (p & [= -> ->] & Hp).
    unfold split_cast in Hp. destruct (CAST r) as [cast_str|] eqn:E;
      [|inversion Hp].
    apply list_elem_of_fmap in Hp as (piece & -> & Hpiece).
    exists r, cast_str, piece. auto.
  - intros (r & cast_str & piece & Hr & Hc & Hp & -> & ->).
    exists r. split; [now apply list_elem_of_In|].
    apply list_elem_of_In, list_elem_of_fmap. exists (str_strip piece).
    split; [reflexivity|]. unfold split_cast. rewrite Hc.
    apply list_elem_of_fmap. now exists piece.
Qed.

End LoaderFacts.

(** X17. On a sheet that has the two columns and whose cast cells hold
    text or nothing, the loader raises [ValueError] when the date cell of
    some row holds text that does not parse, be it a row without cast:
    the dates are parsed before the rows without a cast member are
    dropped. *)
Theorem load_raises_on_unparsed_date (str_split : string -> list string)
    (str_strip sub_leading_number sub_bracketed_number : string -> string)
    (to_datetime_format : string -> Parsed) (df : list SheetRow) :
  (exists r s, r ∈ df /\ SHOOTING_DATE r = Some (DateStr s)
               /\ to_datetime_format s = ParseError) ->
  load_and_process_schedule str_split str_strip sub_leading_number
    sub_bracketed_number to_datetime_format df = Raise ValueError.
Proof.
  intros (r & s & Hr & Hs & Hp).
  destruct (load_closed str_split str_strip sub_leading_number
              sub_bracketed_number to_datetime_format df)
    as [[Hok _]|[_ Hraise]]; [exfalso|exact Hraise].
  rewrite Forall_forall in Hok. specialize (Hok r Hr).
  rewrite Hs in Hok. simpl in Hok. rewrite Hp in Hok. discriminate.
Qed.

(** X18. The loaded schedule holds exactly the pairs of a cleaned name and
    a date that the sheet gives: the name is a piece of the cast of a row,
    stripped, with its leading number and bracketed numbers taken out, and
    stripped again; the date is the date of the same row.  A row without
    cast gives nothing, and no name is left out for being empty. *)
Theorem loaded_rows_of_sheet (str_split : string -> list string)
    (str_strip sub_leading_number sub_bracketed_number : string -> string)
    (to_datetime_format : string -> Parsed) (df : list SheetRow)
    (rows : list LoadedRow) :
  load_and_process_schedule str_split str_strip sub_leading_number
    sub_bracketed_number to_datetime_format df = Ok rows ->
  forall name d,
    (name, d) ∈ rows
    <-> exists r cast_str piece,
          r ∈ df /\ CAST r = Some cast_str /\ piece ∈ str_split cast_str
          /\ name = clean_cast_member str_strip sub_leading_number
                      sub_bracketed_number (Some (str_strip piece))
          /\ to_datetime_cell to_datetime_format (SHOOTING_DATE r) = Ok d.
Proof.
  intros Hload name d.
  destruct (load_closed str_split str_strip sub_leading_number
              sub_bracketed_number to_datetime_format df)
    as [[Hok Hrows]|[_ Hraise]]; [|congruence].
  rewrite Hrows in Hload. injection Hload as <-.
  rewrite sort_values_perm, elem_of_drop_duplicates, elem_of_named_rows.
  rewrite Forall_forall in Hok. simpl.
  split; intros (r & cast_str & piece & Hr & Hc & Hp & Hn & Hd);
    exists r, cast_str, piece; repeat (split; [assumption|]).
  - rewrite (Hok r Hr). now subst d.
  - rewrite (Hok r Hr) in Hd. now injection Hd.
Qed.

(** X19. A loaded schedule has no row twice and is sorted by cast member
    and then by date, the rows without a date last among those of their
    cast member. *)
Theorem loaded_schedule_sorted_without_duplicates
    (str_split : string -> list string)
    (str_strip sub_leading_number sub_bracketed_number : string -> string)
    (to_datetime_format : string -> Parsed) (df : list SheetRow)
    (rows : list LoadedRow) :
  load_and_process_schedule str_split str_strip sub_leading_number
    sub_bracketed_number to_datetime_format df = Ok rows ->
  NoDup rows
  /\ StronglySorted (fun a b => loaded_leb a b = true) rows
  /\ forall i j a b,
       (i < j)%nat -> rows !! i = Some a -> rows !! j = Some b ->
       String.compare a.1 b.1 = Lt
       \/ a.1 = b.1
          /\ match a.2, b.2 with
             | Some x, Some y => x < y
             | Some _, None => True
             | None, _ => False
             end.
Proof.
  intros Hload.
  destruct (load_closed str_split str_strip sub_leading_number
              sub_bracketed_number to_datetime_format df)
    as [[_ Hrows]|[_ Hraise]]; [|congruence].
  rewrite Hrows in Hload. injection Hload as <-.
  set (rows := Frame.sort_values loaded_leb _).
  assert (NoDup rows) as Hnd.
  { unfold rows. rewrite sort_values_perm. apply NoDup_drop_duplicates_from. }
  pose proof (sort_values_loaded
                (drop_duplicates
                   (named_rows str_split str_strip sub_leading_number
                      sub_bracketed_number to_datetime_format df))) as Hs.
  fold rows in Hs.
  split; [exact Hnd|]. split; [exact Hs|].
  intros i j a b Hij Ha Hb.
  assert (loaded_leb a b = true /\ a <> b) as [Hle Hne].
  { clear -Hij Ha Hb Hs Hnd. revert i j Hij Ha Hb.
    induction Hs as [|x l Hl IH Hx]; intros i j Hij Ha Hb;
      [rewrite lookup_nil in Ha; discriminate|].
    apply NoDup_cons in Hnd as [Hxl Hnd].
    destruct j as [|j]; [lia|]. simpl in Hb.
    destruct i as [|i]; simpl in Ha.
    - injection Ha as ->. rewrite Forall_forall in Hx.
      assert (b ∈ l) as Hbl by (eapply list_elem_of_lookup_2, Hb).
      split; [now apply Hx|]. intros ->. tauto.
    - apply (IH Hnd i j); [lia|assumption|assumption]. }
  destruct a as [n1 d1], b as [n2 d2]. unfold loaded_leb in Hle.
  simpl in *.
  destruct (String.compare n1 n2) eqn:E; try discriminate; [|now left].
  apply String.compare_eq_iff in E. subst n2. right. split; [reflexivity|].
  destruct d1 as [x|], d2 as [y|]; simpl in Hle; try discriminate;
    try exact I.
  - apply Z.leb_le in Hle. assert (x <> y) by congruence. lia.
  - now apply Hne.
Qed.

(** X20. What the loader returns depends on which rows the sheet has
    only: neither the order of the rows nor a row that is there twice
    changes it. *)
Theorem load_ignores_order_and_repeats (str_split : string -> list string)
    (str_strip sub_leading_number sub_bracketed_number : string -> string)
    (to_datetime_format : string -> Parsed) (df df' : list SheetRow) :
  (forall r, r ∈ df <-> r ∈ df') ->
  load_and_process_schedule str_split str_strip sub_leading_number
    sub_bracketed_number to_datetime_format df
  = load_and_process_schedule str_split str_strip sub_leading_number
      sub_bracketed_number to_datetime_format df'.
Proof.
  intros Hiff.
  destruct (load_closed str_split str_strip sub_leading_number
              sub_bracketed_number to_datetime_format df)
    as [[Hok ->]|[Hbad ->]];
    destruct (load_closed str_split str_strip sub_leading_number
                sub_bracketed_number to_datetime_format df')
      as [[Hok' ->]|[Hbad' ->]]; try reflexivity.
  - f_equal. apply sort_values_loaded_unique;
      try apply NoDup_drop_duplicates_from.
    intros [name d]. rewrite !elem_of_drop_duplicates, !elem_of_named_rows.
    split; intros (r & cast_str & piece & Hr & H);
      exists r, cast_str, piece; (split; [now apply Hiff|exact H]).
  - exfalso. apply Exists_exists in Hbad' as (r & Hr & Hbad').
    rewrite Forall_forall in Hok. rewrite (Hok r) in Hbad' by now apply Hiff.
    discriminate.
  - exfalso. apply Exists_exists in Hbad as (r & Hr & Hbad).
    rewrite Forall_forall in Hok'. rewrite (Hok' r) in Hbad by now apply Hiff.
    discriminate.
Qed.


(** ** The sheet of costs *)

Section SheetFacts.

Lemma foldr_max_last (l : list Z) (m : Z) :
  Forall (fun x => x <= m) l -> 1 <= m ->
  foldr Z.max 1 (l ++ [m]) = m.
Proof.
  intros Hl Hm. induction Hl as [|x l Hx _ IH]; simpl; [lia|].
  rewrite IH. lia.
Qed.

Lemma max_row_append (ws : list (list Cell)) (row : list Cell) :
  row <> [] -> max_row (append ws row) = Z.of_nat (length ws) + 1.
Proof.
  intros Hrow. unfold max_row, append. rewrite imap_app. simpl.
  rewrite Nat.add_0_r.
  destruct row as [|c row]; [congruence|].
  apply foldr_max_last; [|lia].
  apply Forall_forall. intros x Hx.
  apply list_elem_of_lookup in Hx as [i Hx].
  rewrite list_lookup_imap in Hx. apply fmap_Some in Hx as (r & E & ->).
  apply lookup_lt_Some in E. destruct r; lia.
Qed.

Lemma append_data_row_eq (ws : list (list Cell)) (description : string)
    (amt : Cell) (unit : string) (x four_x : Z) (rate_cell : string) :
  append_data_row ws description amt unit x four_x rate_cell
  = (ws ++ [data_row description amt unit x ("=$" +:+ rate_cell) four_x
              (subtotal_formula (Z.of_nat (length ws) + 1))])%list.
Proof.
  unfold append_data_row. cbv zeta.
  rewrite max_row_append by discriminate.
  unfold set_cell, append.
  replace (Z.to_nat (Z.of_nat (length ws) + 1 - 1)) with (length ws + 0)%nat
    by lia.
  rewrite alter_app_r. reflexivity.
Qed.

Lemma rate_table_rows (unique_locations : list string) (start_row : Z)
    (ws : list (list Cell)) (refs : gmap string (gmap string string)) :
  (rate_table unique_locations start_row ws refs).1
  = (ws ++ map rate_row unique_locations)%list.
Proof.
  revert start_row ws refs.
  induction unique_locations as [|location rest IH]; intros; simpl.
  - now rewrite app_nil_r.
  - rewrite IH. unfold append. now rewrite <- app_assoc.
Qed.

(** The row of the rate table a location is given: the first one, if it
    comes twice. *)
Lemma rate_table_refs (unique_locations : list string) (start_row : Z)
    (ws : list (list Cell)) (refs : gmap string (gmap string string))
    (location : string) :
  (rate_table unique_locations start_row ws refs).2 !! location
  = match last (filter (fun p => p.2 = location)
                  (imap (fun i l => (start_row + Z.of_nat i, l))
                     unique_locations)) with
    | Some p => Some (rate_cells_of_row p.1)
    | None => refs !! location
    end.
Proof.
  revert start_row ws refs.
  induction unique_locations as [|l rest IH]; intros; [reflexivity|].
  cbn [rate_table]. rewrite IH. rewrite imap_cons, filter_cons. simpl.
  rewrite (imap_ext ((fun i l0 => (start_row + Z.of_nat i, l0)) ∘ S)
             (fun i l0 => (start_row + 1 + Z.of_nat i, l0)) rest)
    by (intros; simpl; f_equal; lia).
  destruct (last (filter (fun p => p.2 = location)
                    (imap (fun i l0 => (start_row + 1 + Z.of_nat i, l0))
                       rest))) as [p|] eqn:E.
  - destruct (decide (l = location)); [|now rewrite E].
    rewrite last_cons, E. reflexivity.
  - destruct (decide (l = location)) as [->|Hne].
    + rewrite last_cons, E, lookup_insert_eq, Z.add_0_r. reflexivity.
    + rewrite E. now apply lookup_insert_ne.
Qed.

Lemma rate_table_refs_Some (unique_locations : list string) (start_row : Z)
    (ws : list (list Cell)) (location : string) :
  location ∈ unique_locations ->
  exists r, (rate_table unique_locations start_row ws ∅).2 !! location
            = Some (rate_cells_of_row r).
Proof.
  intros Hin. rewrite rate_table_refs.
  destruct (last _) as [p|] eqn:E; [now exists p.1|exfalso].
  apply last_None in E.
  apply list_elem_of_lookup in Hin as [i Hi].
  assert ((start_row + Z.of_nat i, location)
          ∈ filter (fun p : Z * string => p.2 = location)
              (imap (fun i l => (start_row + Z.of_nat i, l))
                 unique_locations)) as Hin.
  { apply list_elem_of_filter. split; [reflexivity|].
    apply list_elem_of_lookup. exists i. rewrite list_lookup_imap, Hi.
    reflexivity. }
  rewrite E in Hin. inversion Hin.
Qed.

Lemma rate_table_refs_None (unique_locations : list string) (start_row : Z)
    (ws : list (list Cell)) (location : string) :
  location ∉ unique_locations ->
  (rate_table unique_locations start_row ws ∅).2 !! location = None.
Proof.
  intros Hin. rewrite rate_table_refs.
  destruct (last _) as [p|] eqn:E; [exfalso|apply lookup_empty].
  assert (p ∈ filter (fun p : Z * string => p.2 = location)
                (imap (fun i l => (start_row + Z.of_nat i, l))
                   unique_locations)) as Hp.
  { apply last_Some in E as [l' ->]. apply elem_of_app. right. left. }
  apply list_elem_of_filter in Hp as [Hl Hp].
  apply list_elem_of_lookup in Hp as [i Hp].
  rewrite list_lookup_imap in Hp.
  destruct (unique_locations !! i) as [l|] eqn:Ei; [|discriminate].
  injection Hp as <-. simpl in Hl. subst l.
  apply Hin. eapply list_elem_of_lookup_2, Ei.
Qed.

End SheetFacts.

Section ItemRows.

Lemma append_data_row_app (ws rows : list (list Cell)) (description : string)
    (amt : Cell) (unit : string) (x four_x : Z) (rate_cell : string) :
  append_data_row (ws ++ rows) description amt unit x four_x rate_cell
  = (ws ++ (rows
            ++ [data_row description amt unit x ("=$" +:+ rate_cell) four_x
                  (subtotal_formula
                     (Z.of_nat (length ws + length rows) + 1))]))%list.
Proof.
  rewrite append_data_row_eq, length_app, <- app_assoc. reflexivity.
Qed.

Lemma per_diem_data_row (description : string) (amt : Cell) (unit : string)
    (x : Z) (rate_cell_value : string) (four_x : Z) (subtotal : string) :
  per_diem (data_row description amt unit x rate_cell_value four_x subtotal)
  = bool_decide (unit = "days") || bool_decide (unit = "day").
Proof. reflexivity. Qed.

Lemma amount_data_row (description : string) (n : Z) (unit : string)
    (x : Z) (rate_cell_value : string) (four_x : Z) (subtotal : string) :
  amount (data_row description (Number n) unit x rate_cell_value four_x
            subtotal) = n.
Proof. reflexivity. Qed.

Lemma subtotal_data_row (description : string) (amt : Cell) (unit : string)
    (x : Z) (rate_cell_value : string) (four_x : Z) (subtotal : string) :
  data_row description amt unit x rate_cell_value four_x subtotal !! 10%nat
  = Some (Text subtotal).
Proof. reflexivity. Qed.

Lemma export_item_None (max_gap : Z)
    (rate_cell_refs : gmap string (gmap string string))
    (ws : list (list Cell)) (item : ExportRecord) :
  rate_cell_refs !! location_of item = None ->
  export_item max_gap rate_cell_refs ws item = None.
Proof.
  intros Hrefs. unfold export_item. fold (location_of item). rewrite Hrefs.
  reflexivity.
Qed.

Lemma label_data_row (description : string) (amt : Cell) (unit : string)
    (x : Z) (rate_cell_value : string) (four_x : Z) (subtotal : string) :
  data_row description amt unit x rate_cell_value four_x subtotal !! 0%nat
  = Some (Text description)
  /\ data_row description amt unit x rate_cell_value four_x subtotal !! 6%nat
     = Some (Text rate_cell_value).
Proof. split; reflexivity. Qed.

(** With the rate cells of a row of the rate table an item is written,
    and the rate of each of its rows is a cell of that row. *)
Lemma export_item_rates (max_gap r : Z)
    (rate_cell_refs : gmap string (gmap string string))
    (ws : list (list Cell)) (item : ExportRecord) :
  rate_cell_refs !! location_of item = Some (rate_cells_of_row r) ->
  exists rows,
    export_item max_gap rate_cell_refs ws item = Some (ws ++ rows)%list
    /\ Forall (fun row =>
                 exists col rest,
                   2 <= col <= 7
                   /\ row !! 0%nat = Some (Text (item_label item +:+ rest))
                   /\ row !! 6%nat
                      = Some (Text ("=$" +:+ coordinate r col)))
         rows.
Proof.
  intros Hrefs. unfold export_item. fold (location_of item). rewrite Hrefs.
  cbv [default from_option id].
  change (rate_cells_of_row r !! "Ticket Rate")
    with (Some (coordinate r 2)).
  change (rate_cells_of_row r !! "Accommodation Rate")
    with (Some (coordinate r 3)).
  change (rate_cells_of_row r !! "Per Diem Shooting Rate")
    with (Some (coordinate r 4)).
  change (rate_cells_of_row r !! "Per Diem Travel Rate")
    with (Some (coordinate r 5)).
  change (rate_cells_of_row r !! "Per Diem Gap Day Rate")
    with (Some (coordinate r 6)).
  change (rate_cells_of_row r !! "Hourly Travel Rate")
    with (Some (coordinate r 7)).
  change (rate_cells_of_row r !! "Travel Hours per Route")
    with (Some (coordinate r 8)).
  cbn [mbind option_bind].
  destruct (decide (0 < e_Number_of_Gap_Days item
                    /\ e_Number_of_Gap_Days item <= max_gap));
    cbn [mbind option_bind];
    rewrite (append_data_row_eq ws), !(append_data_row_app ws);
    cbn [app length]; (eexists; split; [reflexivity|]);
    repeat (apply Forall_cons_2;
            [eexists; eexists; split;
             [|split; [apply label_data_row|apply label_data_row]]; lia|]);
    apply Forall_nil_2.
Qed.

Lemma filter_per_diem_cons (description : string) (amt : Cell)
    (unit : string) (x : Z) (rate_cell_value : string) (four_x : Z)
    (subtotal : string) (rows : list (list Cell)) :
  filter (fun row => per_diem row = true)
    (data_row description amt unit x rate_cell_value four_x subtotal :: rows)
  = if bool_decide (unit = "days") || bool_decide (unit = "day")
    then data_row description amt unit x rate_cell_value four_x subtotal
         :: filter (fun row => per_diem row = true) rows
    else filter (fun row => per_diem row = true) rows.
Proof.
  rewrite filter_cons, per_diem_data_row.
  destruct (bool_decide (unit = "days") || bool_decide (unit = "day"));
    reflexivity.
Qed.

Ltac per_diem_units :=
  rewrite !filter_per_diem_cons;
  change (bool_decide ("return" = "days") || bool_decide ("return" = "day"))
    with false;
  change (bool_decide ("nights" = "days") || bool_decide ("nights" = "day"))
    with false;
  change (bool_decide ("hours" = "days") || bool_decide ("hours" = "day"))
    with false;
  change (bool_decide ("days" = "days") || bool_decide ("days" = "day"))
    with true;
  change (bool_decide ("day" = "days") || bool_decide ("day" = "day"))
    with true;
  cbv iota; rewrite filter_nil; cbn [map sum_Z foldr];
  rewrite !amount_data_row.

Ltac own_subtotal Hk :=
  let k := fresh "k" in
  intros k ? Hk;
  repeat (destruct k as [|k];
          [injection Hk as <-; rewrite subtotal_data_row, ?Nat.add_0_r;
           reflexivity|]);
  discriminate Hk.

(** The rows an item adds to the sheet. *)
Lemma export_item_Some (max_gap : Z)
    (rate_cell_refs : gmap string (gmap string string))
    (ws ws' : list (list Cell)) (item : ExportRecord) :
  export_item max_gap rate_cell_refs ws item = Some ws' ->
  exists rows,
    ws' = (ws ++ rows)%list
    /\ length rows
       = (if decide (0 < e_Number_of_Gap_Days item
                     /\ e_Number_of_Gap_Days item <= max_gap)
          then 7%nat else 6%nat)
    /\ per_diem_days rows
       = e_Number_of_Shooting_Days item
         + (if decide (e_Period_Start_Date item ∈ e_Shooting_Dates item)
            then 0 else 1)
         + (if decide (e_Period_End_Date item ∈ e_Shooting_Dates item)
            then 0 else 1)
         + (if decide (0 < e_Number_of_Gap_Days item
                       /\ e_Number_of_Gap_Days item <= max_gap)
            then e_Number_of_Gap_Days item else 0)
    /\ Forall (fun row => length row = 11%nat) rows
    /\ forall k row,
         rows !! k = Some row ->
         row !! 10%nat
         = Some (Text (subtotal_formula (Z.of_nat (length ws + k) + 1))).
Proof.
  unfold export_item. cbv zeta.
  set (rate_cells := default ∅ (rate_cell_refs !! _)).
  intros H.
  destruct (rate_cells !! "Ticket Rate") as [r1|]; [|discriminate H].
  destruct (rate_cells !! "Accommodation Rate") as [r2|]; [|discriminate H].
  destruct (rate_cells !! "Per Diem Shooting Rate") as [r3|];
    [|discriminate H].
  destruct (rate_cells !! "Per Diem Travel Rate") as [r4|];
    [|discriminate H].
  cbn [mbind option_bind] in H.
  destruct (decide (0 < e_Number_of_Gap_Days item
                    /\ e_Number_of_Gap_Days item <= max_gap)) as [Hgap|Hgap].
  - destruct (rate_cells !! "Per Diem Gap Day Rate") as [r5|];
      [|discriminate H].
    destruct (rate_cells !! "Travel Hours per Route") as [h|];
      [|discriminate H].
    destruct (rate_cells !! "Hourly Travel Rate") as [r6|];
      [|discriminate H].
    cbn [mbind option_bind] in H. injection H as <-.
    rewrite (append_data_row_eq ws), !(append_data_row_app ws).
    cbn [app length]. eexists. split; [reflexivity|].
    split; [reflexivity|]. split; [|split].
    + unfold per_diem_days. per_diem_units. lia.
    + repeat constructor.
    + own_subtotal Hk.
  - destruct (rate_cells !! "Travel Hours per Route") as [h|];
      [|discriminate H].
    destruct (rate_cells !! "Hourly Travel Rate") as [r6|];
      [|discriminate H].
    cbn [mbind option_bind] in H. injection H as <-.
    rewrite (append_data_row_eq ws), !(append_data_row_app ws).
    cbn [app length]. eexists. split; [reflexivity|].
    split; [reflexivity|]. split; [|split].
    + unfold per_diem_days. per_diem_units. lia.
    + repeat constructor.
    + own_subtotal Hk.
Qed.

End ItemRows.

Section SheetRows.

Variable max_gap : Z.
Variable rate_cell_refs : gmap string (gmap string string).
Variable table_row : Z -> string -> Prop.
Hypothesis rows_of_table :
  forall location cells,
    rate_cell_refs !! location = Some cells ->
    exists r, cells = rate_cells_of_row r /\ table_row r location.

(** The loop over the items fails for want of rate cells, or appends
    six or seven rows of eleven cells for each item, every row with the
    subtotal of its own row and a rate of the row of its location. *)
Lemma export_items_cases (items : list ExportRecord) (ws : list (list Cell)) :
  (Exists (fun item => rate_cell_refs !! location_of item = None) items
   /\ export_items max_gap rate_cell_refs ws items = None)
  \/ (Forall (fun item => is_Some (rate_cell_refs !! location_of item)) items
      /\ exists rows,
           export_items max_gap rate_cell_refs ws items
           = Some (ws ++ rows)%list
           /\ length rows
              = sum_list_with
                  (fun item =>
                     if decide (0 < e_Number_of_Gap_Days item
                                /\ e_Number_of_Gap_Days item <= max_gap)
                     then 7%nat else 6%nat) items
           /\ Forall (fun row => length row = 11%nat) rows
           /\ (forall k row,
                 rows !! k = Some row ->
                 row !! 10%nat
                 = Some (Text (subtotal_formula
                                 (Z.of_nat (length ws + k) + 1))))
           /\ Forall (fun row =>
                        exists item r col rest,
                          item ∈ items /\ table_row r (location_of item)
                          /\ 2 <= col <= 7
                          /\ row !! 0%nat
                             = Some (Text (item_label item +:+ rest))
                          /\ row !! 6%nat
                             = Some (Text ("=$" +:+ coordinate r col)))
                rows).
Proof.
  revert ws. induction items as [|item rest IH]; intros ws.
  - right. split; [constructor|]. exists []. simpl. rewrite app_nil_r.
    split; [reflexivity|]. split; [reflexivity|]. split; [constructor|].
    split; [|constructor].
    intros k row Hk. rewrite lookup_nil in Hk. discriminate.
  - destruct (rate_cell_refs !! location_of item) as [cells|] eqn:Hrefs.
    + destruct (rows_of_table _ _ Hrefs) as (r & -> & Hr).
      destruct (export_item_rates max_gap r rate_cell_refs ws item Hrefs)
        as (rows1 & Hitem & Hrates1).
      destruct (export_item_Some _ _ _ _ _ Hitem)
        as (rows1' & Heq & Hlen1 & _ & Hcells1 & Hsub1).
      apply app_inv_head in Heq. subst rows1'.
      cbn [export_items]. rewrite Hitem. cbn [mbind option_bind].
      destruct (IH (ws ++ rows1)%list)
        as [[Hex Hnone]
           |(Hall & rows2 & Hsome & Hlen2 & Hcells2 & Hsub2 & Hrates2)].
      * left. split; [now apply Exists_cons_tl|exact Hnone].
      * right. split; [constructor; [rewrite Hrefs; eauto|exact Hall]|].
        exists (rows1 ++ rows2)%list. rewrite Hsome, app_assoc.
        split; [reflexivity|]. split; [|split; [|split]].
        -- rewrite length_app, Hlen1, Hlen2. reflexivity.
        -- now apply Forall_app.
        -- intros k row Hk. apply lookup_app_Some in Hk as [Hk|[Hge Hk]].
           ++ now apply Hsub1.
           ++ rewrite (Hsub2 _ _ Hk), length_app. do 4 f_equal. lia.
        -- apply Forall_app. split.
           ++ eapply Forall_impl; [exact Hrates1|].
              intros row (col & rest' & Hcol & Hlabel & Hrate).
              exists item, r, col, rest'. split; [left|]. auto.
           ++ eapply Forall_impl; [exact Hrates2|].
              intros row (item' & r' & col & rest' & Hin & H).
              exists item', r', col, rest'. split; [now right|exact H].
    + left. split; [now apply Exists_cons_hd|].
      cbn [export_items]. now rewrite export_item_None.
Qed.

End SheetRows.

Section ExportFacts.

Variable iter_set : list string -> list string.

(** The sheet before the items are written, and the rate cells. *)
Lemma rate_table_of_export (unique_locations : list string) :
  rate_table unique_locations
    (max_row (append [] (Text "Location"
                         :: (map Text rate_labels
                             ++ [Text "Travel Hours per Route"])%list)) + 1)
    (append [] (Text "Location"
                :: (map Text rate_labels
                    ++ [Text "Travel Hours per Route"])%list)) ∅
  = ((Text "Location"
      :: (map Text rate_labels ++ [Text "Travel Hours per Route"])%list)
     :: map rate_row unique_locations,
     (rate_table unique_locations 2
        [Text "Location"
         :: (map Text rate_labels
             ++ [Text "Travel Hours per Route"])%list] ∅).2).
Proof.
  rewrite max_row_append by discriminate. simpl length. unfold append.
  simpl app at 1.
  rewrite (surjective_pairing (rate_table _ _ _ _)).
  now rewrite rate_table_rows.
Qed.

(** The rate cells of a location are those of the row of the rate
    table that names the location. *)
Lemma table_refs (unique_locations : list string)
    (ws : list (list Cell)) (location : string) (cells : gmap string string) :
  (rate_table unique_locations (Z.of_nat (length ws) + 1) ws ∅).2 !! location
  = Some cells ->
  exists r,
    cells = rate_cells_of_row r
    /\ (ws ++ map rate_row unique_locations)%list !! Z.to_nat (r - 1)
       = Some (rate_row location).
Proof.
  rewrite rate_table_refs. destruct (last _) as [p|] eqn:E.
  - intros [= <-]. exists p.1. split; [reflexivity|].
    assert (p ∈ filter (fun p : Z * string => p.2 = location)
                  (imap (fun i l => (Z.of_nat (length ws) + 1 + Z.of_nat i, l))
                     unique_locations)) as Hp.
    { apply last_Some in E as [l' ->]. apply elem_of_app. right. left. }
    apply list_elem_of_filter in Hp as [Hl Hp].
    apply list_elem_of_lookup in Hp as [i Hp].
    rewrite list_lookup_imap in Hp.
    apply fmap_Some in Hp as (l & Hi & ->). simpl in *. subst l.
    replace (Z.to_nat (Z.of_nat (length ws) + 1 + Z.of_nat i - 1))
      with (length ws + i)%nat by lia.
    rewrite lookup_app_r by lia.
    replace (length ws + i - length ws)%nat with i by lia.
    rewrite list_lookup_fmap, Hi. reflexivity.
  - rewrite lookup_empty. discriminate.
Qed.

(** The outcome of an export for which a file name is given and that
    has records that require travel. *)
Lemma export_outcome (export_data : list ExportRecord) (filename : string)
    (max_gap : Z) :
  filename <> "" ->
  filter (fun item => e_Requires_Travel item = true) export_data <> [] ->
  let items :=
    Frame.sort_values start_date_leb
      (filter (fun item => e_Requires_Travel item = true) export_data) in
  let unique_locations := iter_set (map e_Period_Name items) in
  (Exists (fun item => location_of item ∉ unique_locations) items
   /\ forall wb_save,
        export_to_excel iter_set wb_save (Some export_data) filename max_gap
        = ExportFailed)
  \/ (Forall (fun item => location_of item ∈ unique_locations) items
      /\ exists rows,
           (forall wb_save,
              export_to_excel iter_set wb_save (Some export_data) filename
                max_gap
              = let ws :=
                  ((Text "Location"
                    :: (map Text rate_labels
                        ++ [Text "Travel Hours per Route"])%list)
                   :: map rate_row unique_locations
                   ++ [[]; map Text headers] ++ rows)%list in
                if wb_save filename ws then ExportSuccessful filename ws
                else ExportFailed)
           /\ length rows
              = sum_list_with
                  (fun item =>
                     if decide (0 < e_Number_of_Gap_Days item
                                /\ e_Number_of_Gap_Days item <= max_gap)
                     then 7%nat else 6%nat) items
           /\ Forall (fun row => length row = 11%nat) rows
           /\ (forall k row,
                 rows !! k = Some row ->
                 row !! 10%nat
                 = Some (Text (subtotal_formula
                                 (Z.of_nat (length unique_locations + 3 + k)
                                  + 1))))
           /\ Forall (fun row =>
                        exists item r col rest,
                          item ∈ items
                          /\ ((Text "Location"
                                :: (map Text rate_labels
                                    ++ [Text "Travel Hours per Route"])%list)
                               :: map rate_row unique_locations)
                             !! Z.to_nat (r - 1)
                             = Some (rate_row (location_of item))
                          /\ 2 <= col <= 7
                          /\ row !! 0%nat
                             = Some (Text (item_label item +:+ rest))
                          /\ row !! 6%nat
                             = Some (Text ("=$" +:+ coordinate r col)))
                rows).
Proof.
  intros Hname Hfilter items unique_locations.
  assert (forall (T : Type) (l : list ExportRecord) (a b : T),
            l <> [] -> match l with [] => a | _ :: _ => b end = b) as Hmatch
    by (intros T [|? ?] a b Hl; [congruence|reflexivity]).
  set (header := Text "Location"
                 :: (map Text rate_labels
                     ++ [Text "Travel Hours per Route"])%list).
  set (refs := (rate_table unique_locations 2 [header] ∅).2).
  set (ws := append (append (header :: map rate_row unique_locations) [])
               (map Text headers)).
  assert (forall wb_save,
            export_to_excel iter_set wb_save (Some export_data) filename
              max_gap
            = match export_items max_gap refs ws items with
              | Some ws' =>
                  if wb_save filename ws' then ExportSuccessful filename ws'
                  else ExportFailed
              | None => ExportFailed
              end) as Hrun.
  { intros wb_save. unfold export_to_excel.
    destruct export_data as [|item0 data0]; [now elim Hfilter|].
    rewrite Hmatch by exact Hfilter.
    fold items. rewrite decide_False by exact Hname.
    fold unique_locations. rewrite rate_table_of_export. reflexivity. }
  clear Hmatch.
  destruct (export_items_cases max_gap refs
              (fun r location =>
                 (header :: map rate_row unique_locations) !! Z.to_nat (r - 1)
                 = Some (rate_row location))
              (table_refs unique_locations [header]) items ws)
    as [[Hex Hnone]|(Hall & rows & Hsome & Hlen & Hcells & Hsub & Hrates)].
  - left. split; [|intros wb_save; now rewrite Hrun, Hnone].
    apply Exists_exists in Hex as (item & Hitem & Hex).
    apply Exists_exists. exists item. split; [exact Hitem|].
    intros Hin. unfold refs in Hex.
    destruct (rate_table_refs_Some _ 2 [header] _ Hin) as [r Hr].
    rewrite Hr in Hex. discriminate.
  - right. split.
    + apply Forall_forall. intros item Hitem.
      rewrite Forall_forall in Hall. specialize (Hall item Hitem).
      destruct (decide (location_of item ∈ unique_locations)) as [|Hnot];
        [assumption|].
      unfold refs in Hall. rewrite rate_table_refs_None in Hall by exact Hnot.
      now destruct Hall.
    + exists rows. split.
      * intros wb_save. rewrite Hrun, Hsome.
        assert ((ws ++ rows)%list
                = (header :: map rate_row unique_locations
                   ++ [[]; map Text headers] ++ rows)%list) as ->;
          [|reflexivity].
        unfold ws, append. simpl. rewrite <- !app_assoc. reflexivity.
      * split; [exact Hlen|]. split; [exact Hcells|].
        split; [|exact Hrates].
        intros k row Hk. rewrite (Hsub k row Hk). do 4 f_equal.
        unfold ws, append. rewrite !length_app. simpl.
        rewrite length_map. lia.
Qed.

End ExportFacts.

Section ExportOutcomes.

Variable iter_set : list string -> list string.

Lemma export_no_travel (wb_save : string -> list (list Cell) -> bool)
    (export_data : list ExportRecord) (filename : string) (max_gap : Z) :
  filter (fun item => e_Requires_Travel item = true) export_data = [] ->
  export_to_excel iter_set wb_save (Some export_data) filename max_gap
  = NoDataToExport
  \/ export_to_excel iter_set wb_save (Some export_data) filename max_gap
     = NoTravelData.
Proof.
  intros H. unfold export_to_excel.
  destruct export_data as [|item data]; [now left|]. rewrite H. now right.
Qed.

Lemma export_cancelled (wb_save : string -> list (list Cell) -> bool)
    (export_data : list ExportRecord) (max_gap : Z) :
  filter (fun item => e_Requires_Travel item = true) export_data <> [] ->
  export_to_excel iter_set wb_save (Some export_data) "" max_gap
  = ExportCancelled.
Proof.
  intros H. unfold export_to_excel.
  destruct export_data as [|item data]; [now elim H|].
  destruct (filter _ (item :: data)); [congruence|reflexivity].
Qed.

Lemma elem_of_items (export_data : list ExportRecord) (item : ExportRecord) :
  item ∈ Frame.sort_values start_date_leb
           (filter (fun item => e_Requires_Travel item = true) export_data)
  <-> item ∈ export_data /\ e_Requires_Travel item = true.
Proof. rewrite sort_values_perm, list_elem_of_filter. tauto. Qed.

(** A sheet that is saved: its rows. *)
Lemma export_successful_inv (wb_save : string -> list (list Cell) -> bool)
    (export_data : list ExportRecord)
    (filename f : string) (max_gap : Z) (ws : list (list Cell)) :
  export_to_excel iter_set wb_save (Some export_data) filename max_gap
  = ExportSuccessful f ws ->
  let items :=
    Frame.sort_values start_date_leb
      (filter (fun item => e_Requires_Travel item = true) export_data) in
  let unique_locations := iter_set (map e_Period_Name items) in
  exists rows,
    ws = ((Text "Location"
           :: (map Text rate_labels ++ [Text "Travel Hours per Route"])%list)
          :: map rate_row unique_locations
          ++ [[]; map Text headers] ++ rows)%list
    /\ (forall k row,
          rows !! k = Some row ->
          length row = 11%nat
          /\ row !! 10%nat
             = Some (Text (subtotal_formula
                             (Z.of_nat (length unique_locations + 3 + k)
                              + 1)))
          /\ exists item r col rest,
               item ∈ export_data /\ e_Requires_Travel item = true
               /\ ws !! Z.to_nat (r - 1) = Some (rate_row (location_of item))
               /\ 2 <= col <= 7
               /\ row !! 0%nat = Some (Text (item_label item +:+ rest))
               /\ row !! 6%nat = Some (Text ("=$" +:+ coordinate r col))).
Proof.
  intros H items unique_locations.
  destruct (decide (filter (fun item => e_Requires_Travel item = true)
                      export_data = [])) as [E|E].
  { destruct (export_no_travel wb_save export_data filename max_gap E);
      congruence. }
  destruct (decide (filename = "")) as [->|Hname].
  { rewrite export_cancelled in H by exact E. discriminate. }
  destruct (export_outcome iter_set export_data filename max_gap Hname E)
    as [[_ Hfail]|(_ & rows & Hok & _ & Hcells & Hsub & Hrates)];
    [rewrite Hfail in H; discriminate H|].
  rewrite Hok in H. cbv zeta in H.
  destruct (wb_save filename _); [|discriminate H].
  injection H as _ <-.
  exists rows. split; [reflexivity|]. intros k row Hk.
  rewrite Forall_forall in Hcells, Hrates.
  assert (row ∈ rows) as Hrow by (eapply list_elem_of_lookup_2, Hk).
  split; [now apply Hcells|]. split; [now apply Hsub|].
  destruct (Hrates row Hrow)
    as (item & r & col & rest & Hitem & Htable & Hcol & Hlabel & Hrate).
  apply elem_of_items in Hitem as [Hitem Hreq].
  exists item, r, col, rest. split; [exact Hitem|]. split; [exact Hreq|].
  split; [|auto].
  apply lookup_lt_Some in Htable as Hlt.
  rewrite app_comm_cons, lookup_app_l by exact Hlt. exact Htable.
Qed.

(** A row of eleven cells of a saved sheet is the row of the headers or
    a row of an item. *)
Lemma row_of_eleven (unique_locations : list string)
    (rows : list (list Cell)) (k : nat) (row : list Cell) :
  ((Text "Location"
    :: (map Text rate_labels ++ [Text "Travel Hours per Route"])%list)
   :: map rate_row unique_locations
   ++ [[]; map Text headers] ++ rows)%list !! k = Some row ->
  length row = 11%nat ->
  row = map Text headers
  \/ exists j, rows !! j = Some row
               /\ k = (length unique_locations + 3 + j)%nat.
Proof.
  intros Hk Hlen. destruct k as [|k]; simpl in Hk.
  { injection Hk as <-. discriminate Hlen. }
  apply lookup_app_Some in Hk as [Hk|[Hge Hk]].
  { apply list_lookup_fmap_Some in Hk as (l & -> & _). discriminate Hlen. }
  rewrite length_map in Hge, Hk.
  destruct (k - length unique_locations)%nat as [|[|j]] eqn:Ej; simpl in Hk.
  - injection Hk as <-. discriminate Hlen.
  - injection Hk as <-. now left.
  - right. exists j. split; [exact Hk|]. lia.
Qed.

End ExportOutcomes.

(** X22. An export for which a file name is given fails, whatever would
    become of the save, when a record that requires travel has an empty
    period name while none is named 'Local': the rates of such a record
    are looked up under 'Local', for which the rate table then has no
    row. *)
Theorem export_fails_on_unnamed_period (iter_set : list string -> list string)
    (wb_save : string -> list (list Cell) -> bool)
    (export_data : list ExportRecord) (filename : string) (max_gap : Z) :
  (forall l x, x ∈ iter_set l <-> x ∈ l) ->
  filename <> "" ->
  (exists item, item ∈ export_data /\ e_Requires_Travel item = true
                /\ e_Period_Name item = "") ->
  ~ (exists item, item ∈ export_data /\ e_Requires_Travel item = true
                  /\ e_Period_Name item = "Local") ->
  export_to_excel iter_set wb_save (Some export_data) filename max_gap
  = ExportFailed.
Proof.
  intros Hiter Hname (item & Hitem & Hreq & Hempty) Hlocal.
  assert (filter (fun item => e_Requires_Travel item = true) export_data
          <> []) as E.
  { intros E.
    assert (item ∈ filter (fun item => e_Requires_Travel item = true)
                     export_data) as Hin
      by (apply list_elem_of_filter; auto).
    rewrite E in Hin. inversion Hin. }
  destruct (export_outcome iter_set export_data filename max_gap Hname E)
    as [[_ Hfail]|(Hall & _)]; [apply Hfail|exfalso].
  rewrite Forall_forall in Hall.
  assert (item ∈ Frame.sort_values start_date_leb
                   (filter (fun item => e_Requires_Travel item = true)
                      export_data)) as Hin
    by (apply elem_of_items; auto).
  apply Hall, Hiter, list_elem_of_fmap in Hin as (item' & Hn & Hin').
  apply elem_of_items in Hin' as [Hin' Hreq'].
  unfold location_of in Hn. rewrite decide_True in Hn by exact Hempty.
  apply Hlocal. now exists item'.
Qed.

(** X23. The export records of a run under the options of the window
    reach the save: each of them passes the filter on 'Requires Travel',
    and when there is a record and a file name is given, the loop over
    the records writes one sheet, and the export ends as the save of this
    sheet under that name does: successful when the sheet is saved,
    failed when the save raises. *)
Theorem export_of_run_reaches_save (iter_set : list string -> list string)
    (lower : string -> string)
    (to_datetime : string -> Parsed) (df_cast_dates : list CastDate)
    (max_gap : Z) (weekend_policy : bool)
    (arrival_option departure_option : string)
    (cast_member_settings : gmap string CastSetting)
    (shooting_periods : list ShootingPeriod)
    (df_summary : list SummaryRow) (export : list ExportRecord)
    (calendar : list CalendarEvent) (filename : string) (spin_box : Z) :
  (forall l x, x ∈ iter_set l <-> x ∈ l) ->
  valid_arrival arrival_option -> valid_departure departure_option ->
  apply_user_logic lower to_datetime df_cast_dates max_gap weekend_policy
    arrival_option departure_option cast_member_settings shooting_periods
  = Ok (df_summary, export, calendar) ->
  export <> [] -> filename <> "" ->
  filter (fun item => e_Requires_Travel item = true) export = export
  /\ exists ws,
       forall wb_save,
         export_to_excel iter_set wb_save (Some export) filename spin_box
         = if wb_save filename ws then ExportSuccessful filename ws
           else ExportFailed.
Proof.
  intros Hiter Ha Hd Hrun Hne Hname.
  destruct (run_exports_closed _ _ _ _ _ _ _ _ _ _ _ _ Ha Hd Hrun)
    as (df_filtered & _ & Hexp).
  assert (Forall (fun e => e_Requires_Travel e = true
                           /\ e_Period_Name e <> "") export) as Hall.
  { rewrite Hexp. apply Forall_fmap, Forall_forall. intros stay _. simpl.
    destruct (stay_record_named arrival_option departure_option stay)
      as (Hreq & Hn & _). auto. }
  clear Hexp.
  assert (filter (fun item => e_Requires_Travel item = true) export = export)
    as Hfilter.
  { clear -Hall. induction Hall as [|e l [He _] _ IH]; [reflexivity|].
    rewrite filter_cons_True by exact He. now rewrite IH. }
  split; [exact Hfilter|].
  assert (filter (fun item => e_Requires_Travel item = true) export <> [])
    as E by now rewrite Hfilter.
  destruct (export_outcome iter_set export filename spin_box Hname E)
    as [[Hex _]|(_ & rows & Hok & _)]; [exfalso|eexists; exact Hok].
  apply Exists_exists in Hex as (item & Hitem & Hex).
  apply Hex, Hiter, list_elem_of_fmap. exists item. split; [|exact Hitem].
  apply elem_of_items in Hitem as [Hitem _].
  rewrite Forall_forall in Hall. destruct (Hall item Hitem) as [_ Hn].
  unfold location_of. now rewrite decide_False.
Qed.

(** X24. In a sheet that is saved, every row of eleven cells other than
    the row of the headers has in its last cell the subtotal formula over
    the cells of this very row. *)
Theorem subtotals_refer_to_own_row (iter_set : list string -> list string)
    (wb_save : string -> list (list Cell) -> bool)
    (export_data : list ExportRecord) (filename f : string) (max_gap : Z)
    (ws : list (list Cell)) :
  export_to_excel iter_set wb_save (Some export_data) filename max_gap
  = ExportSuccessful f ws ->
  forall k row,
    ws !! k = Some row -> length row = 11%nat ->
    row = map Text headers
    \/ row !! 10%nat = Some (Text (subtotal_formula (Z.of_nat k + 1))).
Proof.
  intros H k row Hk Hlen.
  destruct (export_successful_inv iter_set _ _ _ _ _ _ H)
    as (rows & -> & Hrows).
  destruct (row_of_eleven _ _ _ _ Hk Hlen) as [Hh|(j & Hj & ->)];
    [now left|right].
  now destruct (Hrows j row Hj) as (_ & Hsub & _).
Qed.

(** X25. The per diems of a stay in the sheet: for an export record of a
    run on a schedule without a record twice, the rows of the item count
    in days and in single days the accommodation nights plus one when the
    gap days of the record do not exceed the threshold of the export, and
    as many less as there are gap days when they do, for then the item
    has no row for its gap days. *)
Theorem per_diem_days_of_stay (lower : string -> string)
    (to_datetime : string -> Parsed) (df_cast_dates : list CastDate)
    (max_gap : Z) (weekend_policy : bool)
    (arrival_option departure_option : string)
    (cast_member_settings : gmap string CastSetting)
    (shooting_periods : list ShootingPeriod)
    (df_summary : list SummaryRow) (export : list ExportRecord)
    (calendar : list CalendarEvent) :
  NoDup df_cast_dates ->
  valid_arrival arrival_option -> valid_departure departure_option ->
  apply_user_logic lower to_datetime df_cast_dates max_gap weekend_policy
    arrival_option departure_option cast_member_settings shooting_periods
  = Ok (df_summary, export, calendar) ->
  forall item spin_box rate_cell_refs ws ws',
    item ∈ export ->
    export_item spin_box rate_cell_refs ws item = Some ws' ->
    exists rows,
      ws' = (ws ++ rows)%list
      /\ per_diem_days rows
         = e_Period_Accommodation_Nights item + 1
           - (if decide (e_Number_of_Gap_Days item <= spin_box)
              then 0 else e_Number_of_Gap_Days item).
Proof.
  intros Hnd Ha Hd Hrun item spin_box rate_cell_refs ws ws' Hitem Hrows.
  destruct (run_exports_closed _ _ _ _ _ _ _ _ _ _ _ _ Ha Hd Hrun)
    as (df_filtered & Hframe & ->).
  apply list_elem_of_fmap in Hitem as (stay & -> & Hstay).
  destruct (stay_record_days lower to_datetime df_cast_dates max_gap _ _
              cast_member_settings shooting_periods df_filtered stay
              Hnd Ha Hd Hframe Hstay) as [_ Hdays].
  destruct (stay_record_named arrival_option departure_option stay)
    as (_ & _ & Hgap).
  destruct (export_item_Some _ _ _ _ _ Hrows) as (rows & -> & _ & Hper & _).
  exists rows. split; [reflexivity|]. rewrite Hper.
  cbv zeta in Hdays. repeat case_decide; lia.
Qed.

(** X26. In a sheet that is saved, every row of eleven cells other than
    the row of the headers is the row of a record that requires travel:
    its description begins with the cast member, the home location and
    the location of the record, and its rate is a cell of the rate columns
    of that row of the rate table which names this location. *)
Theorem rates_refer_to_location_row (iter_set : list string -> list string)
    (wb_save : string -> list (list Cell) -> bool)
    (export_data : list ExportRecord) (filename f : string) (max_gap : Z)
    (ws : list (list Cell)) :
  export_to_excel iter_set wb_save (Some export_data) filename max_gap
  = ExportSuccessful f ws ->
  forall k row,
    ws !! k = Some row -> length row = 11%nat ->
    row = map Text headers
    \/ exists item r col rest,
         item ∈ export_data /\ e_Requires_Travel item = true
         /\ ws !! Z.to_nat (r - 1) = Some (rate_row (location_of item))
         /\ 2 <= col <= 7
         /\ row !! 0%nat = Some (Text (item_label item +:+ rest))
         /\ row !! 6%nat = Some (Text ("=$" +:+ coordinate r col)).
Proof.
  intros H k row Hk Hlen.
  destruct (export_successful_inv iter_set _ _ _ _ _ _ H)
    as (rows & Hws & Hrows).
  rewrite Hws in Hk.
  destruct (row_of_eleven _ _ _ _ Hk Hlen) as [Hh|(j & Hj & ->)];
    [now left|right].
  now destruct (Hrows j row Hj) as (_ & _ & Hitem).
Qed.

(** ** The statements on the sample run and the sample sheet *)

Lemma sample_frame :
  filtered_frame Sample.lower Sample.to_datetime Sample.df_cast_dates
    Sample.cast_member_settings Sample.shooting_periods
  = Ok SampleRun.df_filtered.
Proof. vm_compute. reflexivity. Qed.

Lemma sample_run :
  SampleRun.run
  = Ok (SampleRun.df_summary, SampleRun.export, SampleRun.calendar).
Proof. vm_compute. reflexivity. Qed.

Lemma sample_arrival : valid_arrival "Day Before Shooting".
Proof. left. reflexivity. Qed.

Lemma sample_departure : valid_departure "Day After Shooting".
Proof. left. reflexivity. Qed.

Lemma sample_no_record_twice : NoDup Sample.df_cast_dates.
Proof.
  unfold Sample.df_cast_dates.
  repeat (apply NoDup_cons_2;
          [rewrite ?elem_of_cons, elem_of_nil; intuition discriminate|]).
  apply NoDup_nil_2.
Qed.


Lemma sample_load : SampleSheet.load SampleSheet.sheet = Ok SampleSheet.loaded.
Proof. vm_compute. reflexivity. Qed.

Lemma sample_iteration (l : list string) (x : string) :
  x ∈ remove_dups l <-> x ∈ l.
Proof. apply elem_of_remove_dups. Qed.

Lemma sample_export :
  export_to_excel remove_dups SampleRun.wb_save (Some SampleRun.export)
    "costs.xlsx" 2
  = ExportSuccessful "costs.xlsx" SampleRun.ws.
Proof. vm_compute. reflexivity. Qed.

Lemma period_columns_of_given_periods_witness :
  filtered_frame Sample.lower Sample.to_datetime Sample.df_cast_dates
    Sample.cast_member_settings Sample.shooting_periods
  = Ok SampleRun.df_filtered
  /\ forall r, r ∈ SampleRun.df_filtered ->
       (Period_Name (row r), Shooting_Location (row r))
       = match List.find (covers Sample.to_datetime (row_date r))
                 Sample.shooting_periods with
         | Some period => (Some (Name period), Some (Location period))
         | None => (None, None)
         end.
Proof.
  split; [exact sample_frame|].
  exact (period_columns_of_given_periods Sample.lower Sample.to_datetime
           Sample.df_cast_dates Sample.cast_member_settings
           Sample.shooting_periods SampleRun.df_filtered sample_frame).
Defined.

Lemma filtered_frame_included_records_witness :
  filtered_frame Sample.lower Sample.to_datetime Sample.df_cast_dates
    Sample.cast_member_settings Sample.shooting_periods
  = Ok SampleRun.df_filtered
  /\ map (fun r => cast (row r)) SampleRun.df_filtered
     = filter (fun c => include (Sample.cast_member_settings
                                   !!! Cast_Member c) = true)
         (Frame.sort_values member_date_leb
            (filter (fun c => is_Some (Sample.cast_member_settings
                                         !! Cast_Member c))
               Sample.df_cast_dates)).
Proof.
  split; [exact sample_frame|].
  exact (proj1 (filtered_frame_included_records Sample.lower
                  Sample.to_datetime Sample.df_cast_dates
                  Sample.cast_member_settings Sample.shooting_periods
                  SampleRun.df_filtered sample_frame)).
Defined.

Lemma outputs_name_included_members_witness :
  SampleRun.run
  = Ok (SampleRun.df_summary, SampleRun.export, SampleRun.calendar)
  /\ Forall (fun e => included Sample.cast_member_settings (e_Cast_Member e)
                      /\ exists c, c ∈ Sample.df_cast_dates
                                   /\ Cast_Member c = e_Cast_Member e)
       SampleRun.export.
Proof.
  split; [exact sample_run|].
  exact (proj1 (proj2 (outputs_name_included_members Sample.lower
                         Sample.to_datetime Sample.df_cast_dates 2 false
                         "Day Before Shooting" "Day After Shooting"
                         Sample.cast_member_settings Sample.shooting_periods
                         SampleRun.df_summary SampleRun.export
                         SampleRun.calendar sample_run))).
Defined.

Lemma summary_totals_witness :
  SampleRun.run
  = Ok (SampleRun.df_summary, SampleRun.export, SampleRun.calendar)
  /\ exists blocks,
       SampleRun.export = concat blocks
       /\ Forall2
            (fun s block =>
               s_Travel_Days s = sum_Z (map e_Period_Travel_Days block)
               /\ s_Accommodation_Nights s
                  = sum_Z (map e_Period_Accommodation_Nights block)
               /\ Forall (fun e => e_Cast_Member e = s_Cast_Member s
                                   /\ e_Home_Location e = s_Home_Location s)
                    block
               /\ (s_Requires_Travel s = false ->
                   block = [] /\ s_Travel_Days s = 0
                   /\ s_Accommodation_Nights s = 0))
            SampleRun.df_summary blocks.
Proof.
  split; [exact sample_run|].
  exact (summary_totals Sample.lower Sample.to_datetime Sample.df_cast_dates
           2 false "Day Before Shooting" "Day After Shooting"
           Sample.cast_member_settings Sample.shooting_periods
           SampleRun.df_summary SampleRun.export SampleRun.calendar
           sample_run).
Defined.

Lemma summary_rows_of_groups_witness :
  SampleRun.run
  = Ok (SampleRun.df_summary, SampleRun.export, SampleRun.calendar)
  /\ exists df_filtered keys,
       filtered_frame Sample.lower Sample.to_datetime Sample.df_cast_dates
         Sample.cast_member_settings Sample.shooting_periods = Ok df_filtered
       /\ (forall key, key ∈ keys
                       <-> exists r, r ∈ df_filtered
                                     /\ grouping_columns r = Some key)
       /\ NoDup keys
       /\ Sorted (fun a b => group_key_leb a b = true) keys
       /\ map (fun s => (s_Cast_Member s, s_Home_Location s,
                         s_Requires_Travel s)) SampleRun.df_summary
          = map (fun key : GroupKey => (key.1.1.1, key.1.1.2, key.2)) keys.
Proof.
  split; [exact sample_run|].
  exact (summary_rows_of_groups Sample.lower Sample.to_datetime
           Sample.df_cast_dates 2 false "Day Before Shooting"
           "Day After Shooting" Sample.cast_member_settings
           Sample.shooting_periods SampleRun.df_summary SampleRun.export
           SampleRun.calendar sample_run).
Defined.

Lemma export_records_of_stay_periods_witness :
  SampleRun.run
  = Ok (SampleRun.df_summary, SampleRun.export, SampleRun.calendar)
  /\ exists df_filtered,
       filtered_frame Sample.lower Sample.to_datetime Sample.df_cast_dates
         Sample.cast_member_settings Sample.shooting_periods = Ok df_filtered
       /\ Forall2
            (fun (stay : GroupKey * (Z * list GroupRow)) e =>
               e_Cast_Member e = stay.1.1.1.1
               /\ e_Home_Location e = stay.1.1.1.2
               /\ e_Period_Number e = stay.2.1
               /\ e_Shooting_Dates e = period_dates stay.2)
            (travel_stays 2
               (Frame.groupby group_key_leb grouping_columns df_filtered))
            SampleRun.export.
Proof.
  split; [exact sample_run|].
  exact (export_records_of_stay_periods Sample.lower Sample.to_datetime
           Sample.df_cast_dates 2 false "Day Before Shooting"
           "Day After Shooting" Sample.cast_member_settings
           Sample.shooting_periods SampleRun.df_summary SampleRun.export
           SampleRun.calendar sample_run).
Defined.

Lemma unknown_option_raises_witness :
  ~ valid_arrival "At Noon"
  /\ apply_user_logic Sample.lower Sample.to_datetime Sample.df_cast_dates 2
       false "At Noon" "Day After Shooting" Sample.cast_member_settings
       Sample.shooting_periods
     = Raise UnboundLocalError.
Proof.
  assert (~ valid_arrival "At Noon") as Ha
    by (intros [H|H]; discriminate H).
  split; [exact Ha|].
  apply (proj1 (unknown_option_raises Sample.lower Sample.to_datetime
                  Sample.df_cast_dates 2 false "At Noon" "Day After Shooting"
                  Sample.cast_member_settings Sample.shooting_periods
                  SampleRun.df_filtered (or_introl Ha) sample_frame)).
  exists (Sample.travel_row "Alice" Sample.jan_1).
  split; [left|]. split; [discriminate|reflexivity].
Defined.

Lemma nobody_included_empty_outputs_witness :
  apply_user_logic Sample.lower Sample.to_datetime
    [Sample.shoot "Alice" Sample.jan_1] 2 false "Day Before Shooting"
    "Day After Shooting" SampleRun.nobody Sample.shooting_periods
  = Ok ([], [], []).
Proof.
  apply nobody_included_empty_outputs.
  - exists (Sample.shoot "Alice" Sample.jan_1). split; [left|].
    eexists. vm_compute. reflexivity.
  - intros c Hc (setting & Hs & Hinc).
    apply list_elem_of_singleton in Hc. subst c.
    vm_compute in Hs. injection Hs as <-. discriminate Hinc.
Defined.

Lemma no_settings_raises_value_error_witness :
  (forall c, c ∈ Sample.df_cast_dates ->
             (∅ : gmap string CastSetting) !! Cast_Member c = None)
  /\ apply_user_logic Sample.lower Sample.to_datetime Sample.df_cast_dates 2
       false "Day Before Shooting" "Day After Shooting" ∅
       Sample.shooting_periods
     = Raise ValueError.
Proof.
  assert (forall c, c ∈ Sample.df_cast_dates ->
                    (∅ : gmap string CastSetting) !! Cast_Member c = None)
    as Hnone by (intros c _; apply lookup_empty).
  split; [exact Hnone|].
  exact (no_settings_raises_value_error Sample.lower Sample.to_datetime
           Sample.df_cast_dates 2 false "Day Before Shooting"
           "Day After Shooting" ∅ Sample.shooting_periods Hnone).
Defined.

Lemma one_stay_period_below_threshold_witness :
  exists rows,
    stay_periods 2 [Sample.travel_row "Alice" Sample.jan_1;
                    Sample.travel_row "Alice" Sample.jan_2]
    = [(0, rows)]
    /\ map group_row rows
       = Frame.sort_values date_leb
           [Sample.travel_row "Alice" Sample.jan_1;
            Sample.travel_row "Alice" Sample.jan_2].
Proof.
  apply one_stay_period_below_threshold; [lia|discriminate|].
  intros d d' Hd Hd'. simpl in Hd, Hd'.
  rewrite !elem_of_cons, elem_of_nil in Hd, Hd'.
  unfold row_date, Sample.jan_1, Sample.jan_2 in *. simpl in *.
  destruct Hd as [->|[->|[]]], Hd' as [->|[->|[]]]; lia.
Defined.


Lemma export_closed_form_witness :
  SampleRun.run
  = Ok (SampleRun.df_summary, SampleRun.export, SampleRun.calendar)
  /\ exists df_filtered,
       filtered_frame Sample.lower Sample.to_datetime Sample.df_cast_dates
         Sample.cast_member_settings Sample.shooting_periods = Ok df_filtered
       /\ SampleRun.export
          = map (stay_record "Day Before Shooting" "Day After Shooting")
              (travel_stays 2
                 (Frame.groupby group_key_leb grouping_columns df_filtered)).
Proof.
  split; [exact sample_run|].
  exact (export_closed_form Sample.lower Sample.to_datetime
           Sample.df_cast_dates 2 false "Day Before Shooting"
           "Day After Shooting" Sample.cast_member_settings
           Sample.shooting_periods SampleRun.df_summary SampleRun.export
           SampleRun.calendar sample_arrival sample_departure sample_run).
Defined.

Lemma stay_days_add_up_witness :
  Forall (fun e =>
            NoDup (e_Shooting_Dates e)
            /\ e_Number_of_Shooting_Days e + e_Number_of_Gap_Days e
               + (if decide (e_Period_Start_Date e ∈ e_Shooting_Dates e)
                  then 0 else 1)
               + (if decide (e_Period_End_Date e ∈ e_Shooting_Dates e)
                  then 0 else 1)
               = e_Period_Accommodation_Nights e + 1)
    SampleRun.export.
Proof.
  exact (stay_days_add_up Sample.lower Sample.to_datetime
           Sample.df_cast_dates 2 false "Day Before Shooting"
           "Day After Shooting" Sample.cast_member_settings
           Sample.shooting_periods SampleRun.df_summary SampleRun.export
           SampleRun.calendar sample_no_record_twice sample_arrival
           sample_departure sample_run).
Defined.

Lemma load_raises_on_unparsed_date_witness :
  (exists r s, r ∈ SampleSheet.misdated
               /\ SHOOTING_DATE r = Some (DateStr s)
               /\ SampleSheet.to_datetime_format s = ParseError)
  /\ SampleSheet.load SampleSheet.misdated = Raise ValueError.
Proof.
  assert (exists r s, r ∈ SampleSheet.misdated
                      /\ SHOOTING_DATE r = Some (DateStr s)
                      /\ SampleSheet.to_datetime_format s = ParseError)
    as Hbad.
  { exists {| CAST := None; SHOOTING_DATE := Some (DateStr "2024-01-03") |},
      "2024-01-03".
    split; [right; left|]. split; reflexivity. }
  split; [exact Hbad|].
  exact (load_raises_on_unparsed_date SampleSheet.str_split
           SampleSheet.str_strip SampleSheet.sub_leading_number
           SampleSheet.sub_bracketed_number SampleSheet.to_datetime_format
           SampleSheet.misdated Hbad).
Defined.

Lemma loaded_rows_of_sheet_witness :
  SampleSheet.load SampleSheet.sheet = Ok SampleSheet.loaded
  /\ forall name d,
       (name, d) ∈ SampleSheet.loaded
       <-> exists r cast_str piece,
             r ∈ SampleSheet.sheet /\ CAST r = Some cast_str
             /\ piece ∈ SampleSheet.str_split cast_str
             /\ name = clean_cast_member SampleSheet.str_strip
                         SampleSheet.sub_leading_number
                         SampleSheet.sub_bracketed_number
                         (Some (SampleSheet.str_strip piece))
             /\ to_datetime_cell SampleSheet.to_datetime_format
                  (SHOOTING_DATE r) = Ok d.
Proof.
  split; [exact sample_load|].
  exact (loaded_rows_of_sheet SampleSheet.str_split SampleSheet.str_strip
           SampleSheet.sub_leading_number SampleSheet.sub_bracketed_number
           SampleSheet.to_datetime_format SampleSheet.sheet
           SampleSheet.loaded sample_load).
Defined.

Lemma loaded_schedule_sorted_without_duplicates_witness :
  NoDup SampleSheet.loaded
  /\ StronglySorted (fun a b => loaded_leb a b = true) SampleSheet.loaded.
Proof.
  pose proof (loaded_schedule_sorted_without_duplicates
                SampleSheet.str_split SampleSheet.str_strip
                SampleSheet.sub_leading_number
                SampleSheet.sub_bracketed_number
                SampleSheet.to_datetime_format SampleSheet.sheet
                SampleSheet.loaded sample_load) as (Hnd & Hs & _).
  split; [exact Hnd|exact Hs].
Defined.

Lemma load_ignores_order_and_repeats_witness :
  SampleSheet.load SampleSheet.sheet
  = SampleSheet.load (SampleSheet.sheet ++ reverse SampleSheet.sheet)%list.
Proof.
  apply load_ignores_order_and_repeats.
  intros r. rewrite elem_of_app, elem_of_reverse. tauto.
Defined.


Lemma export_fails_on_unnamed_period_witness :
  "costs.xlsx" <> ""
  /\ (exists item, item ∈ [SampleRun.unnamed]
                   /\ e_Requires_Travel item = true
                   /\ e_Period_Name item = "")
  /\ ~ (exists item, item ∈ [SampleRun.unnamed]
                     /\ e_Requires_Travel item = true
                     /\ e_Period_Name item = "Local")
  /\ export_to_excel remove_dups SampleRun.wb_save (Some [SampleRun.unnamed])
       "costs.xlsx" 2
     = ExportFailed.
Proof.
  assert ("costs.xlsx" <> "") as Hname by discriminate.
  assert (exists item, item ∈ [SampleRun.unnamed]
                       /\ e_Requires_Travel item = true
                       /\ e_Period_Name item = "") as Hunnamed
    by (exists SampleRun.unnamed; split; [left|split; reflexivity]).
  assert (~ (exists item, item ∈ [SampleRun.unnamed]
                          /\ e_Requires_Travel item = true
                          /\ e_Period_Name item = "Local")) as Hlocal.
  { intros (item & Hitem & _ & Hn).
    apply list_elem_of_singleton in Hitem. subst item. discriminate Hn. }
  split; [exact Hname|]. split; [exact Hunnamed|]. split; [exact Hlocal|].
  exact (export_fails_on_unnamed_period remove_dups SampleRun.wb_save
           [SampleRun.unnamed] "costs.xlsx" 2 sample_iteration Hname
           Hunnamed Hlocal).
Defined.

Lemma export_of_run_reaches_save_witness :
  SampleRun.run
  = Ok (SampleRun.df_summary, SampleRun.export, SampleRun.calendar)
  /\ filter (fun item => e_Requires_Travel item = true) SampleRun.export
     = SampleRun.export
  /\ exists ws,
       forall wb_save,
         export_to_excel remove_dups wb_save (Some SampleRun.export)
           "costs.xlsx" 7
         = if wb_save "costs.xlsx" ws then ExportSuccessful "costs.xlsx" ws
           else ExportFailed.
Proof.
  split; [exact sample_run|].
  apply (export_of_run_reaches_save remove_dups Sample.lower
           Sample.to_datetime
           Sample.df_cast_dates 2 false "Day Before Shooting"
           "Day After Shooting" Sample.cast_member_settings
           Sample.shooting_periods SampleRun.df_summary SampleRun.export
           SampleRun.calendar "costs.xlsx" 7 sample_iteration sample_arrival
           sample_departure sample_run); discriminate.
Defined.

Lemma subtotals_refer_to_own_row_witness :
  export_to_excel remove_dups SampleRun.wb_save (Some SampleRun.export)
    "costs.xlsx" 2
  = ExportSuccessful "costs.xlsx" SampleRun.ws
  /\ forall k row,
       SampleRun.ws !! k = Some row -> length row = 11%nat ->
       row = map Text headers
       \/ row !! 10%nat = Some (Text (subtotal_formula (Z.of_nat k + 1))).
Proof.
  split; [exact sample_export|].
  exact (subtotals_refer_to_own_row remove_dups SampleRun.wb_save
           SampleRun.export "costs.xlsx" "costs.xlsx" 2 SampleRun.ws
           sample_export).
Defined.

Lemma per_diem_days_of_stay_witness :
  SampleRun.run
  = Ok (SampleRun.df_summary, SampleRun.export, SampleRun.calendar)
  /\ forall item spin_box rate_cell_refs ws ws',
       item ∈ SampleRun.export ->
       export_item spin_box rate_cell_refs ws item = Some ws' ->
       exists rows,
         ws' = (ws ++ rows)%list
         /\ per_diem_days rows
            = e_Period_Accommodation_Nights item + 1
              - (if decide (e_Number_of_Gap_Days item <= spin_box)
                 then 0 else e_Number_of_Gap_Days item).
Proof.
  split; [exact sample_run|].
  exact (per_diem_days_of_stay Sample.lower Sample.to_datetime
           Sample.df_cast_dates 2 false "Day Before Shooting"
           "Day After Shooting" Sample.cast_member_settings
           Sample.shooting_periods SampleRun.df_summary SampleRun.export
           SampleRun.calendar sample_no_record_twice sample_arrival
           sample_departure sample_run).
Defined.

Lemma rates_refer_to_location_row_witness :
  export_to_excel remove_dups SampleRun.wb_save (Some SampleRun.export)
    "costs.xlsx" 2
  = ExportSuccessful "costs.xlsx" SampleRun.ws
  /\ forall k row,
       SampleRun.ws !! k = Some row -> length row = 11%nat ->
       row = map Text headers
       \/ exists item r col rest,
            item ∈ SampleRun.export /\ e_Requires_Travel item = true
            /\ SampleRun.ws !! Z.to_nat (r - 1)
               = Some (rate_row (location_of item))
            /\ 2 <= col <= 7
            /\ row !! 0%nat = Some (Text (item_label item +:+ rest))
            /\ row !! 6%nat = Some (Text ("=$" +:+ coordinate r col)).
Proof.
  split; [exact sample_export|].
  exact (rates_refer_to_location_row remove_dups SampleRun.wb_save
           SampleRun.export "costs.xlsx" "costs.xlsx" 2 SampleRun.ws
           sample_export).
Defined.

Lemma calendar_closed_form_witness :
  SampleRun.run
  = Ok (SampleRun.df_summary, SampleRun.export, SampleRun.calendar)
  /\ exists df_filtered,
       filtered_frame Sample.lower Sample.to_datetime Sample.df_cast_dates
         Sample.cast_member_settings Sample.shooting_periods = Ok df_filtered
       /\ SampleRun.calendar
          = flat_map (stay_events "Day Before Shooting" "Day After Shooting")
              (all_stays 2
                 (Frame.groupby group_key_leb grouping_columns df_filtered)).
Proof.
  split; [exact sample_run|].
  exact (calendar_closed_form Sample.lower Sample.to_datetime
           Sample.df_cast_dates 2 false "Day Before Shooting"
           "Day After Shooting" Sample.cast_member_settings
           Sample.shooting_periods SampleRun.df_summary SampleRun.export
           SampleRun.calendar sample_arrival sample_departure sample_run).
Defined.

Lemma calendar_shooting_days_witness :
  SampleRun.run
  = Ok (SampleRun.df_summary, SampleRun.export, SampleRun.calendar)
  /\ exists df_filtered,
       filtered_frame Sample.lower Sample.to_datetime Sample.df_cast_dates
         Sample.cast_member_settings Sample.shooting_periods = Ok df_filtered
       /\ forall ev,
            (ev ∈ SampleRun.calendar
             /\ exists p, c_Title ev = "Shooting in " +:+ p)
            <-> exists r p,
                  r ∈ df_filtered /\ Period_Name (row r) = Some p
                  /\ ev = shooting_event (Cast_Member (cast (row r))) p
                            (row_date r).
Proof.
  split; [exact sample_run|].
  exact (calendar_shooting_days Sample.lower Sample.to_datetime
           Sample.df_cast_dates 2 false "Day Before Shooting"
           "Day After Shooting" Sample.cast_member_settings
           Sample.shooting_periods SampleRun.df_summary SampleRun.export
           SampleRun.calendar sample_arrival sample_departure sample_run).
Defined.

Lemma arrival_departure_by_policy_witness :
  valid_arrival "Day Before Shooting"
  /\ valid_departure "Day After Shooting"
  /\ SampleRun.run
     = Ok (SampleRun.df_summary, SampleRun.export, SampleRun.calendar)
  /\ exists e period,
       period ∈ stay_periods 2
                  (filter (fun r => grouping_columns r
                                    = Some ("Alice", "Local", "Block 1", true))
                     SampleRun.df_filtered)
       /\ period_dates period = [Sample.jan_1; Sample.jan_2]
       /\ e ∈ SampleRun.export
       /\ e_Cast_Member e = "Alice"
       /\ e_Shooting_Dates e = [Sample.jan_1; Sample.jan_2]
       /\ e_Period_Start_Date e = Sample.jan_1 - 1
       /\ e_Period_End_Date e = Sample.jan_2 + 1
       /\ e_Period_Travel_Days e = 2.
Proof.
  split; [exact sample_arrival|]. split; [exact sample_departure|].
  split; [exact sample_run|].
  destruct (arrival_departure_by_policy Sample.lower Sample.to_datetime
              Sample.df_cast_dates 2 false "Day Before Shooting"
              "Day After Shooting" Sample.cast_member_settings
              Sample.shooting_periods SampleRun.df_summary SampleRun.export
              SampleRun.calendar sample_arrival sample_departure sample_run)
    as (df_filtered & Hframe & _ & Hrecord).
  rewrite sample_frame in Hframe. injection Hframe as <-.
  set (key := ("Alice", "Local", "Block 1", true) : GroupKey).
  set (group := filter (fun r => grouping_columns r = Some key)
                  SampleRun.df_filtered).
  assert ((key, group)
          ∈ Frame.groupby group_key_leb grouping_columns
              SampleRun.df_filtered) as Hg.
  { apply elem_of_groupby. split; [|reflexivity].
    exists (Sample.travel_row "Alice" Sample.jan_1).
    split; [left|reflexivity]. }
  assert (exists period,
            period ∈ stay_periods 2 group
            /\ period_dates period = [Sample.jan_1; Sample.jan_2])
    as (period & Hp & Hdates).
  { eexists. split; [vm_compute; left|reflexivity]. }
  destruct (Hrecord key group period Hg eq_refl Hp)
    as (e & He & Hname & _ & _ & Hshoot & _ & _ & Hstart & _ & Hend & _
        & _ & Htwo & _).
  exists e, period. split; [exact Hp|]. split; [exact Hdates|].
  split; [exact He|]. split; [exact Hname|].
  rewrite Hdates in Hshoot, Hstart, Hend.
  specialize (Hstart eq_refl). specialize (Hend eq_refl).
  split; [exact Hshoot|]. split; [exact Hstart|]. split; [exact Hend|].
  apply Htwo. rewrite Hstart, Hend. discriminate.
Defined.

Lemma accommodation_nights_span_witness :
  valid_arrival "Day Before Shooting"
  /\ valid_departure "Day After Shooting"
  /\ SampleRun.run
     = Ok (SampleRun.df_summary, SampleRun.export, SampleRun.calendar)
  /\ exists e period,
       period ∈ stay_periods 2
                  (filter (fun r => grouping_columns r
                                    = Some ("Alice", "Local", "Block 1", true))
                     SampleRun.df_filtered)
       /\ period_dates period = [Sample.jan_1; Sample.jan_2]
       /\ e ∈ SampleRun.export
       /\ e_Period_Start_Date e = Sample.jan_1 - 1
       /\ e_Period_End_Date e = Sample.jan_2 + 1
       /\ e_Period_Accommodation_Nights e = 3.
Proof.
  split; [exact sample_arrival|]. split; [exact sample_departure|].
  split; [exact sample_run|].
  destruct (accommodation_nights_span Sample.lower Sample.to_datetime
              Sample.df_cast_dates 2 false "Day Before Shooting"
              "Day After Shooting" Sample.cast_member_settings
              Sample.shooting_periods SampleRun.df_summary SampleRun.export
              SampleRun.calendar sample_arrival sample_departure sample_run)
    as (df_filtered & Hframe & _ & Hrecord).
  rewrite sample_frame in Hframe. injection Hframe as <-.
  set (key := ("Alice", "Local", "Block 1", true) : GroupKey).
  set (group := filter (fun r => grouping_columns r = Some key)
                  SampleRun.df_filtered).
  assert ((key, group)
          ∈ Frame.groupby group_key_leb grouping_columns
              SampleRun.df_filtered) as Hg.
  { apply elem_of_groupby. split; [|reflexivity].
    exists (Sample.travel_row "Alice" Sample.jan_1).
    split; [left|reflexivity]. }
  assert (exists period,
            period ∈ stay_periods 2 group
            /\ period_dates period = [Sample.jan_1; Sample.jan_2])
    as (period & Hp & Hdates).
  { eexists. split; [vm_compute; left|reflexivity]. }
  destruct (Hrecord key group period Hg eq_refl Hp)
    as (e & He & _ & _ & _ & _ & Hstart & Hend & Hnights & _).
  exists e, period. split; [exact Hp|]. split; [exact Hdates|].
  split; [exact He|].
  rewrite Hdates in Hstart, Hend, Hnights.
  split; [exact Hstart|]. split; [exact Hend|]. exact Hnights.
Defined.
